(** * Ecosystem API: the rail and car aggregation handlers of [main.py]

    A shallow embedding of [get_train_routes] and [get_car_routes] and of
    the Python they are written in, followed by the properties the
    specification states about them.

    Conventions of the embedding.
    - Upstream JSON is the untyped [json] below; a Python [dict] decoded
      from JSON is a [gmap string json].
    - A Python [float] is an IEEE binary64, here Rocq's primitive [float];
      a Python [int] is a [Z].
    - A Python [str] is a sequence of code points; the Rocq [string] that
      holds it is its UTF-8 encoding, which [chars] reads and [text] writes.
      Indexing, slicing, [re] and [float] work on the code points.
    - The character classes of [re] on a [str] are Unicode's: [\d] is a
      decimal digit of any script and [\w] an alphanumeric character or the
      underscore. Which code points these are is read from the interpreter's
      Unicode database, a parameter of the embedding.
    - An exception is a value of [exn]; code that can raise returns a
      [result].
    - The HTTP client, the clock, the API keys and pydantic's coercion of a
      field are parameters of the handlers. Within one request the answer
      of the HTTP client depends on the URL and the headers only. *)

From Stdlib Require Import ZArith QArith Qabs String Ascii List Lia Floats DecimalString.
From Stdlib Require DecimalPos DecimalN.
From stdpp Require Import base option list gmap strings.

#[local] Set Warnings "-register-all,-inexact-float".
#[local] Open Scope Z_scope.
#[local] Open Scope list_scope.

(** ** JSON values, as [response.json()] returns them *)

Inductive json : Type :=
| JNull
| JBool (b : bool)
| JInt (n : Z)
| JFloat (f : float)
| JStr (s : string)
| JList (l : list json)
| JDict (m : gmap string json).

(** ** Exceptions and results *)

(** What a [requests.RequestException] was raised for. *)
Inductive request_error : Type :=
| ConnectionFailure (msg : string)
| HTTPError (status_code : Z) (url : string)
| JSONDecodeError (url : string).

Inductive exn : Type :=
| RequestException (e : request_error)
| HTTPException (status_code : Z) (detail : string)
| AttributeError
| KeyError
| IndexError
| TypeError
| ValueError
| ZeroDivisionError
| OverflowError
| ValidationError.

Inductive result (A : Type) : Type :=
| Ok (a : A)
| Raise (e : exn).
Arguments Ok {A} a.
Arguments Raise {A} e.

#[global] Instance result_ret : MRet result := λ A a, Ok a.
#[global] Instance result_bind : MBind result := λ A B f m,
  match m with
  | Ok a => f a
  | Raise e => Raise e
  end.

(** [Model(...)] of a pydantic model: a field that does not validate raises. *)
Definition validated {A} (o : option A) : result A :=
  match o with
  | Some a => Ok a
  | None => Raise ValidationError
  end.

(** ** Python on JSON values *)

Definition is_zero_float (f : float) : bool := PrimFloat.eqb f 0%float.

(** [bool(x)]. *)
Definition truthy (j : json) : bool :=
  match j with
  | JNull => false
  | JBool b => b
  | JInt n => negb (n =? 0)
  | JFloat f => negb (is_zero_float f)
  | JStr s => negb (String.eqb s "")
  | JList l => match l with [] => false | _ => true end
  | JDict m => negb (bool_decide (m = ∅))
  end.

(** [x.get(k, dflt)]; only a dict has [get]. *)
Definition py_get_default (x : json) (k : string) (dflt : json) : result json :=
  match x with
  | JDict m => Ok (default dflt (m !! k))
  | _ => Raise AttributeError
  end.

(** [x.get(k)]: [None] when the key is absent. *)
Definition py_get (x : json) (k : string) : result json := py_get_default x k JNull.

(** [x[k]] for a string key. *)
Definition py_getitem (x : json) (k : string) : result json :=
  match x with
  | JDict m => match m !! k with Some v => Ok v | None => Raise KeyError end
  | _ => Raise TypeError
  end.

(** *** Code points

    A code point is a number below 1114112. In UTF-8 it takes one to four
    bytes; a lone surrogate, which a JSON text can carry, is held in its
    three bytes. Bytes that encode no code point, which no [str] gives,
    read as the replacement character. *)

Definition codepoint : Type := N.

Definition continuation_byte (b : N) : bool := ((128 <=? b) && (b <? 192))%N.

Definition two_bytes (b0 b1 : N) : option codepoint :=
  if ((194 <=? b0) && (b0 <? 224))%N && continuation_byte b1
  then Some ((b0 - 192) * 64 + (b1 - 128))%N
  else None.

Definition three_bytes (b0 b1 b2 : N) : option codepoint :=
  let c := ((b0 - 224) * 4096 + (b1 - 128) * 64 + (b2 - 128))%N in
  if ((224 <=? b0) && (b0 <? 240))%N && continuation_byte b1 && continuation_byte b2
     && (2048 <=? c)%N
  then Some c
  else None.

Definition four_bytes (b0 b1 b2 b3 : N) : option codepoint :=
  let c := ((b0 - 240) * 262144 + (b1 - 128) * 4096 + (b2 - 128) * 64 + (b3 - 128))%N in
  if ((240 <=? b0) && (b0 <? 248))%N && continuation_byte b1 && continuation_byte b2
     && continuation_byte b3 && (65536 <=? c)%N && (c <? 1114112)%N
  then Some c
  else None.

Definition replacement_character : codepoint := 65533%N.

Fixpoint decode (bytes : list N) : list codepoint :=
  match bytes with
  | [] => []
  | b0 :: l1 =>
      if (b0 <? 128)%N then b0 :: decode l1
      else
        match l1 with
        | b1 :: l2 =>
            match two_bytes b0 b1 with
            | Some c => c :: decode l2
            | None =>
                match l2 with
                | b2 :: l3 =>
                    match three_bytes b0 b1 b2 with
                    | Some c => c :: decode l3
                    | None =>
                        match l3 with
                        | b3 :: l4 =>
                            match four_bytes b0 b1 b2 b3 with
                            | Some c => c :: decode l4
                            | None => replacement_character :: decode l1
                            end
                        | [] => replacement_character :: decode l1
                        end
                    end
                | [] => replacement_character :: decode l1
                end
            end
        | [] => replacement_character :: decode l1
        end
  end.

Definition encode (c : codepoint) : list N :=
  if (c <? 128)%N then [c]
  else if (c <? 2048)%N then [192 + c / 64; 128 + c mod 64]%N
  else if (c <? 65536)%N then [224 + c / 4096; 128 + (c / 64) mod 64; 128 + c mod 64]%N
  else [240 + c / 262144; 128 + (c / 4096) mod 64; 128 + (c / 64) mod 64; 128 + c mod 64]%N.

(** The code points of a [str], and the [str] of a list of code points. *)
Definition chars (s : string) : list codepoint :=
  decode (N_of_ascii <$> list_ascii_of_string s).
Definition text (l : list codepoint) : string :=
  string_of_list_ascii (ascii_of_N <$> (l ≫= encode)).

(** A code point of Unicode. *)
Definition is_codepoint (c : codepoint) : Prop := (c < 1114112)%N.


(** A text of ASCII characters: each byte is a code point. *)
Definition is_ascii_text (s : string) : Prop :=
  Forall (λ c, (N_of_ascii c < 128)%N) (list_ascii_of_string s).

(** [l[i]] for an integer index, counted from the end when negative. *)
Definition list_index {A} (l : list A) (i : Z) : option A :=
  let n := Z.of_nat (length l) in
  if (0 <=? i) && (i <? n) then l !! Z.to_nat i
  else if (- n <=? i) && (i <? 0) then l !! Z.to_nat (n + i)
  else None.

(** [x[i]] for an integer index. A dict decoded from JSON has string keys
    only, so an integer key is never found. *)
Definition py_index (x : json) (i : Z) : result json :=
  match x with
  | JList l => match list_index l i with Some v => Ok v | None => Raise IndexError end
  | JStr s =>
      match list_index (chars s) i with
      | Some c => Ok (JStr (text [c]))
      | None => Raise IndexError
      end
  | JDict _ => Raise KeyError
  | _ => Raise TypeError
  end.

(** [l[:n]]: the first [n] elements, or all but the last [-n] when [n] is
    negative. *)
Definition slice_to {A} (n : Z) (l : list A) : list A :=
  if 0 <=? n then take (Z.to_nat n) l
  else take (length l - Z.to_nat (- n))%nat l.

(** [x[:n]]; slicing a dict is a [TypeError] (a [KeyError] from Python 3.12
    on, where a slice is hashable). *)
Definition py_slice_to (x : json) (n : Z) : result json :=
  match x with
  | JList l => Ok (JList (slice_to n l))
  | JStr s => Ok (JStr (text (slice_to n (chars s))))
  | _ => Raise TypeError
  end.

(** [for v in x]: the values the loop sees. A dict gives its keys. *)
Definition py_iter (x : json) : result (list json) :=
  match x with
  | JList l => Ok l
  | JStr s => Ok ((λ c, JStr (text [c])) <$> chars s)
  | JDict m => Ok ((λ kv, JStr kv.1) <$> map_to_list m)
  | _ => Raise TypeError
  end.

(** [str(x)] inside an f-string. A string is itself; the text of any other
    value is left to [repr]. *)
Definition py_str (repr : json → string) (x : json) : string :=
  match x with
  | JStr s => s
  | _ => repr x
  end.

(** [x != s] for a string literal [s]. *)
Definition py_ne_str (x : json) (s : string) : bool :=
  match x with
  | JStr t => negb (String.eqb t s)
  | _ => true
  end.

(** ** Numbers *)

Definition Z2SF (z : Z) : spec_float :=
  match z with
  | Z0 => S754_zero false
  | Zpos p => S754_finite false p 0
  | Zneg p => S754_finite true p 0
  end.

(** The binary64 nearest to a rational (ties to even, infinite when out of
    range): the value of an operation that is correctly rounded. *)
Definition round_Q (q : Q) : float :=
  let r := Qred q in
  SF2Prim (SFdiv prec emax (Z2SF (Qnum r)) (Z2SF (Zpos (Qden r)))).

(** The least magnitude that rounds past the largest binary64. *)
Definition overflow_threshold : Q := inject_Z (2 ^ 1024 - 2 ^ 970).

Definition Q_of_fraction (a b : Z) : Q :=
  if 0 <? b then a # Z.to_pos b else (- a) # Z.to_pos (- b).

(** [a / b] on two ints: the correctly rounded quotient. *)
Definition int_truediv (a b : Z) : result float :=
  if b =? 0 then Raise ZeroDivisionError
  else
    let q := Q_of_fraction a b in
    if Qle_bool overflow_threshold (Qabs q) then Raise OverflowError
    else if a =? 0 then Ok (if b <? 0 then neg_zero else zero)
    else Ok (round_Q q).

(** [float(n)] for an int, as the arithmetic does before a mixed operation. *)
Definition float_of_int (n : Z) : result float :=
  if Qle_bool overflow_threshold (Qabs (inject_Z n)) then Raise OverflowError
  else Ok (round_Q (inject_Z n)).

Definition float_truediv (x y : float) : result float :=
  if is_zero_float y then Raise ZeroDivisionError else Ok (x / y)%float.

Inductive py_number : Type :=
| NInt (n : Z)
| NFloat (f : float).

(** The values arithmetic accepts; a [bool] is the int 0 or 1. *)
Definition as_number (j : json) : option py_number :=
  match j with
  | JInt n => Some (NInt n)
  | JBool b => Some (NInt (if b then 1 else 0))
  | JFloat f => Some (NFloat f)
  | _ => None
  end.

(** [x / y]. *)
Definition py_truediv (x y : json) : result float :=
  match as_number x, as_number y with
  | Some (NInt a), Some (NInt b) => int_truediv a b
  | Some (NFloat f), Some (NInt b) => g ← float_of_int b; float_truediv f g
  | Some (NInt a), Some (NFloat g) => f ← float_of_int a; float_truediv f g
  | Some (NFloat f), Some (NFloat g) => float_truediv f g
  | _, _ => Raise TypeError
  end.

(** ** Text *)

(** *** The Unicode database

    What the interpreter knows of a code point: whether it is a decimal
    digit (category Nd) and of which value, as [str.isdecimal], [\d] and
    [float] read it, and whether it is alphanumeric, as [str.isalnum] and
    [\w] read it. Decimal digits come in runs of ten, from a zero to a
    nine. The database changes with the version of the interpreter; in
    every version the ASCII part is the same and a decimal digit is
    alphanumeric. *)
Class Unicode : Type := {
  (** The zero of every run of decimal digits. *)
  decimal_zeros : list codepoint;
  (** The ranges of alphanumeric code points, each from its first to its
      last. *)
  alphanumeric_ranges : list (codepoint * codepoint);
  decimal_zeros_ascii :
    filter (λ z, (z <? 128)%N = true) decimal_zeros = [48%N];
  alphanumeric_ranges_ascii :
    filter (λ r, (r.1 <? 128)%N = true) alphanumeric_ranges
    = [(48, 57); (65, 90); (97, 122)]%N;
  decimal_alphanumeric :
    forallb
      (λ z, existsb (λ r, (r.1 <=? z) && (z + 9 <=? r.2))%N alphanumeric_ranges)
      decimal_zeros
    = true }.


Section Text.
Context `{Unicode}.

(** The value of a decimal digit; [None] for any other code point. *)
Definition decimal_digit (c : codepoint) : option N :=
  (λ z, c - z)%N <$> find (λ z, (z <=? c) && (c <=? z + 9))%N decimal_zeros.

(** [str.isalnum] of one character. *)
Definition alphanumeric (c : codepoint) : bool :=
  existsb (λ r, (r.1 <=? c) && (c <=? r.2))%N alphanumeric_ranges.

(** [\d]. *)
Definition is_digit (c : codepoint) : bool :=
  match decimal_digit c with
  | Some _ => true
  | None => false
  end.

(** [[A-Z]]. *)
Definition is_upper (c : codepoint) : bool := ((65 <=? c) && (c <=? 90))%N.

(** The point, [.]. *)
Definition is_point (c : codepoint) : bool := (c =? 46)%N.

(** [\w]. *)
Definition is_word (c : codepoint) : bool := alphanumeric c || (c =? 95)%N.

Definition digit_value (c : codepoint) : Z := Z.of_N (default 0%N (decimal_digit c)).

(** The int a run of decimal digits writes. *)
Definition digits_value (l : list codepoint) : Z :=
  fold_left (λ acc c, 10 * acc + digit_value c) l 0.

(** The text before the first point, and the text after it if there is one. *)
Fixpoint split_point (l : list codepoint) : list codepoint * option (list codepoint) :=
  match l with
  | [] => ([], None)
  | c :: l' =>
      if is_point c then ([], Some l')
      else let '(ip, fp) := split_point l' in (c :: ip, fp)
  end.

(** [float(s)] for a plain decimal: digits with at most one point and at
    least one digit. This program passes [float] only text made of decimal
    digits and points; anything else in that alphabet is a [ValueError].
    A digit of any script is read by its value, and the result is correctly
    rounded. *)
Definition float_of_decimal (s : string) : result float :=
  let '(ip, fp) := split_point (chars s) in
  let fp := default [] fp in
  if forallb is_digit ip && forallb is_digit fp
     && negb (Nat.eqb (length ip + length fp) 0)
  then Ok (round_Q (digits_value (ip ++ fp) # Z.to_pos (10 ^ Z.of_nat (length fp))))
  else Raise ValueError.

End Text.

(** The decimal digits of a natural number. *)
Definition decimal (n : Z) : string := NilZero.string_of_uint (N.to_uint (Z.to_N n)).

(** The integer nearest to [m * 2 ^ e], ties to even, for [m >= 0]. *)
Definition round_half_even (m e : Z) : Z :=
  if 0 <=? e then m * 2 ^ e
  else
    let d := 2 ^ (- e) in
    let q := m / d in
    let r := m mod d in
    if 2 * r <? d then q
    else if d <? 2 * r then q + 1
    else if Z.even q then q else q + 1.

(** The two digits after the point. *)
Definition two_digits (n : Z) : string :=
  if n <? 10 then "0" +:+ decimal n else decimal n.

(** [f"{x:.2f}"]: [x] to two decimal places, its exact value rounded with
    ties to even. *)
Definition format_2f (x : float) : string :=
  match Prim2SF x with
  | S754_nan => "nan"
  | S754_infinity s => if s then "-inf" else "inf"
  | S754_zero s => if s then "-0.00" else "0.00"
  | S754_finite s m e =>
      let cents := round_half_even (Zpos m * 100) e in
      (if s then "-" else "") +:+ decimal (cents / 100) +:+ "." +:+ two_digits (cents mod 100)
  end.

(** ** Regular expressions

    The two patterns of the program are a character class and a sequence of
    word boundaries, classes and greedy repetitions of a class; [re] matches
    such a sequence by backtracking, the longest repetition first. *)

Inductive atom : Type :=
| Boundary
| Class (p : codepoint → bool)
| ClassPlus (p : codepoint → bool).

Section Regex.
Context `{Unicode}.

(** Whether the neighbour of a position is a word character; an end of the
    text is none. *)
Definition word_side (c : option codepoint) : bool := from_option is_word false c.

(** [p+] followed by the rest of the pattern [k]: one more character first,
    the rest of the pattern when that fails. *)
Fixpoint match_plus (p : codepoint → bool)
    (k : option codepoint → list codepoint → option (list codepoint))
    (s : list codepoint) : option (list codepoint) :=
  match s with
  | c :: s' =>
      if p c then
        match match_plus p k s' with
        | Some m => Some (c :: m)
        | None => (c ::.) <$> k (Some c) s'
        end
      else None
  | [] => None
  end.

(** The text the pattern matches at the head of [s], where [prev] is the
    character before it. *)
Fixpoint match_here (pat : list atom) (prev : option codepoint) (s : list codepoint)
    : option (list codepoint) :=
  match pat with
  | [] => Some []
  | Boundary :: pat' =>
      if xorb (word_side prev) (word_side (head s)) then match_here pat' prev s
      else None
  | Class p :: pat' =>
      match s with
      | c :: s' => if p c then (c ::.) <$> match_here pat' (Some c) s' else None
      | [] => None
      end
  | ClassPlus p :: pat' => match_plus p (match_here pat') s
  end.

(** The leftmost match in [s]. *)
Fixpoint search_from (pat : list atom) (prev : option codepoint) (s : list codepoint)
    : option (list codepoint) :=
  match match_here pat prev s with
  | Some m => Some m
  | None =>
      match s with
      | [] => None
      | c :: s' => search_from pat (Some c) s'
      end
  end.

(** [re.search(pat, s)], then [match.group(0)]; [None] when nothing matches. *)
Definition re_search (pat : list atom) (s : string) : option string :=
  text <$> search_from pat None (chars s).

End Regex.

(** [re.sub(cls, '', s)] for a one-character class: every character of the
    class is removed. *)
Definition re_sub_class (cls : codepoint → bool) (s : string) : string :=
  text (filter (λ c, cls c = false) (chars s)).

(** ** The pydantic models *)

Module Route.
Record t : Type := Build {
  fromStation : string;
  toStation : string;
  fromStationCode : option string;
  toStationCode : option string }.
End Route.

Module Product.
Record t : Type := Build {
  longCategoryName : string;
  number : string }.
End Product.

Module Leg.
Record t : Type := Build {
  name : string;
  direction : string;
  plannedDepartureTime : string;
  plannedDepartureTrack : option string;
  product : option Product.t }.
End Leg.

Module Trip.
Record t : Type := Build {
  idx : Z;
  plannedDurationInMinutes : Z;
  actualDurationInMinutes : option Z;
  transfers : Z;
  status : string;
  legs : list Leg.t;
  crowdForecast : option string;
  punctuality : option float }.
End Trip.

Module Disruption.
Record t : Type := Build {
  id : string;
  title : string;
  isActive : bool;
  impact : gmap string Z }.
End Disruption.

Module RouteResponse.
Record t : Type := Build {
  routeKey : string;
  trips : list Trip.t;
  disruptions : list Disruption.t }.
End RouteResponse.

Module RouteRequest.
Record t : Type := Build {
  routes : list Route.t;
  max_journeys : Z;
  is_reversed : bool }.
End RouteRequest.

Module CarRoute.
Record t : Type := Build {
  id : Z;
  origin : string;
  destination : string;
  originName : string;
  destinationName : string;
  name : string }.
End CarRoute.

Module CarRouteRequest.
Record t : Type := Build {
  routes : list CarRoute.t;
  is_reversed : bool }.
End CarRouteRequest.

Module CarTripResponse.
Record t : Type := Build {
  id : Z;
  from_location : string;
  to : string;
  distance : string;
  duration : string;
  durationInTraffic : string;
  traffic : string;
  route : string;
  fuelCost : string;
  status : string }.
End CarTripResponse.

(** What pydantic does with the value given for a field of type [str], [int]
    or [float]: the validated value, or [None] when it rejects it. Which
    values of another type it converts depends on its version; a value of
    the field's own type is kept as it is. *)
Class Pydantic : Type := {
  validate_str : json → option string;
  validate_int : json → option Z;
  validate_float : json → option float;
  validate_str_str : ∀ s, validate_str (JStr s) = Some s;
  validate_int_int : ∀ n, validate_int (JInt n) = Some n;
  validate_float_float : ∀ f, validate_float (JFloat f) = Some f }.

(** A field of type [Optional[T]]. *)
Definition validate_optional {A} (validate : json → option A) (j : json)
    : option (option A) :=
  match j with
  | JNull => Some None
  | _ => Some <$> validate j
  end.

(** ** The HTTP client *)

Record response : Type := Response {
  status_code : Z;
  body : option json   (* [None]: the body is not JSON *) }.

Inductive http_outcome : Type :=
| Failed (msg : string)      (* no response: [requests.get] raises *)
| Responded (r : response).

(** [response.raise_for_status()]. *)
Definition is_error_status (r : response) : bool :=
  (400 <=? status_code r) && (status_code r <? 600).

Definition raise_for_status (url : string) (r : response) : result unit :=
  if is_error_status r then Raise (RequestException (HTTPError (status_code r) url))
  else Ok tt.

(** [response.ok]. *)
Definition ok (r : response) : bool := negb (is_error_status r).

(** [response.json()]; its decoding error is a [RequestException]
    (requests 2.27 and later). *)
Definition response_json (url : string) (r : response) : result json :=
  match body r with
  | Some j => Ok j
  | None => Raise (RequestException (JSONDecodeError url))
  end.

(** ** Loops *)

(** [for x in xs: acc.append(body(x))]. *)
Fixpoint for_append {A B} (body : A → result B) (xs : list A) (acc : list B)
    : result (list B) :=
  match xs with
  | [] => Ok acc
  | x :: xs' => y ← body x; for_append body xs' (acc ++ [y])
  end.

(** [for idx, x in enumerate(xs): acc.append(body(idx, x))], from [idx]. *)
Fixpoint for_enumerate {A B} (body : Z → A → result B) (idx : Z) (xs : list A)
    (acc : list B) : result (list B) :=
  match xs with
  | [] => Ok acc
  | x :: xs' => y ← body idx x; for_enumerate body (idx + 1) xs' (acc ++ [y])
  end.

(** [a or b], where [b] is evaluated only when [a] is falsy. *)
Definition py_or_else (a : json) (b : result json) : result json :=
  if truthy a then Ok a else b.

(** [sep.join(l)]. *)
Fixpoint join (sep : string) (l : list string) : string :=
  match l with
  | [] => ""
  | [x] => x
  | x :: l' => x +:+ sep +:+ join sep l'
  end.

(** ** The handlers *)

(** What a handler reads from outside: the API keys of the environment, the
    HTTP client, the clock, and the text Python gives an error or a JSON
    value. *)
Class Environment : Type := {
  NS_API_KEY : string;
  GOOGLE_MAPS_API_KEY : string;
  (** [requests.get(url, headers=headers)]. *)
  requests_get : string → list (string * string) → http_outcome;
  (** [datetime.utcnow().isoformat()] when the request arrives. *)
  now : string;
  (** [str(e)] for a [RequestException]. *)
  str_of_error : request_error → string;
  (** [str(x)] for a JSON value that is not a string. *)
  repr : json → string }.

Section Handlers.
Context `{Pydantic, Environment, Unicode}.

Definition http_get (url : string) (headers : list (string * string))
    : result response :=
  match requests_get url headers with
  | Failed msg => Raise (RequestException (ConnectionFailure msg))
  | Responded r => Ok r
  end.

(** [try: body except requests.RequestException as e: raise
    HTTPException(status_code=500, detail=f"{prefix}{str(e)}")]. *)
Definition except_RequestException {A} (prefix : string) (body : result A) : result A :=
  match body with
  | Raise (RequestException e) => Raise (HTTPException 500 (prefix +:+ str_of_error e))
  | r => r
  end.

(** *** [get_train_routes] *)

Definition headers : list (string * string) :=
  [("Ocp-Apim-Subscription-Key", NS_API_KEY); ("Accept", "application/json")]%string.

Definition actual_from_station (is_reversed : bool) (route : Route.t) : string :=
  if is_reversed then Route.toStation route else Route.fromStation route.
Definition actual_to_station (is_reversed : bool) (route : Route.t) : string :=
  if is_reversed then Route.fromStation route else Route.toStation route.
Definition actual_from_station_code (is_reversed : bool) (route : Route.t)
    : option string :=
  if is_reversed then Route.toStationCode route else Route.fromStationCode route.
Definition actual_to_station_code (is_reversed : bool) (route : Route.t)
    : option string :=
  if is_reversed then Route.fromStationCode route else Route.toStationCode route.

Definition route_key (is_reversed : bool) (route : Route.t) : string :=
  actual_from_station is_reversed route +:+ "-" +:+ actual_to_station is_reversed route.

Definition trips_url (is_reversed : bool) (route : Route.t) : string :=
  "https://gateway.apiportal.ns.nl/reisinformatie-api/api/v3/trips"
  +:+ "?fromStation=" +:+ actual_from_station is_reversed route
  +:+ "&toStation=" +:+ actual_to_station is_reversed route
  +:+ "&dateTime=" +:+ now
  +:+ "&searchForArrival=false".

(** [leg.get(outer, {}).get(inner)]. *)
Definition nested_get (leg : json) (outer inner : string) : result json :=
  o ← py_get_default leg outer (JDict ∅); py_get o inner.

Definition leg_name (leg : json) : result json :=
  a ← nested_get leg "product" "displayName";
  py_or_else a (
    b ← nested_get leg "product" "longCategoryName";
    py_or_else b (Ok (JStr "Train"))).

Definition leg_plannedDepartureTime (leg : json) : result json :=
  a ← nested_get leg "origin" "plannedDateTime";
  py_or_else a (
    b ← nested_get leg "origin" "actualDateTime";
    py_or_else b (Ok (JStr ""))).

Definition make_Product (longCategoryName number : json) : result Product.t :=
  validated (
    longCategoryName ← validate_str longCategoryName;
    number ← validate_str number;
    Some (Product.Build longCategoryName number)).

Definition leg_product (leg : json) : result (option Product.t) :=
  p ← py_get leg "product";
  if truthy p then
    a ← nested_get leg "product" "longCategoryName";
    longCategoryName ← py_or_else a (Ok (JStr "Train"));
    b ← nested_get leg "product" "number";
    number ← py_or_else b (Ok (JStr ""));
    product ← make_Product longCategoryName number;
    Ok (Some product)
  else Ok None.

Definition make_Leg (name direction plannedDepartureTime plannedDepartureTrack : json)
    (product : option Product.t) : result Leg.t :=
  validated (
    name ← validate_str name;
    direction ← validate_str direction;
    plannedDepartureTime ← validate_str plannedDepartureTime;
    plannedDepartureTrack ← validate_optional validate_str plannedDepartureTrack;
    Some (Leg.Build name direction plannedDepartureTime plannedDepartureTrack product)).

(** The [Leg(...)] built for one upstream leg. *)
Definition transform_leg (leg : json) : result Leg.t :=
  name ← leg_name leg;
  direction ← py_get_default leg "direction" (JStr "");
  plannedDepartureTime ← leg_plannedDepartureTime leg;
  plannedDepartureTrack ← nested_get leg "origin" "plannedTrack";
  product ← leg_product leg;
  make_Leg name direction plannedDepartureTime plannedDepartureTrack product.

Definition transform_legs (trip : json) : result (list Leg.t) :=
  l ← py_get trip "legs";
  if truthy l then
    l ← py_getitem trip "legs";
    items ← py_iter l;
    for_append transform_leg items []
  else Ok [].

Definition make_Trip (idx : Z)
    (plannedDurationInMinutes actualDurationInMinutes transfers status : json)
    (legs : list Leg.t) (crowdForecast punctuality : json) : result Trip.t :=
  validated (
    plannedDurationInMinutes ← validate_int plannedDurationInMinutes;
    actualDurationInMinutes ← validate_optional validate_int actualDurationInMinutes;
    transfers ← validate_int transfers;
    status ← validate_str status;
    crowdForecast ← validate_optional validate_str crowdForecast;
    punctuality ← validate_optional validate_float punctuality;
    Some (Trip.Build idx plannedDurationInMinutes actualDurationInMinutes transfers
            status legs crowdForecast punctuality)).

(** The body of the loop over the capped trips. *)
Definition transform_trip (idx : Z) (trip : json) : result Trip.t :=
  legs ← transform_legs trip;
  plannedDurationInMinutes ← py_get_default trip "plannedDurationInMinutes" (JInt 0);
  actualDurationInMinutes ← py_get trip "actualDurationInMinutes";
  transfers ← py_get_default trip "transfers" (JInt 0);
  status ← py_get_default trip "status" (JStr "NORMAL");
  crowdForecast ← py_get trip "crowdForecast";
  punctuality ← py_get trip "punctuality";
  make_Trip idx plannedDurationInMinutes actualDurationInMinutes transfers status
    legs crowdForecast punctuality.

Definition transform_trips (max_journeys : Z) (trips_data : json)
    : result (list Trip.t) :=
  t ← py_get trips_data "trips";
  if truthy t then
    t ← py_getitem trips_data "trips";
    capped ← py_slice_to t max_journeys;
    items ← py_iter capped;
    for_enumerate transform_trip 0 items []
  else Ok [].

Definition make_Disruption (id title value : json) : result Disruption.t :=
  validated (
    id ← validate_str id;
    title ← validate_str title;
    value ← validate_int value;
    Some (Disruption.Build id title true {[ "value"%string := value ]})).

Definition transform_disruption (disruption : json) : result Disruption.t :=
  id ← py_get_default disruption "id" (JStr "");
  title ← py_get_default disruption "title" (JStr "Unknown disruption");
  i ← py_get_default disruption "impact" (JDict ∅);
  value ← py_get_default i "value" (JInt 1);
  make_Disruption id title value.

(** The loop over the disruptions one station reports; [disruptions] is the
    list collected so far. *)
Fixpoint append_active (items : list json) (disruptions : list Disruption.t)
    : result (list Disruption.t) :=
  match items with
  | [] => Ok disruptions
  | disruption :: items' =>
      a ← py_get disruption "isActive";
      if truthy a then
        d ← transform_disruption disruption;
        append_active items' (disruptions ++ [d])
      else append_active items' disruptions
  end.

Definition disruption_url (station_code : string) : string :=
  "https://gateway.apiportal.ns.nl/disruptions/v3/station/" +:+ station_code.

(** The body of the [try] for one station. *)
Definition station_disruptions (station_code : string)
    (disruptions : list Disruption.t) : result (list Disruption.t) :=
  let url := disruption_url station_code in
  disruption_response ← http_get url headers;
  if ok disruption_response then
    disruption_data ← response_json url disruption_response;
    payload ← py_get_default disruption_data "payload" (JDict ∅);
    l ← py_get payload "disruptions";
    if truthy l then
      payload ← py_getitem disruption_data "payload";
      l ← py_getitem payload "disruptions";
      items ← py_iter l;
      append_active items disruptions
    else Ok disruptions
  else Ok disruptions.

(** [try: ... except requests.RequestException: continue]. A
    [RequestException] can only come from [requests.get] and [json()],
    before anything is appended, so the list is then the one the station
    started with. *)
Definition try_station (station_code : string) (disruptions : list Disruption.t)
    : result (list Disruption.t) :=
  match station_disruptions station_code disruptions with
  | Raise (RequestException _) => Ok disruptions
  | r => r
  end.

Fixpoint fetch_disruptions (station_codes : list string)
    (disruptions : list Disruption.t) : result (list Disruption.t) :=
  match station_codes with
  | [] => Ok disruptions
  | station_code :: rest =>
      disruptions ← try_station station_code disruptions;
      fetch_disruptions rest disruptions
  end.

(** [if code]: neither [None] nor empty. *)
Definition code_given (code : option string) : option string :=
  match code with
  | Some s => if String.eqb s "" then None else Some s
  | None => None
  end.

(** [[code for code in [a, b] if code]]. *)
Definition station_codes (is_reversed : bool) (route : Route.t) : list string :=
  omap code_given
    [actual_from_station_code is_reversed route;
     actual_to_station_code is_reversed route].

Definition fetch_trips (is_reversed : bool) (route : Route.t) : result json :=
  let url := trips_url is_reversed route in
  trips_response ← http_get url headers;
  _ ← raise_for_status url trips_response;
  response_json url trips_response.

(** The body of the loop over [request.routes]. *)
Definition route_response (max_journeys : Z) (is_reversed : bool) (route : Route.t)
    : result RouteResponse.t :=
  trips_data ← fetch_trips is_reversed route;
  transformed_trips ← transform_trips max_journeys trips_data;
  disruptions ← fetch_disruptions (station_codes is_reversed route) [];
  Ok (RouteResponse.Build (route_key is_reversed route) transformed_trips disruptions).

Definition get_train_routes (request : RouteRequest.t)
    : result (list RouteResponse.t) :=
  except_RequestException "Error fetching train routes: " (
    for_append
      (route_response (RouteRequest.max_journeys request)
         (RouteRequest.is_reversed request))
      (RouteRequest.routes request) []).

(** *** [get_car_routes] *)

(** One entry of [current_routes]: the route with origin and destination,
    and their names, exchanged when the request is reversed. *)
Definition current_route (is_reversed : bool) (route : CarRoute.t) : CarRoute.t :=
  CarRoute.Build
    (CarRoute.id route)
    (if is_reversed then CarRoute.destination route else CarRoute.origin route)
    (if is_reversed then CarRoute.origin route else CarRoute.destination route)
    (if is_reversed then CarRoute.destinationName route else CarRoute.originName route)
    (if is_reversed then CarRoute.originName route else CarRoute.destinationName route)
    (CarRoute.name route).

Definition distance_matrix_url (route : CarRoute.t) : string :=
  "https://maps.googleapis.com/maps/api/distancematrix/json"
  +:+ "?origins=" +:+ CarRoute.origin route
  +:+ "&destinations=" +:+ CarRoute.destination route
  +:+ "&mode=driving"
  +:+ "&departure_time=now"
  +:+ "&traffic_model=best_guess"
  +:+ "&key=" +:+ GOOGLE_MAPS_API_KEY.

Definition directions_url (route : CarRoute.t) : string :=
  "https://maps.googleapis.com/maps/api/directions/json"
  +:+ "?origin=" +:+ CarRoute.origin route
  +:+ "&destination=" +:+ CarRoute.destination route
  +:+ "&mode=driving"
  +:+ "&key=" +:+ GOOGLE_MAPS_API_KEY.

(** A Google call: the decoded body when its [status] is ["OK"], the
    [HTTPException] with the given prefix otherwise. *)
Definition google_call (url prefix : string) : result json :=
  r ← http_get url [];
  _ ← raise_for_status url r;
  data ← response_json url r;
  st ← py_getitem data "status";
  if py_ne_str st "OK" then
    st ← py_getitem data "status";
    Raise (HTTPException 500 (prefix +:+ py_str repr st))
  else Ok data.

(** [distance_matrix_data["rows"][0]["elements"][0]]. *)
Definition first_element (distance_matrix_data : json) : result json :=
  rows ← py_getitem distance_matrix_data "rows";
  row ← py_index rows 0;
  elements ← py_getitem row "elements";
  py_index elements 0.

(** [x[outer][inner]]. *)
Definition nested_getitem (x : json) (outer inner : string) : result json :=
  o ← py_getitem x outer; py_getitem o inner.

(** [element.get("duration_in_traffic", {}).get(field, dflt)]. *)
Definition in_traffic (element : json) (field : string) (dflt : json) : result json :=
  t ← py_get_default element "duration_in_traffic" (JDict ∅);
  py_get_default t field dflt.

(** [directions_data["routes"][0]["legs"][0]["steps"]]. *)
Definition first_steps (directions_data : json) : result json :=
  routes ← py_getitem directions_data "routes";
  route ← py_index routes 0;
  legs ← py_getitem route "legs";
  leg ← py_index legs 0;
  py_getitem leg "steps".

(** [\b[A-Z]\d+\b]. *)
Definition road_pattern : list atom :=
  [Boundary; Class is_upper; ClassPlus is_digit; Boundary].

(** A string argument of [re]; anything else is a [TypeError]. *)
Definition as_text (x : json) : result string :=
  match x with
  | JStr s => Ok s
  | _ => Raise TypeError
  end.

(** The loop over the steps, left when three names are collected. *)
Fixpoint collect_road_names (steps : list json) (road_names : list string)
    : result (list string) :=
  match steps with
  | [] => Ok road_names
  | step :: steps' =>
      instructions ← py_getitem step "html_instructions";
      instructions ← as_text instructions;
      match re_search road_pattern instructions with
      | Some road =>
          let road_names := road_names ++ [road] in
          if (3 <=? length road_names)%nat then Ok road_names
          else collect_road_names steps' road_names
      | None => collect_road_names steps' road_names
      end
  end.

Definition describe_route (road_names : list string) : string :=
  match road_names with
  | [] => "Local roads"
  | _ => join " → " road_names
  end.

Definition route_description (steps : json) : result string :=
  steps ← py_iter steps;
  road_names ← collect_road_names steps [];
  Ok (describe_route road_names).

(** [duration_in_traffic_value / duration_value]. *)
Definition traffic_ratio (element : json) : result float :=
  duration_value ← nested_getitem element "duration" "value";
  duration_in_traffic_value ← in_traffic element "value" duration_value;
  py_truediv duration_in_traffic_value duration_value.

Definition traffic_level (ratio : float) : string :=
  if (1.4 <? ratio)%float then "Heavy"
  else if (1.2 <? ratio)%float then "Moderate"
  else "Light".

(** [[^\d.]]. *)
Definition not_digit_or_point (c : codepoint) : bool := negb (is_digit c || is_point c).

Definition fuel_price_per_100km : float := 12.

Definition fuel_cost (distance : json) : result string :=
  distance ← as_text distance;
  distance_value ← float_of_decimal (re_sub_class not_digit_or_point distance);
  Ok ("€" +:+ format_2f (distance_value / 100 * fuel_price_per_100km)).

Definition make_CarTripResponse (id : Z) (from_location to : string)
    (distance duration durationInTraffic : json) (traffic route fuelCost : string)
    : result CarTripResponse.t :=
  validated (
    distance ← validate_str distance;
    duration ← validate_str duration;
    durationInTraffic ← validate_str durationInTraffic;
    Some (CarTripResponse.Build id from_location to distance duration
            durationInTraffic traffic route fuelCost "NORMAL")).

(** The body of the loop over [current_routes]. *)
Definition car_trip_response (route : CarRoute.t) : result CarTripResponse.t :=
  distance_matrix_data ←
    google_call (distance_matrix_url route) "Distance Matrix API error: ";
  element ← first_element distance_matrix_data;
  distance ← nested_getitem element "distance" "text";
  duration ← nested_getitem element "duration" "text";
  duration_in_traffic ← in_traffic element "text" duration;
  directions_data ← google_call (directions_url route) "Directions API error: ";
  steps ← first_steps directions_data;
  route_description ← route_description steps;
  ratio ← traffic_ratio element;
  let traffic := traffic_level ratio in
  fuel_cost ← fuel_cost distance;
  make_CarTripResponse (CarRoute.id route) (CarRoute.originName route)
    (CarRoute.destinationName route) distance duration duration_in_traffic
    traffic route_description fuel_cost.

Definition get_car_routes (request : CarRouteRequest.t)
    : result (list CarTripResponse.t) :=
  let current_routes :=
    current_route (CarRouteRequest.is_reversed request)
      <$> CarRouteRequest.routes request in
  except_RequestException "Error fetching car routes: " (
    for_append car_trip_response current_routes []).

End Handlers.


(** ** The station list and the passthrough handlers *)

Module TrainStation.
Record t : Type := Build {
  code : string;
  name : string;
  lat : float;
  lng : float }.
End TrainStation.

(** [requests.get(url, params=params)]: the client called with query
    parameters, and the URL it builds from them. *)
Class ParamsClient : Type := {
  requests_get_params : string → list (string * string) → http_outcome;
  prepared_url : string → list (string * string) → string }.

Section Passthrough.
Context `{Pydantic, Environment, ParamsClient}.

Definition subscription_headers : list (string * string) :=
  [("Ocp-Apim-Subscription-Key", NS_API_KEY)]%string.

Definition stations_url : string :=
  "https://gateway.apiportal.ns.nl/reisinformatie-api/api/v2/stations".

Definition make_TrainStation (code name lat lng : json) : result TrainStation.t :=
  validated (
    code ← validate_str code;
    name ← validate_str name;
    lat ← validate_float lat;
    lng ← validate_float lng;
    Some (TrainStation.Build code name lat lng)).

(** The [TrainStation(...)] built for one record of the payload. *)
Definition transform_station (station : json) : result TrainStation.t :=
  code ← py_get station "code";
  name ← nested_get station "namen" "lang";
  lat ← py_get station "lat";
  lng ← py_get station "lng";
  make_TrainStation code name lat lng.

Definition get_train_stations : result (list TrainStation.t) :=
  except_RequestException "Error fetching train stations: " (
    response ← http_get stations_url subscription_headers;
    _ ← raise_for_status stations_url response;
    stations_data ← response_json stations_url response;
    payload ← py_get_default stations_data "payload" (JList []);
    items ← py_iter payload;
    for_append transform_station items []).

(** A call whose decoded body is returned as it is. *)
Definition passthrough (prefix url : string) (outcome : http_outcome) : result json :=
  except_RequestException prefix (
    response ←
      match outcome with
      | Failed msg => Raise (RequestException (ConnectionFailure msg))
      | Responded r => Ok r
      end;
    _ ← raise_for_status url response;
    response_json url response).

Definition geocode_url : string := "https://maps.googleapis.com/maps/api/geocode/json".

Definition geocode_address (address : string) : result json :=
  let params := [("address", address); ("key", GOOGLE_MAPS_API_KEY)]%string in
  passthrough "Error geocoding address: " (prepared_url geocode_url params)
    (requests_get_params geocode_url params).

Definition get_directions_url : string :=
  "https://maps.googleapis.com/maps/api/directions/json".

(** [mode] is [None] when the request gives none; the default is
    ["transit"]. *)
Definition get_directions (origin destination : string) (mode : option string)
    : result json :=
  let mode := default "transit"%string mode in
  let params :=
    [("origin", origin); ("destination", destination); ("mode", mode);
     ("key", GOOGLE_MAPS_API_KEY)]%string in
  passthrough "Error getting directions: " (prepared_url get_directions_url params)
    (requests_get_params get_directions_url params).

Definition departures_url (station_code : string) : string :=
  "https://gateway.apiportal.ns.nl/reisinformatie-api/api/v2/departures?station="
  +:+ station_code.

Definition get_train_departures (station_code : string) : result json :=
  passthrough "Error fetching departures: " (departures_url station_code)
    (requests_get (departures_url station_code) subscription_headers).

End Passthrough.

(** * Vocabulary of the specification *)

(** The route with origin and destination, and their codes, exchanged. *)
Definition reversed_route (route : Route.t) : Route.t :=
  Route.Build (Route.toStation route) (Route.fromStation route)
    (Route.toStationCode route) (Route.fromStationCode route).

(** A field of an upstream object that is absent, null or a string. *)
Definition text_or_missing (v : option json) : Prop :=
  match v with
  | None | Some JNull | Some (JStr _) => True
  | _ => False
  end.

(** A field of an upstream object that is absent or a string. *)
Definition text_or_absent (v : option json) : Prop :=
  match v with
  | None | Some (JStr _) => True
  | _ => False
  end.

(** The first field of the chain that holds a non-empty string, [dflt] when
    none does. *)
Fixpoint first_nonempty (chain : list (option json)) (dflt : string) : string :=
  match chain with
  | [] => dflt
  | Some (JStr s) :: chain' => if String.eqb s "" then first_nonempty chain' dflt else s
  | _ :: chain' => first_nonempty chain' dflt
  end.

(** The object under key [k] of [x] is [d], the empty object when the key is
    absent. *)
Definition sub_object (x : gmap string json) (k : string) (d : gmap string json) : Prop :=
  match x !! k with
  | None => d = ∅
  | Some (JDict m) => d = m
  | _ => False
  end.

(** The upstream [isActive] flag of a disruption is set. *)
Definition is_active (disruption : json) : bool :=
  match py_get disruption "isActive" with
  | Ok a => truthy a
  | Raise _ => false
  end.

(** The disruption lookup of a station answers with the list [items] of
    disruptions. *)
Definition reports `{Environment} (station_code : string) (items : list json) : Prop :=
  ∃ r data payload,
    requests_get (disruption_url station_code) headers = Responded r
    ∧ ok r = true
    ∧ body r = Some (JDict data)
    ∧ data !! "payload" = Some (JDict payload)
    ∧ payload !! "disruptions" = Some (JList items).

(** The disruption lookup of a station fails: no connection, an error
    status, or a body that is not JSON. *)
Definition lookup_fails `{Environment} (station_code : string) : Prop :=
  match requests_get (disruption_url station_code) headers with
  | Failed _ => True
  | Responded r => ok r = false ∨ body r = None
  end.

(** The trip search of a route fails with the error [e]: no connection, an
    error status, or a body that is not JSON. *)
Definition trip_search_fails `{Environment} (is_reversed : bool) (route : Route.t)
    (e : request_error) : Prop :=
  let url := trips_url is_reversed route in
  match requests_get url headers with
  | Failed msg => e = ConnectionFailure msg
  | Responded r =>
      if is_error_status r then e = HTTPError (status_code r) url
      else body r = None ∧ e = JSONDecodeError url
  end.

(** The disruption [d] was built from an active disruption that one of the
    stations reports. *)
Definition from_reported_active `{Pydantic, Environment} (station_codes : list string)
    (d : Disruption.t) : Prop :=
  ∃ station_code items u,
    station_code ∈ station_codes ∧ reports station_code items
    ∧ u ∈ items ∧ is_active u = true ∧ transform_disruption u = Ok d.





(** The number a list of digits writes, the digit [c] counting for
    [value c]: each digit times the power of ten of its place. *)
Fixpoint positional (value : codepoint → Z) (l : list codepoint) : Z :=
  match l with
  | [] => 0
  | c :: l' => value c * 10 ^ Z.of_nat (length l') + positional value l'
  end.


(** The digits [0] to [9] of ASCII, which is what Python prints. *)
Definition ascii_digit (c : codepoint) : bool := ((48 <=? c) && (c <=? 57))%N.
Definition ascii_digit_value (c : codepoint) : Z := Z.of_N c - 48.

(** [s] writes [cents] hundredths with exactly two decimal places: a sign
    when [negative], the digits of the whole part (at least one, and no
    zero in front of another digit), a point and two digits. *)
Definition two_decimals (s : string) (negative : bool) (cents : Z) : Prop :=
  ∃ whole d1 d2,
    s = (if negative then "-" else "") +:+ text whole +:+ "." +:+ text [d1; d2]
    ∧ forallb ascii_digit (whole ++ [d1; d2]) = true
    ∧ whole ≠ []
    ∧ (whole = [48%N] ∨ head whole ≠ Some 48%N)
    ∧ cents = positional ascii_digit_value (whole ++ [d1; d2]).

(** A decimal numeral with exactly two digits after the point. *)
Definition two_decimal_places (s : string) : Prop :=
  ∃ negative cents, two_decimals s negative cents.

(** A euro string with exactly two decimal places, as the specification
    has every fuel cost. *)
Definition euro_two_decimal_places (s : string) : Prop :=
  ∃ t, s = "€" +:+ t ∧ two_decimal_places t.


(** What is left of a distance text when every character that is no digit
    and no point is taken out. *)
Definition stripped `{Unicode} (distance : string) : list codepoint :=
  filter (λ c, is_digit c || is_point c = true) (chars distance).








(** * A test double *)

(** A pydantic that accepts a value of the field's type only (an int also
    for a float). *)
Definition strict_str (j : json) : option string :=
  match j with JStr s => Some s | _ => None end.
Definition strict_int (j : json) : option Z :=
  match j with JInt n => Some n | _ => None end.
Definition strict_float (j : json) : option float :=
  match j with
  | JFloat f => Some f
  | JInt n => Some (round_Q (inject_Z n))
  | _ => None
  end.

Definition strict : Pydantic :=
  Build_Pydantic strict_str strict_int strict_float
    (λ _, eq_refl) (λ _, eq_refl) (λ _, eq_refl).

(** The Unicode database of CPython 3.11, which is Unicode 14.0: the zeros
    of its 66 runs of decimal digits and its 733 ranges of alphanumeric
    code points. *)
Definition unicode_14 : Unicode := {|
  decimal_zeros := [
   48; 1632; 1776; 1984; 2406; 2534; 2662; 2790; 2918; 3046; 3174; 3302; 3430;
   3558; 3664; 3792; 3872; 4160; 4240; 6112; 6160; 6470; 6608; 6784; 6800;
   6992; 7088; 7232; 7248; 42528; 43216; 43264; 43472; 43504; 43600; 44016;
   65296; 66720; 68912; 69734; 69872; 69942; 70096; 70384; 70736; 70864;
   71248; 71360; 71472; 71904; 72016; 72784; 73040; 73120; 92768; 92864;
   93008; 120782; 120792; 120802; 120812; 120822; 123200; 123632; 125264;
   130032]%N;
  alphanumeric_ranges := [
   (48, 57); (65, 90); (97, 122); (170, 170); (178, 179); (181, 181); (185,
   186); (188, 190); (192, 214); (216, 246); (248, 705); (710, 721); (736,
   740); (748, 748); (750, 750); (880, 884); (886, 887); (890, 893); (895,
   895); (902, 902); (904, 906); (908, 908); (910, 929); (931, 1013); (1015,
   1153); (1162, 1327); (1329, 1366); (1369, 1369); (1376, 1416); (1488,
   1514); (1519, 1522); (1568, 1610); (1632, 1641); (1646, 1647); (1649,
   1747); (1749, 1749); (1765, 1766); (1774, 1788); (1791, 1791); (1808,
   1808); (1810, 1839); (1869, 1957); (1969, 1969); (1984, 2026); (2036,
   2037); (2042, 2042); (2048, 2069); (2074, 2074); (2084, 2084); (2088,
   2088); (2112, 2136); (2144, 2154); (2160, 2183); (2185, 2190); (2208,
   2249); (2308, 2361); (2365, 2365); (2384, 2384); (2392, 2401); (2406,
   2415); (2417, 2432); (2437, 2444); (2447, 2448); (2451, 2472); (2474,
   2480); (2482, 2482); (2486, 2489); (2493, 2493); (2510, 2510); (2524,
   2525); (2527, 2529); (2534, 2545); (2548, 2553); (2556, 2556); (2565,
   2570); (2575, 2576); (2579, 2600); (2602, 2608); (2610, 2611); (2613,
   2614); (2616, 2617); (2649, 2652); (2654, 2654); (2662, 2671); (2674,
   2676); (2693, 2701); (2703, 2705); (2707, 2728); (2730, 2736); (2738,
   2739); (2741, 2745); (2749, 2749); (2768, 2768); (2784, 2785); (2790,
   2799); (2809, 2809); (2821, 2828); (2831, 2832); (2835, 2856); (2858,
   2864); (2866, 2867); (2869, 2873); (2877, 2877); (2908, 2909); (2911,
   2913); (2918, 2927); (2929, 2935); (2947, 2947); (2949, 2954); (2958,
   2960); (2962, 2965); (2969, 2970); (2972, 2972); (2974, 2975); (2979,
   2980); (2984, 2986); (2990, 3001); (3024, 3024); (3046, 3058); (3077,
   3084); (3086, 3088); (3090, 3112); (3114, 3129); (3133, 3133); (3160,
   3162); (3165, 3165); (3168, 3169); (3174, 3183); (3192, 3198); (3200,
   3200); (3205, 3212); (3214, 3216); (3218, 3240); (3242, 3251); (3253,
   3257); (3261, 3261); (3293, 3294); (3296, 3297); (3302, 3311); (3313,
   3314); (3332, 3340); (3342, 3344); (3346, 3386); (3389, 3389); (3406,
   3406); (3412, 3414); (3416, 3425); (3430, 3448); (3450, 3455); (3461,
   3478); (3482, 3505); (3507, 3515); (3517, 3517); (3520, 3526); (3558,
   3567); (3585, 3632); (3634, 3635); (3648, 3654); (3664, 3673); (3713,
   3714); (3716, 3716); (3718, 3722); (3724, 3747); (3749, 3749); (3751,
   3760); (3762, 3763); (3773, 3773); (3776, 3780); (3782, 3782); (3792,
   3801); (3804, 3807); (3840, 3840); (3872, 3891); (3904, 3911); (3913,
   3948); (3976, 3980); (4096, 4138); (4159, 4169); (4176, 4181); (4186,
   4189); (4193, 4193); (4197, 4198); (4206, 4208); (4213, 4225); (4238,
   4238); (4240, 4249); (4256, 4293); (4295, 4295); (4301, 4301); (4304,
   4346); (4348, 4680); (4682, 4685); (4688, 4694); (4696, 4696); (4698,
   4701); (4704, 4744); (4746, 4749); (4752, 4784); (4786, 4789); (4792,
   4798); (4800, 4800); (4802, 4805); (4808, 4822); (4824, 4880); (4882,
   4885); (4888, 4954); (4969, 4988); (4992, 5007); (5024, 5109); (5112,
   5117); (5121, 5740); (5743, 5759); (5761, 5786); (5792, 5866); (5870,
   5880); (5888, 5905); (5919, 5937); (5952, 5969); (5984, 5996); (5998,
   6000); (6016, 6067); (6103, 6103); (6108, 6108); (6112, 6121); (6128,
   6137); (6160, 6169); (6176, 6264); (6272, 6276); (6279, 6312); (6314,
   6314); (6320, 6389); (6400, 6430); (6470, 6509); (6512, 6516); (6528,
   6571); (6576, 6601); (6608, 6618); (6656, 6678); (6688, 6740); (6784,
   6793); (6800, 6809); (6823, 6823); (6917, 6963); (6981, 6988); (6992,
   7001); (7043, 7072); (7086, 7141); (7168, 7203); (7232, 7241); (7245,
   7293); (7296, 7304); (7312, 7354); (7357, 7359); (7401, 7404); (7406,
   7411); (7413, 7414); (7418, 7418); (7424, 7615); (7680, 7957); (7960,
   7965); (7968, 8005); (8008, 8013); (8016, 8023); (8025, 8025); (8027,
   8027); (8029, 8029); (8031, 8061); (8064, 8116); (8118, 8124); (8126,
   8126); (8130, 8132); (8134, 8140); (8144, 8147); (8150, 8155); (8160,
   8172); (8178, 8180); (8182, 8188); (8304, 8305); (8308, 8313); (8319,
   8329); (8336, 8348); (8450, 8450); (8455, 8455); (8458, 8467); (8469,
   8469); (8473, 8477); (8484, 8484); (8486, 8486); (8488, 8488); (8490,
   8493); (8495, 8505); (8508, 8511); (8517, 8521); (8526, 8526); (8528,
   8585); (9312, 9371); (9450, 9471); (10102, 10131); (11264, 11492); (11499,
   11502); (11506, 11507); (11517, 11517); (11520, 11557); (11559, 11559);
   (11565, 11565); (11568, 11623); (11631, 11631); (11648, 11670); (11680,
   11686); (11688, 11694); (11696, 11702); (11704, 11710); (11712, 11718);
   (11720, 11726); (11728, 11734); (11736, 11742); (11823, 11823); (12293,
   12295); (12321, 12329); (12337, 12341); (12344, 12348); (12353, 12438);
   (12445, 12447); (12449, 12538); (12540, 12543); (12549, 12591); (12593,
   12686); (12690, 12693); (12704, 12735); (12784, 12799); (12832, 12841);
   (12872, 12879); (12881, 12895); (12928, 12937); (12977, 12991); (13312,
   19903); (19968, 42124); (42192, 42237); (42240, 42508); (42512, 42539);
   (42560, 42606); (42623, 42653); (42656, 42735); (42775, 42783); (42786,
   42888); (42891, 42954); (42960, 42961); (42963, 42963); (42965, 42969);
   (42994, 43009); (43011, 43013); (43015, 43018); (43020, 43042); (43056,
   43061); (43072, 43123); (43138, 43187); (43216, 43225); (43250, 43255);
   (43259, 43259); (43261, 43262); (43264, 43301); (43312, 43334); (43360,
   43388); (43396, 43442); (43471, 43481); (43488, 43492); (43494, 43518);
   (43520, 43560); (43584, 43586); (43588, 43595); (43600, 43609); (43616,
   43638); (43642, 43642); (43646, 43695); (43697, 43697); (43701, 43702);
   (43705, 43709); (43712, 43712); (43714, 43714); (43739, 43741); (43744,
   43754); (43762, 43764); (43777, 43782); (43785, 43790); (43793, 43798);
   (43808, 43814); (43816, 43822); (43824, 43866); (43868, 43881); (43888,
   44002); (44016, 44025); (44032, 55203); (55216, 55238); (55243, 55291);
   (63744, 64109); (64112, 64217); (64256, 64262); (64275, 64279); (64285,
   64285); (64287, 64296); (64298, 64310); (64312, 64316); (64318, 64318);
   (64320, 64321); (64323, 64324); (64326, 64433); (64467, 64829); (64848,
   64911); (64914, 64967); (65008, 65019); (65136, 65140); (65142, 65276);
   (65296, 65305); (65313, 65338); (65345, 65370); (65382, 65470); (65474,
   65479); (65482, 65487); (65490, 65495); (65498, 65500); (65536, 65547);
   (65549, 65574); (65576, 65594); (65596, 65597); (65599, 65613); (65616,
   65629); (65664, 65786); (65799, 65843); (65856, 65912); (65930, 65931);
   (66176, 66204); (66208, 66256); (66273, 66299); (66304, 66339); (66349,
   66378); (66384, 66421); (66432, 66461); (66464, 66499); (66504, 66511);
   (66513, 66517); (66560, 66717); (66720, 66729); (66736, 66771); (66776,
   66811); (66816, 66855); (66864, 66915); (66928, 66938); (66940, 66954);
   (66956, 66962); (66964, 66965); (66967, 66977); (66979, 66993); (66995,
   67001); (67003, 67004); (67072, 67382); (67392, 67413); (67424, 67431);
   (67456, 67461); (67463, 67504); (67506, 67514); (67584, 67589); (67592,
   67592); (67594, 67637); (67639, 67640); (67644, 67644); (67647, 67669);
   (67672, 67702); (67705, 67742); (67751, 67759); (67808, 67826); (67828,
   67829); (67835, 67867); (67872, 67897); (67968, 68023); (68028, 68047);
   (68050, 68096); (68112, 68115); (68117, 68119); (68121, 68149); (68160,
   68168); (68192, 68222); (68224, 68255); (68288, 68295); (68297, 68324);
   (68331, 68335); (68352, 68405); (68416, 68437); (68440, 68466); (68472,
   68497); (68521, 68527); (68608, 68680); (68736, 68786); (68800, 68850);
   (68858, 68899); (68912, 68921); (69216, 69246); (69248, 69289); (69296,
   69297); (69376, 69415); (69424, 69445); (69457, 69460); (69488, 69505);
   (69552, 69579); (69600, 69622); (69635, 69687); (69714, 69743); (69745,
   69746); (69749, 69749); (69763, 69807); (69840, 69864); (69872, 69881);
   (69891, 69926); (69942, 69951); (69956, 69956); (69959, 69959); (69968,
   70002); (70006, 70006); (70019, 70066); (70081, 70084); (70096, 70106);
   (70108, 70108); (70113, 70132); (70144, 70161); (70163, 70187); (70272,
   70278); (70280, 70280); (70282, 70285); (70287, 70301); (70303, 70312);
   (70320, 70366); (70384, 70393); (70405, 70412); (70415, 70416); (70419,
   70440); (70442, 70448); (70450, 70451); (70453, 70457); (70461, 70461);
   (70480, 70480); (70493, 70497); (70656, 70708); (70727, 70730); (70736,
   70745); (70751, 70753); (70784, 70831); (70852, 70853); (70855, 70855);
   (70864, 70873); (71040, 71086); (71128, 71131); (71168, 71215); (71236,
   71236); (71248, 71257); (71296, 71338); (71352, 71352); (71360, 71369);
   (71424, 71450); (71472, 71483); (71488, 71494); (71680, 71723); (71840,
   71922); (71935, 71942); (71945, 71945); (71948, 71955); (71957, 71958);
   (71960, 71983); (71999, 71999); (72001, 72001); (72016, 72025); (72096,
   72103); (72106, 72144); (72161, 72161); (72163, 72163); (72192, 72192);
   (72203, 72242); (72250, 72250); (72272, 72272); (72284, 72329); (72349,
   72349); (72368, 72440); (72704, 72712); (72714, 72750); (72768, 72768);
   (72784, 72812); (72818, 72847); (72960, 72966); (72968, 72969); (72971,
   73008); (73030, 73030); (73040, 73049); (73056, 73061); (73063, 73064);
   (73066, 73097); (73112, 73112); (73120, 73129); (73440, 73458); (73648,
   73648); (73664, 73684); (73728, 74649); (74752, 74862); (74880, 75075);
   (77712, 77808); (77824, 78894); (82944, 83526); (92160, 92728); (92736,
   92766); (92768, 92777); (92784, 92862); (92864, 92873); (92880, 92909);
   (92928, 92975); (92992, 92995); (93008, 93017); (93019, 93025); (93027,
   93047); (93053, 93071); (93760, 93846); (93952, 94026); (94032, 94032);
   (94099, 94111); (94176, 94177); (94179, 94179); (94208, 100343); (100352,
   101589); (101632, 101640); (110576, 110579); (110581, 110587); (110589,
   110590); (110592, 110882); (110928, 110930); (110948, 110951); (110960,
   111355); (113664, 113770); (113776, 113788); (113792, 113800); (113808,
   113817); (119520, 119539); (119648, 119672); (119808, 119892); (119894,
   119964); (119966, 119967); (119970, 119970); (119973, 119974); (119977,
   119980); (119982, 119993); (119995, 119995); (119997, 120003); (120005,
   120069); (120071, 120074); (120077, 120084); (120086, 120092); (120094,
   120121); (120123, 120126); (120128, 120132); (120134, 120134); (120138,
   120144); (120146, 120485); (120488, 120512); (120514, 120538); (120540,
   120570); (120572, 120596); (120598, 120628); (120630, 120654); (120656,
   120686); (120688, 120712); (120714, 120744); (120746, 120770); (120772,
   120779); (120782, 120831); (122624, 122654); (123136, 123180); (123191,
   123197); (123200, 123209); (123214, 123214); (123536, 123565); (123584,
   123627); (123632, 123641); (124896, 124902); (124904, 124907); (124909,
   124910); (124912, 124926); (124928, 125124); (125127, 125135); (125184,
   125251); (125259, 125259); (125264, 125273); (126065, 126123); (126125,
   126127); (126129, 126132); (126209, 126253); (126255, 126269); (126464,
   126467); (126469, 126495); (126497, 126498); (126500, 126500); (126503,
   126503); (126505, 126514); (126516, 126519); (126521, 126521); (126523,
   126523); (126530, 126530); (126535, 126535); (126537, 126537); (126539,
   126539); (126541, 126543); (126545, 126546); (126548, 126548); (126551,
   126551); (126553, 126553); (126555, 126555); (126557, 126557); (126559,
   126559); (126561, 126562); (126564, 126564); (126567, 126570); (126572,
   126578); (126580, 126583); (126585, 126588); (126590, 126590); (126592,
   126601); (126603, 126619); (126625, 126627); (126629, 126633); (126635,
   126651); (127232, 127244); (130032, 130041); (131072, 173791); (173824,
   177976); (177984, 178205); (178208, 183969); (183984, 191456); (194560,
   195101); (196608, 201546)]%N;
  decimal_zeros_ascii := eq_refl;
  alphanumeric_ranges_ascii := eq_refl;
  decimal_alphanumeric := eq_refl |}.

(** A distance text whose number has 310 digits. *)
Fixpoint nines (n : nat) : string :=
  match n with
  | O => ""
  | S n' => String "9" (nines n')
  end.

Definition huge_distance : string := nines 310 +:+ " km".

(** A JSON object from its fields. *)
Definition obj (fields : list (string * json)) : json := JDict (list_to_map fields).

Definition ok_response (j : json) : http_outcome := Responded (Response 200 (Some j)).

(** A step of a route with the given instruction text. *)
Definition step_with (instructions : string) : json :=
  obj [("html_instructions", JStr instructions)]%string.

Definition upstream_leg (displayName : string) : json :=
  obj [("product", obj [("displayName", JStr displayName); ("number", JStr "1234")]);
       ("direction", JStr "Amsterdam Centraal");
       ("origin", obj [("plannedDateTime", JStr "2024-01-01T10:00:00+0100");
                       ("plannedTrack", JStr "5")])]%string.

Definition upstream_trip (minutes : Z) : json :=
  obj [("plannedDurationInMinutes", JInt minutes); ("transfers", JInt 0);
       ("status", JStr "NORMAL"); ("legs", JList [upstream_leg "IC 1234"])]%string.

Definition upstream_disruption (id : string) (isActive : bool) : json :=
  obj [("id", JStr id); ("title", JStr "Works"); ("isActive", JBool isActive);
       ("impact", obj [("value", JInt 3)])]%string.

(** Canned answers by URL: a trip search with three trips, a station with
    one active and one inactive disruption, a distance matrix and a route
    with two motorway steps, and a distance matrix whose duration is zero
    seconds. The lookup of station ASD fails to connect; any other URL is
    not found. *)
Definition canned : gmap string http_outcome :=
  list_to_map [
    ("https://gateway.apiportal.ns.nl/reisinformatie-api/api/v3/trips?fromStation=Utrecht&toStation=Amsterdam&dateTime=2024-01-01T09:00:00&searchForArrival=false",
     ok_response (obj [("trips", JList [upstream_trip 27; upstream_trip 31; upstream_trip 40])]));
    ("https://gateway.apiportal.ns.nl/disruptions/v3/station/UT",
     ok_response (obj [("payload", obj [("disruptions",
        JList [upstream_disruption "d1" true; upstream_disruption "d2" false])])]));
    ("https://gateway.apiportal.ns.nl/disruptions/v3/station/ASD", Failed "timed out");
    ("https://maps.googleapis.com/maps/api/distancematrix/json?origins=Utrecht&destinations=Amsterdam&mode=driving&departure_time=now&traffic_model=best_guess&key=maps-key",
     ok_response (obj [("status", JStr "OK"); ("rows", JList [obj [("elements", JList [
        obj [("distance", obj [("text", JStr "42.5 km"); ("value", JInt 42500)]);
             ("duration", obj [("text", JStr "30 mins"); ("value", JInt 1800)]);
             ("duration_in_traffic", obj [("text", JStr "42 mins"); ("value", JInt 2520)])]])]])]));
    ("https://maps.googleapis.com/maps/api/directions/json?origin=Utrecht&destination=Amsterdam&mode=driving&key=maps-key",
     ok_response (obj [("status", JStr "OK"); ("routes", JList [obj [("legs", JList [
        obj [("steps", JList [
          obj [("html_instructions", JStr "Take exit onto A10")];
          obj [("html_instructions", JStr "Continue on N1")]])]])]])]));
    ("https://maps.googleapis.com/maps/api/distancematrix/json?origins=Utrecht&destinations=Utrecht&mode=driving&departure_time=now&traffic_model=best_guess&key=maps-key",
     ok_response (obj [("status", JStr "OK"); ("rows", JList [obj [("elements", JList [
        obj [("distance", obj [("text", JStr "1 m"); ("value", JInt 0)]);
             ("duration", obj [("text", JStr "1 min"); ("value", JInt 0)])]])]])]));
    ("https://maps.googleapis.com/maps/api/directions/json?origin=Utrecht&destination=Utrecht&mode=driving&key=maps-key",
     ok_response (obj [("status", JStr "OK"); ("routes", JList [obj [("legs", JList [
        obj [("steps", JList [obj [("html_instructions", JStr "Head north")]])]])]])]))
  ]%string.

Definition test_environment : Environment := {|
  NS_API_KEY := "ns-key";
  GOOGLE_MAPS_API_KEY := "maps-key";
  requests_get := λ url _, default (Responded (Response 404 None)) (canned !! url);
  now := "2024-01-01T09:00:00";
  str_of_error := λ e,
    match e with
    | ConnectionFailure msg => msg
    | HTTPError _ url => "HTTP error for url: " +:+ url
    | JSONDecodeError url => "invalid JSON from url: " +:+ url
    end;
  repr := λ _, "<value>" |}.

Definition utrecht_amsterdam : Route.t :=
  Route.Build "Utrecht" "Amsterdam" (Some "UT") (Some "ASD")%string.

Definition car_utrecht_amsterdam : CarRoute.t :=
  CarRoute.Build 7 "Utrecht" "Amsterdam" "Home" "Work" "Commute".

Definition car_utrecht_utrecht : CarRoute.t :=
  CarRoute.Build 8 "Utrecht" "Utrecht" "Home" "Home" "Round the block".


(** * Vocabulary of the further properties *)

(** An exception other than [RequestException] and [HTTPException]: one no
    handler catches or raises on purpose. *)
Definition unhandled (e : exn) : bool :=
  match e with
  | RequestException _ | HTTPException _ _ => false
  | _ => true
  end.

(** A computation that raises unhandled exceptions only. *)
Definition raises_unhandled {A} (m : result A) : Prop :=
  ∀ e, m = Raise e → unhandled e = true.

(** A call to [url] fails with the error [e]: no connection, an error
    status, or a body that is not JSON. *)
Definition call_fails (outcome : http_outcome) (url : string) (e : request_error) : Prop :=
  match outcome with
  | Failed msg => e = ConnectionFailure msg
  | Responded r =>
      if is_error_status r then e = HTTPError (status_code r) url
      else body r = None ∧ e = JSONDecodeError url
  end.

(** A call answers with the JSON value [j]. *)
Definition call_answers (outcome : http_outcome) (j : json) : Prop :=
  match outcome with
  | Failed _ => False
  | Responded r => is_error_status r = false ∧ body r = Some j
  end.

(** The car route with origin and destination, and their names,
    exchanged. *)
Definition reversed_car_route (route : CarRoute.t) : CarRoute.t :=
  CarRoute.Build (CarRoute.id route) (CarRoute.destination route) (CarRoute.origin route)
    (CarRoute.destinationName route) (CarRoute.originName route) (CarRoute.name route).

(** How many characters of a text satisfy [p]. *)
Definition count_chars (p : codepoint → bool) (s : string) : nat :=
  length (filter (λ c, p c = true) (chars s)).

(** The result [m] with [acc] put in front of the list it returns. *)
Definition prepend {A} (acc : list A) (m : result (list A)) : result (list A) :=
  match m with
  | Ok new => Ok (acc ++ new)
  | Raise e => Raise e
  end.

(** The handler result [h] is the body of the call when it answers, and
    otherwise the [HTTPException] of status 500 whose detail is [prefix]
    followed by the error of the call; nothing else. *)
Definition passes_through `{Environment} (h : result json) (prefix url : string)
    (outcome : http_outcome) : Prop :=
  (∀ j, h = Ok j ↔ call_answers outcome j)
  ∧ ∀ e', h = Raise e' →
      ∃ e, call_fails outcome url e
           ∧ e' = HTTPException 500 (prefix +:+ str_of_error e).

(** ** More test doubles *)

Definition upstream_station (code name : string) (lat lng : float) : json :=
  obj [("code", JStr code); ("namen", obj [("lang", JStr name)]);
       ("lat", JFloat lat); ("lng", JFloat lng)]%string.

(** The body of a station list with two stations. *)
Definition stations_payload : list json :=
  [upstream_station "UT" "Utrecht Centraal" 52.089 5.11;
   upstream_station "ASD" "Amsterdam Centraal" 52.379 4.9].

Definition stations_body : gmap string json :=
  list_to_map [("payload", JList stations_payload)]%string.

(** An element of a distance matrix without traffic data, and the answer
    that holds it. *)
Definition element_without_traffic : gmap string json :=
  list_to_map
    [("distance", obj [("text", JStr "42.5 km"); ("value", JInt 42500)]);
     ("duration", obj [("text", JStr "30 mins"); ("value", JInt 1800)])]%string.

Definition matrix_without_traffic : json :=
  obj [("status", JStr "OK");
       ("rows", JList [obj [("elements", JList [JDict element_without_traffic])]])]%string.

(** The test double, with a station list of two stations, a distance
    matrix that is over its quota, a distance matrix without traffic data,
    a trip search that answers with a list, and a disruption lookup that
    answers with a null payload. *)
Definition canned_more : gmap string http_outcome :=
  list_to_map [
    ("https://gateway.apiportal.ns.nl/reisinformatie-api/api/v2/stations",
     ok_response (JDict stations_body));
    ("https://maps.googleapis.com/maps/api/distancematrix/json?origins=Zeist&destinations=Utrecht&mode=driving&departure_time=now&traffic_model=best_guess&key=maps-key",
     ok_response (obj [("status", JStr "OVER_QUERY_LIMIT")]));
    ("https://maps.googleapis.com/maps/api/distancematrix/json?origins=Amsterdam&destinations=Utrecht&mode=driving&departure_time=now&traffic_model=best_guess&key=maps-key",
     ok_response matrix_without_traffic);
    ("https://maps.googleapis.com/maps/api/directions/json?origin=Amsterdam&destination=Utrecht&mode=driving&key=maps-key",
     ok_response (obj [("status", JStr "OK"); ("routes", JList [obj [("legs", JList [
        obj [("steps", JList [step_with "Head south on A2"])]])]])]));
    ("https://gateway.apiportal.ns.nl/reisinformatie-api/api/v3/trips?fromStation=Zeist&toStation=Utrecht&dateTime=2024-01-01T09:00:00&searchForArrival=false",
     ok_response (JList []));
    ("https://gateway.apiportal.ns.nl/disruptions/v3/station/RTD",
     ok_response (obj [("payload", JNull)]))
  ]%string.

Definition test_environment_more : Environment := {|
  NS_API_KEY := "ns-key";
  GOOGLE_MAPS_API_KEY := "maps-key";
  requests_get := λ url _,
    default (default (Responded (Response 404 None)) (canned !! url)) (canned_more !! url);
  now := "2024-01-01T09:00:00";
  str_of_error := @str_of_error test_environment;
  repr := λ _, "<value>" |}.

Definition car_zeist_utrecht : CarRoute.t :=
  CarRoute.Build 9 "Zeist" "Utrecht" "Gym" "Home" "Evening".

Definition zeist_utrecht : Route.t := Route.Build "Zeist" "Utrecht" None (Some "").

(** * Properties *)

(** ** The embedding of Python, on examples *)

Example round_Q_tenth : Prim2SF (round_Q (1 # 10)) = S754_finite false 7205759403792794 (-56).
Proof. vm_compute. reflexivity. Qed.
Example format_2f_half_even : format_2f 0.125 = "0.12"%string ∧ format_2f 2.675 = "2.67"%string
  ∧ format_2f 1e22 = "10000000000000000000000.00"%string ∧ format_2f 0.005 = "0.01"%string.
Proof. vm_compute. auto. Qed.
Example float_of_decimal_forms :
  @float_of_decimal unicode_14 "42.5" = Ok 42.5%float
  ∧ @float_of_decimal unicode_14 ".5" = Ok 0.5%float
  ∧ @float_of_decimal unicode_14 "7." = Ok 7%float
  ∧ @float_of_decimal unicode_14 "" = Raise ValueError
  ∧ @float_of_decimal unicode_14 "." = Raise ValueError
  ∧ @float_of_decimal unicode_14 "1.2.3" = Raise ValueError
  ∧ @float_of_decimal unicode_14 "٤٢" = Ok 42%float
  ∧ @float_of_decimal unicode_14 "1٤٢.٥" = Ok 142.5%float
  ∧ @float_of_decimal unicode_14 "4²" = Raise ValueError.
Proof. vm_compute. auto 10. Qed.
Example chars_examples :
  chars "A1 é→€𝟙" = [65; 49; 32; 233; 8594; 8364; 120793]%N
  ∧ text [65; 49; 32; 233; 8594; 8364; 120793]%N = "A1 é→€𝟙"%string
  ∧ py_slice_to (JStr "né") (-1) = Ok (JStr "n")
  ∧ py_index (JStr "né") 1 = Ok (JStr "é")
  ∧ py_iter (JStr "é€") = Ok [JStr "é"; JStr "€"].
Proof. vm_compute. auto 10. Qed.
Example int_truediv_examples :
  int_truediv 7 5 = Ok 1.4%float ∧ int_truediv 1 0 = Raise ZeroDivisionError
  ∧ int_truediv (10 ^ 400) 1 = Raise OverflowError ∧ int_truediv (10 ^ 400) (10 ^ 399) = Ok 10%float.
Proof. vm_compute. auto 10. Qed.
Example slice_to_examples :
  slice_to 2 [1; 2; 3] = [1; 2] ∧ slice_to 5 [1; 2; 3] = [1; 2; 3]
  ∧ slice_to 0 [1; 2; 3] = [] ∧ slice_to (-1) [1; 2; 3] = [1; 2]
  ∧ slice_to (-5) [1; 2; 3] = [].
Proof. vm_compute. auto 10. Qed.
Example re_search_examples :
  @re_search unicode_14 (@road_pattern unicode_14) "Take exit onto <b>A10</b>" = Some "A10"%string
  ∧ @re_search unicode_14 (@road_pattern unicode_14) "A1 then B22" = Some "A1"%string
  ∧ @re_search unicode_14 (@road_pattern unicode_14) "Continue on N1b" = None
  ∧ @re_search unicode_14 (@road_pattern unicode_14) "a_B7 and xC3" = None
  ∧ @re_search unicode_14 (@road_pattern unicode_14) "Head north" = None
  ∧ @re_search unicode_14 (@road_pattern unicode_14) "sortie éA10" = None
  ∧ @re_search unicode_14 (@road_pattern unicode_14) "A10é" = None
  ∧ @re_search unicode_14 (@road_pattern unicode_14) "Take A١٢ now" = Some "A١٢"%string
  ∧ @re_search unicode_14 (@road_pattern unicode_14) "É12 → A7" = Some "A7"%string.
Proof. vm_compute. auto 10. Qed.
Example fuel_cost_examples :
  @fuel_cost unicode_14 (JStr "42.5 km") = Ok "€5.10"%string
  ∧ @fuel_cost unicode_14 (JStr "٤٢ km") = Ok "€5.04"%string
  ∧ @fuel_cost unicode_14 (JStr "1٤٢ km") = Ok "€17.04"%string
  ∧ @fuel_cost unicode_14 (JStr "1,234 km") = Ok "€148.08"%string
  ∧ @fuel_cost unicode_14 (JStr "0.3 mi.") = Raise ValueError
  ∧ @fuel_cost unicode_14 (JStr "nearby") = Raise ValueError.
Proof. vm_compute. auto 10. Qed.

(** ** The [result] monad and the loops *)

Lemma bind_Ok {A B} (m : result A) (f : A → result B) (b : B) :
  m ≫= f = Ok b ↔ ∃ a, m = Ok a ∧ f a = Ok b.
Proof.
  destruct m as [a|e]; simpl.
  - split; [eauto | intros (a' & [= ->] & ?); done].
  - split; [done | intros (? & ? & ?); done].
Qed.

Lemma bind_Raise {A B} (m : result A) (f : A → result B) (e : exn) :
  m ≫= f = Raise e ↔ m = Raise e ∨ ∃ a, m = Ok a ∧ f a = Raise e.
Proof.
  destruct m as [a|e']; simpl.
  - split; [eauto | intros [? | (a' & [= ->] & ?)]; done].
  - split; [intros [= ->]; eauto | intros [[= ->] | (? & ? & ?)]; done].
Qed.

Lemma validated_Ok {A} (o : option A) (a : A) : validated o = Ok a ↔ o = Some a.
Proof. destruct o; simpl; split; congruence. Qed.

(** Inverts hypotheses that say a sequence of steps returned. *)
Ltac ok_inv :=
  repeat match goal with
  | H : _ ≫= _ = Ok _ |- _ => apply bind_Ok in H as (? & ? & H)
  | H : validated _ = Ok _ |- _ => apply validated_Ok in H
  | H : Ok _ = Ok _ |- _ => injection H as H
  | H : Raise _ = Ok _ |- _ => discriminate H
  end.

(** Inverts a hypothesis that says every field of a model validated. *)
Ltac fields_inv H :=
  repeat match type of H with
  | ?o ≫= _ = Some _ => destruct o eqn:?; simpl in H; [|discriminate H]
  end;
  injection H as H.

(** The loop returns exactly when its body returns for every element, and
    then it has appended the results in order. *)
Lemma for_append_Ok {A B} (body : A → result B) (xs : list A) (acc ys : list B) :
  for_append body xs acc = Ok ys
  ↔ ∃ zs, ys = acc ++ zs ∧ Forall2 (λ x z, body x = Ok z) xs zs.
Proof.
  revert acc. induction xs as [|x xs IH]; intros acc; simpl.
  - split.
    + intros [= <-]. exists []. by rewrite app_nil_r.
    + intros (zs & -> & Hzs). apply Forall2_nil_inv_l in Hzs as ->.
      by rewrite app_nil_r.
  - rewrite bind_Ok. split.
    + intros (y & Hy & Hrest). apply IH in Hrest as (zs & -> & Hzs).
      exists (y :: zs). split; [by rewrite <- app_assoc | by constructor].
    + intros (zs & -> & Hzs). apply Forall2_cons_inv_l in Hzs as (y & zs' & Hy & Hzs & ->).
      exists y. split; [done|]. apply IH. exists zs'.
      split; [by rewrite <- app_assoc | done].
Qed.

(** The loop raises exactly when the body raises at some element after it
    returned for all the elements before. *)
Lemma for_append_Raise {A B} (body : A → result B) (xs : list A) (acc : list B) (e : exn) :
  for_append body xs acc = Raise e
  ↔ ∃ pre x post zs, xs = pre ++ x :: post
      ∧ Forall2 (λ x z, body x = Ok z) pre zs ∧ body x = Raise e.
Proof.
  revert acc. induction xs as [|x xs IH]; intros acc; simpl.
  - split; [done | intros (pre & ? & ? & ? & Hnil & _); by destruct pre].
  - rewrite bind_Raise. split.
    + intros [Hx | (y & Hy & Hrest)].
      * exists [], x, xs, []. by repeat split.
      * apply IH in Hrest as (pre & x' & post & zs & -> & Hpre & Hx').
        exists (x :: pre), x', post, (y :: zs). repeat split; [|done]. by constructor.
    + intros (pre & x' & post & zs & Hxs & Hpre & Hx').
      destruct pre as [|p pre]; simplify_eq/=.
      * by left.
      * apply Forall2_cons_inv_l in Hpre as (y & zs' & Hy & Hzs & ->).
        right. exists y. split; [done|]. apply IH. by exists pre, x', post, zs'.
Qed.

(** Two lists related element by element have equal images under maps that
    agree on related elements. *)
Lemma Forall2_fmap_eq {A B C} (R : A → B → Prop) (f : A → C) (g : B → C) xs ys :
  Forall2 R xs ys → (∀ x y, R x y → g y = f x) → g <$> ys = f <$> xs.
Proof. induction 1; intros Hfg; simpl; [done|]. f_equal; auto. Qed.

Lemma Forall2_Forall_r {A B} (R : A → B → Prop) (P : B → Prop) xs ys :
  Forall2 R xs ys → (∀ x y, R x y → P y) → Forall P ys.
Proof. induction 1; intros HP; constructor; eauto. Qed.

Section Properties.
Context `{Pydantic, Environment, Unicode}.

(** ** One response per route, in order *)

Lemma route_response_routeKey max_journeys is_reversed route r :
  route_response max_journeys is_reversed route = Ok r →
  RouteResponse.routeKey r = route_key is_reversed route.
Proof. unfold route_response. intros Hr. ok_inv. by subst. Qed.

Lemma make_CarTripResponse_Ok id from_location to distance duration durationInTraffic
    traffic route fuelCost r :
  make_CarTripResponse id from_location to distance duration durationInTraffic
    traffic route fuelCost = Ok r →
  ∃ distance' duration' durationInTraffic',
    validate_str distance = Some distance' ∧ validate_str duration = Some duration'
    ∧ validate_str durationInTraffic = Some durationInTraffic'
    ∧ r = CarTripResponse.Build id from_location to distance' duration'
            durationInTraffic' traffic route fuelCost "NORMAL".
Proof.
  unfold make_CarTripResponse. intros Hr. ok_inv.
  fields_inv Hr. subst r. eauto 10.
Qed.

Lemma car_trip_response_route route r :
  car_trip_response route = Ok r →
  CarTripResponse.id r = CarRoute.id route
  ∧ CarTripResponse.from_location r = CarRoute.originName route
  ∧ CarTripResponse.to r = CarRoute.destinationName route
  ∧ CarTripResponse.status r = "NORMAL"%string.
Proof.
  unfold car_trip_response. intros Hr. ok_inv.
  apply make_CarTripResponse_Ok in Hr as (? & ? & ? & _ & _ & _ & ->). done.
Qed.

Lemma except_RequestException_Ok {A} (prefix : string) (m : result A) (a : A) :
  except_RequestException prefix m = Ok a ↔ m = Ok a.
Proof. destruct m as [?|[]]; split; simpl; congruence. Qed.

(** C1. [get_train_routes] returns a list exactly when the loop body returns
    for every route of the request (its trip search answers and what follows
    raises nothing), and the list then holds one [RouteResponse] per route,
    the i-th one built for the i-th route, so with the route keys in the
    order of the input. [get_car_routes] likewise returns one
    [CarTripResponse] per [CarRoute], the i-th one built for the i-th route
    (with its id), each with status ["NORMAL"]. *)
Theorem one_response_per_route_in_order :
  ∀ (request : RouteRequest.t) (car_request : CarRouteRequest.t),
    (∀ responses,
       get_train_routes request = Ok responses
       ↔ Forall2
           (λ route r,
              route_response (RouteRequest.max_journeys request)
                (RouteRequest.is_reversed request) route = Ok r)
           (RouteRequest.routes request) responses)
    ∧ (∀ responses,
         get_train_routes request = Ok responses →
         length responses = length (RouteRequest.routes request)
         ∧ RouteResponse.routeKey <$> responses
           = route_key (RouteRequest.is_reversed request) <$> RouteRequest.routes request)
    ∧ (∀ responses,
         get_car_routes car_request = Ok responses
         ↔ Forall2
             (λ route r,
                car_trip_response
                  (current_route (CarRouteRequest.is_reversed car_request) route) = Ok r)
             (CarRouteRequest.routes car_request) responses)
    ∧ (∀ responses,
         get_car_routes car_request = Ok responses →
         length responses = length (CarRouteRequest.routes car_request)
         ∧ CarTripResponse.id <$> responses = CarRoute.id <$> CarRouteRequest.routes car_request
         ∧ Forall (λ r, CarTripResponse.status r = "NORMAL"%string) responses).
Proof.
  intros request car_request.
  assert (Hrail : ∀ responses,
    get_train_routes request = Ok responses
    ↔ Forall2 (λ route r, route_response (RouteRequest.max_journeys request)
                 (RouteRequest.is_reversed request) route = Ok r)
        (RouteRequest.routes request) responses).
  { intros responses. unfold get_train_routes. rewrite except_RequestException_Ok, for_append_Ok.
    split; [by intros (zs & -> & Hzs) | intros Hzs; by exists responses]. }
  assert (Hcar : ∀ responses,
    get_car_routes car_request = Ok responses
    ↔ Forall2 (λ route r, car_trip_response
                 (current_route (CarRouteRequest.is_reversed car_request) route) = Ok r)
        (CarRouteRequest.routes car_request) responses).
  { intros responses. unfold get_car_routes. rewrite except_RequestException_Ok, for_append_Ok.
    setoid_rewrite Forall2_fmap_l.
    split; [by intros (zs & -> & Hzs) | intros Hzs; by exists responses]. }
  split_and!; [done| |done|].
  - intros responses Hr. apply Hrail in Hr. split; [symmetry; by eapply Forall2_length|].
    eapply Forall2_fmap_eq; [done|]. intros route r. apply route_response_routeKey.
  - intros responses Hr. apply Hcar in Hr. split; [symmetry; by eapply Forall2_length|].
    split.
    + eapply Forall2_fmap_eq; [done|]. simpl. intros route r Hr'.
      by apply car_trip_response_route in Hr' as (-> & _).
    + eapply Forall2_Forall_r; [done|]. simpl. intros route r Hr'.
      by apply car_trip_response_route in Hr' as (_ & _ & _ & ->).
Qed.

(** ** Reversal *)

Lemma for_append_fmap {A A' B} (body : A → result B) (body' : A' → result B)
    (f : A → A') (xs : list A) (acc : list B) :
  (∀ x, body x = body' (f x)) →
  for_append body xs acc = for_append body' (f <$> xs) acc.
Proof.
  intros Hbody. revert acc. induction xs as [|x xs IH]; intros acc; simpl; [done|].
  rewrite Hbody. destruct (body' (f x)); simpl; [apply IH | done].
Qed.

Lemma route_response_reversed max_journeys route :
  route_response max_journeys true route
  = route_response max_journeys false (reversed_route route).
Proof. by destruct route. Qed.

(** C3. With [is_reversed] the effective origin and destination, and their
    station codes, are the destination and origin of the route: its route
    key is the key of the exchanged route without reversal (["B-A"] for a
    route from ["A"] to ["B"]), and so is the whole response, for one route
    and for a batch. *)
Theorem is_reversed_swaps_origin_and_destination :
  ∀ route : Route.t,
    actual_from_station true route = Route.toStation route
    ∧ actual_to_station true route = Route.fromStation route
    ∧ actual_from_station_code true route = Route.toStationCode route
    ∧ actual_to_station_code true route = Route.fromStationCode route
    ∧ route_key true route = route_key false (reversed_route route)
    ∧ (∀ fromStationCode toStationCode,
         route_key true (Route.Build "A" "B" fromStationCode toStationCode)
         = "B-A"%string
         ∧ route_key false (Route.Build "B" "A" fromStationCode toStationCode)
           = "B-A"%string)
    ∧ (∀ max_journeys,
         route_response max_journeys true route
         = route_response max_journeys false (reversed_route route))
    ∧ (∀ routes max_journeys,
         get_train_routes (RouteRequest.Build routes max_journeys true)
         = get_train_routes
             (RouteRequest.Build (reversed_route <$> routes) max_journeys false)).
Proof.
  intros route. split_and!; try done.
  intros routes max_journeys. unfold get_train_routes. simpl. f_equal.
    apply for_append_fmap. intros r. apply route_response_reversed.
Qed.

(** ** The cap on the trips of a route *)

(** [enumerate]: the loop returns exactly when its body returns for every
    element with its index, and then has appended the results in order. *)
Lemma for_enumerate_Ok {A B} (body : Z → A → result B) (idx : Z) (xs : list A)
    (acc ys : list B) :
  for_enumerate body idx xs acc = Ok ys
  ↔ ∃ zs, ys = acc ++ zs ∧ length zs = length xs
      ∧ ∀ (i : nat) x, xs !! i = Some x →
          ∃ z, zs !! i = Some z ∧ body (idx + Z.of_nat i) x = Ok z.
Proof.
  revert idx acc. induction xs as [|x xs IH]; intros idx acc; simpl.
  - split.
    + intros [= <-]. exists []. by rewrite app_nil_r.
    + intros (zs & -> & Hlen & _). destruct zs; [|done]. by rewrite app_nil_r.
  - rewrite bind_Ok. split.
    + intros (y & Hy & Hrest). apply IH in Hrest as (zs & -> & Hlen & Hzs).
      exists (y :: zs). split_and!; [by rewrite <- app_assoc | simpl; lia |].
      intros [|i] x' Hx'; simplify_eq/=.
      * exists y. by rewrite Z.add_0_r.
      * destruct (Hzs i x' Hx') as (z & Hz & Hb). exists z. split; [done|].
        by replace (idx + Z.of_nat (S i)) with (idx + 1 + Z.of_nat i) by lia.
    + intros (zs & -> & Hlen & Hzs). destruct zs as [|y zs]; [done|].
      exists y. split.
      * destruct (Hzs 0%nat x eq_refl) as (z & [= <-] & Hb). by rewrite Z.add_0_r in Hb.
      * apply IH. exists zs. split_and!; [by rewrite <- app_assoc | simpl in Hlen; lia |].
        intros i x' Hx'. destruct (Hzs (S i) x' Hx') as (z & Hz & Hb).
        exists z. split; [done|].
        by replace (idx + 1 + Z.of_nat i) with (idx + Z.of_nat (S i)) by lia.
Qed.

Lemma transform_trip_idx idx trip t :
  transform_trip idx trip = Ok t → Trip.idx t = idx.
Proof.
  unfold transform_trip, make_Trip. intros Ht. ok_inv.
  fields_inv Ht. by subst t.
Qed.

Lemma length_slice_to {A} (n : Z) (l : list A) :
  0 ≤ n → Z.of_nat (length (slice_to n l)) ≤ n.
Proof.
  intros Hn. unfold slice_to. destruct (Z.leb_spec 0 n); [|lia].
  rewrite length_take. lia.
Qed.

Lemma slice_to_prefix {A} (n : Z) (l : list A) : slice_to n l `prefix_of` l.
Proof. unfold slice_to. destruct (0 <=? n); apply prefix_take. Qed.

(** What holds of the trips of a route for every cap: they are the
    transformed trips of a prefix of the upstream list, in upstream order,
    the one at position [i] with [idx = i]; and, for a cap that is not
    negative, there are at most [max_journeys] of them. *)
Lemma transform_trips_Ok max_journeys (upstream : list json) trips_data trips :
  py_get trips_data "trips" = Ok (JList upstream) →
  transform_trips max_journeys trips_data = Ok trips →
  length trips = length (slice_to max_journeys upstream)
  ∧ (∀ (i : nat) trip, slice_to max_journeys upstream !! i = Some trip →
       ∃ t, trips !! i = Some t ∧ transform_trip (Z.of_nat i) trip = Ok t)
  ∧ (∀ (i : nat) t, trips !! i = Some t → Trip.idx t = Z.of_nat i)
  ∧ (0 ≤ max_journeys → Z.of_nat (length trips) ≤ max_journeys).
Proof.
  intros Hget Htrips. unfold transform_trips in Htrips. rewrite Hget in Htrips.
  simpl in Htrips. destruct trips_data as [| | | | | |m]; try done.
  simpl in Hget. injection Hget as Hget.
  destruct upstream as [|u upstream].
  { simpl in Htrips. injection Htrips as <-. unfold slice_to.
    destruct (0 <=? max_journeys); rewrite take_nil; split_and!; done. }
  simpl in Htrips. destruct (m !! "trips"%string) as [v|] eqn:Hm; simpl in Hget; [|done].
  subst v. simpl in Htrips. apply for_enumerate_Ok in Htrips as (zs & -> & Hlen & Hzs).
  simpl. split_and!; [done|exact Hzs| |].
  - intros i t Ht.
    destruct (slice_to max_journeys (u :: upstream) !! i) as [trip|] eqn:Htrip.
    + destruct (Hzs i trip Htrip) as (t' & Ht' & Hb). simplify_eq.
      by apply transform_trip_idx in Hb.
    + apply lookup_ge_None in Htrip. apply lookup_lt_Some in Ht. lia.
  - intros Hmax. rewrite Hlen. by apply length_slice_to.
Qed.

End Properties.

(** C2. With [max_journeys = -1] the slice [trips[:-1]] keeps all trips but
    the last: of the three trips upstream returns for the route, two are
    returned, which is more than the cap. *)
Theorem negative_max_journeys_exceeds_cap :
  ∃ r,
    @get_train_routes strict test_environment
      (RouteRequest.Build [utrecht_amsterdam] (-1) false) = Ok [r]
    ∧ length (RouteResponse.trips r) = 2%nat
    ∧ ¬ Z.of_nat (length (RouteResponse.trips r)) ≤ -1.
Proof.
  eexists. split; [vm_compute; reflexivity|]. split; [reflexivity | simpl; lia].
Qed.

(** ** The fallback chains of a leg *)

Section Leg_properties.
Context `{Pydantic, Environment, Unicode}.

Lemma nested_get_sub_object (leg d : gmap string json) (outer inner : string) :
  sub_object leg outer d →
  nested_get (JDict leg) outer inner = Ok (default JNull (d !! inner)).
Proof.
  unfold sub_object, nested_get. simpl.
  destruct (leg !! outer) as [[]|]; try done; by intros ->.
Qed.

(** An [or] chain over two fields and a literal is the first non-empty
    string of the chain. *)
Lemma or_chain_first_nonempty (a b : option json) (dflt : string) :
  text_or_missing a → text_or_missing b →
  py_or_else (default JNull a) (py_or_else (default JNull b) (Ok (JStr dflt)))
  = Ok (JStr (first_nonempty [a; b] dflt)).
Proof.
  intros Ha Hb. unfold py_or_else.
  destruct a as [[]|], b as [[]|]; try done; simpl;
    repeat match goal with |- context [String.eqb ?s ""] => destruct (String.eqb s "") end;
    done.
Qed.

Lemma or_literal_text (a : option json) (dflt : string) :
  text_or_missing a → ∃ s, py_or_else (default JNull a) (Ok (JStr dflt)) = Ok (JStr s).
Proof.
  intros Ha. unfold py_or_else.
  destruct a as [[]|]; try done; simpl; eauto. destruct (String.eqb s ""); simpl; eauto.
Qed.

Lemma leg_name_chain (leg p : gmap string json) :
  sub_object leg "product" p →
  text_or_missing (p !! "displayName") → text_or_missing (p !! "longCategoryName") →
  leg_name (JDict leg)
  = Ok (JStr (first_nonempty [p !! "displayName"; p !! "longCategoryName"] "Train")).
Proof.
  intros Hp Ha Hb. unfold leg_name.
  rewrite !(nested_get_sub_object leg p) by done. simpl.
  by apply or_chain_first_nonempty.
Qed.

Lemma leg_plannedDepartureTime_chain (leg o : gmap string json) :
  sub_object leg "origin" o →
  text_or_missing (o !! "plannedDateTime") → text_or_missing (o !! "actualDateTime") →
  leg_plannedDepartureTime (JDict leg)
  = Ok (JStr (first_nonempty [o !! "plannedDateTime"; o !! "actualDateTime"] "")).
Proof.
  intros Ho Ha Hb. unfold leg_plannedDepartureTime.
  rewrite !(nested_get_sub_object leg o) by done. simpl.
  by apply or_chain_first_nonempty.
Qed.

Lemma leg_product_total (leg p : gmap string json) :
  sub_object leg "product" p →
  text_or_missing (p !! "longCategoryName") → text_or_missing (p !! "number") →
  ∃ product, leg_product (JDict leg) = Ok product.
Proof.
  intros Hp Ha Hb. unfold leg_product. simpl.
  destruct (truthy (default JNull (leg !! "product"))); [|by eauto].
  rewrite !(nested_get_sub_object leg p) by done. simpl.
  destruct (or_literal_text _ "Train" Ha) as (s1 & ->).
  destruct (or_literal_text _ "" Hb) as (s2 & ->). simpl.
  unfold make_Product. rewrite !validate_str_str. simpl. eauto.
Qed.

Lemma validate_optional_text (v : option json) :
  text_or_missing v → ∃ o, validate_optional validate_str (default JNull v) = Some o.
Proof.
  destruct v as [[]|]; try done; simpl; eauto. rewrite validate_str_str. simpl. eauto.
Qed.

(** C4. For a leg whose product and origin are objects (or absent) with
    textual fields, [transform_leg] returns a [Leg] whose name is the first
    non-empty of the product's [displayName] and [longCategoryName], else
    ["Train"] (so ["Train"] when the leg has neither), and whose planned
    departure time is the first non-empty of the origin's [plannedDateTime]
    and [actualDateTime], else the empty string. *)
Theorem leg_name_and_departure_fall_back :
  ∀ leg p o : gmap string json,
    sub_object leg "product" p →
    sub_object leg "origin" o →
    text_or_missing (p !! "displayName") →
    text_or_missing (p !! "longCategoryName") →
    text_or_missing (p !! "number") →
    text_or_missing (o !! "plannedDateTime") →
    text_or_missing (o !! "actualDateTime") →
    text_or_missing (o !! "plannedTrack") →
    text_or_absent (leg !! "direction") →
    ∃ l,
      transform_leg (JDict leg) = Ok l
      ∧ Leg.name l
        = first_nonempty [p !! "displayName"; p !! "longCategoryName"] "Train"
      ∧ Leg.plannedDepartureTime l
        = first_nonempty [o !! "plannedDateTime"; o !! "actualDateTime"] ""
      ∧ (p !! "displayName" = None → p !! "longCategoryName" = None →
         Leg.name l = "Train"%string).
Proof.
  intros leg p o Hp Ho Hdn Hlcn Hnum Hpdt Hadt Htrack Hdir.
  destruct (leg_product_total leg p Hp Hlcn Hnum) as (product & Hproduct).
  destruct (validate_optional_text _ Htrack) as (track & Hvtrack).
  assert (∃ d, default (JStr "") (leg !! "direction") = JStr d) as (d & Hd).
  { destruct (leg !! "direction") as [[]|]; try done; simpl; eauto. }
  eexists (Leg.Build _ d _ track product).
  split; [|split_and!; try done].
  - unfold transform_leg.
    rewrite (leg_name_chain leg p), (leg_plannedDepartureTime_chain leg o) by done.
    rewrite (nested_get_sub_object leg o) by done. rewrite Hproduct. simpl.
    rewrite Hd. unfold make_Leg. rewrite !validate_str_str, Hvtrack. done.
  - simpl. by intros -> ->.
Qed.

End Leg_properties.

(** A leg without a product resolves to ["Train"] and the empty departure
    time. *)
Lemma leg_name_and_departure_fall_back_witness :
  ∃ l, @transform_leg strict (JDict ∅) = Ok l
       ∧ Leg.name l = "Train"%string ∧ Leg.plannedDepartureTime l = ""%string.
Proof.
  destruct (@leg_name_and_departure_fall_back strict ∅ ∅ ∅)
    as (l & Hl & Hname & Htime & _); try exact I; try reflexivity.
  exists l. split; [exact Hl|]. split; [exact Hname | exact Htime].
Defined.

(** ** Disruptions *)

Section Disruption_properties.
Context `{Pydantic, Environment, Unicode}.

Lemma transform_disruption_isActive u d :
  transform_disruption u = Ok d → Disruption.isActive d = true.
Proof.
  unfold transform_disruption, make_Disruption. intros Hd. ok_inv.
  fields_inv Hd. by subst d.
Qed.

Lemma py_get_default_not_RequestException x k dflt e :
  py_get_default x k dflt ≠ Raise (RequestException e).
Proof. by destruct x. Qed.

Lemma transform_disruption_not_RequestException u e :
  transform_disruption u ≠ Raise (RequestException e).
Proof.
  unfold transform_disruption, make_Disruption. intros Hu.
  repeat (apply bind_Raise in Hu as [Hu | (? & _ & Hu)];
          [by apply py_get_default_not_RequestException in Hu|]).
  by destruct (_ ≫= _).
Qed.

(** The loop over one station's disruptions appends the transformed active
    ones, in order. *)
Lemma append_active_Ok items acc ds :
  append_active items acc = Ok ds
  ↔ ∃ new, ds = acc ++ new
      ∧ Forall2 (λ u d, transform_disruption u = Ok d) (filter (λ u, is_active u = true) items) new
      ∧ Forall (λ u, ∃ a, py_get u "isActive" = Ok a) items.
Proof.
  revert acc. induction items as [|u items IH]; intros acc; simpl.
  - split.
    + intros [= <-]. exists []. rewrite app_nil_r. split_and!; [done|constructor|constructor].
    + intros (new & -> & Hnew & _). apply Forall2_nil_inv_l in Hnew as ->.
      by rewrite app_nil_r.
  - rewrite filter_cons.
    destruct (py_get u "isActive") as [a|e] eqn:Ha; simpl.
    + assert (Hact : is_active u = truthy a) by (unfold is_active; by rewrite Ha).
      rewrite Hact. destruct (truthy a) eqn:Htruthy.
      * rewrite decide_True by done. rewrite bind_Ok. split.
        -- intros (d & Hd & Hrest). apply IH in Hrest as (new & -> & Hnew & Hall).
           exists (d :: new). split_and!; [by rewrite <- app_assoc | by constructor |].
           constructor; eauto.
        -- intros (new & -> & Hnew & Hall).
           apply Forall2_cons_inv_l in Hnew as (d & new' & Hd & Hnew & ->).
           exists d. split; [done|]. apply IH. exists new'.
           split_and!; [by rewrite <- app_assoc | done | by inversion Hall].
      * rewrite decide_False by done. rewrite IH. split.
        -- intros (new & -> & Hnew & Hall). exists new. split_and!; [done|done|].
           constructor; eauto.
        -- intros (new & -> & Hnew & Hall). exists new. split_and!; [done|done|].
           by inversion Hall.
    + split; [done|]. intros (new & _ & _ & Hall). inversion Hall as [|?? (a & Ha')]; congruence.
Qed.

Lemma append_active_not_RequestException items acc e :
  append_active items acc ≠ Raise (RequestException e).
Proof.
  revert acc. induction items as [|u items IH]; intros acc; simpl; [done|].
  intros Hu. apply bind_Raise in Hu as [Hu | (a & _ & Hu)].
  - by apply py_get_default_not_RequestException in Hu.
  - destruct (truthy a); [|by apply IH in Hu].
    apply bind_Raise in Hu as [Hu | (d & _ & Hu)].
    + by apply transform_disruption_not_RequestException in Hu.
    + by apply IH in Hu.
Qed.

(** A station that reports [items] contributes exactly their active ones. *)
Lemma try_station_reports station_code items acc :
  reports station_code items →
  try_station station_code acc = append_active items acc.
Proof.
  intros (r & data & payload & Hget & Hok & Hbody & Hpayload & Hitems).
  unfold try_station, station_disruptions, http_get, response_json. cbv zeta.
  rewrite Hget. simpl. rewrite Hok, Hbody. simpl. rewrite Hpayload. simpl.
  rewrite Hitems. simpl.
  destruct items as [|u items]; [done|]. simpl. rewrite ?Hitems. simpl.
  destruct (py_get u "isActive" ≫= _) as [ds|[]] eqn:Hloop; try done.
  by apply (append_active_not_RequestException (u :: items)) in Hloop.
Qed.

(** A station whose lookup fails contributes nothing and raises nothing. *)
Lemma try_station_fails station_code acc :
  lookup_fails station_code → try_station station_code acc = Ok acc.
Proof.
  unfold lookup_fails, try_station, station_disruptions, http_get, response_json.
  cbv zeta. destruct (requests_get _ _) as [msg|r]; simpl; [done|].
  intros [-> | Hbody]; [done|]. destruct (ok r); [|done]. by rewrite Hbody.
Qed.

(** Whatever a station adds comes from a list it reports. *)
Lemma try_station_Ok station_code acc ds :
  try_station station_code acc = Ok ds →
  ∃ new, ds = acc ++ new
    ∧ (new = [] ∨ ∃ items, reports station_code items
         ∧ Forall2 (λ u d, transform_disruption u = Ok d)
             (filter (λ u, is_active u = true) items) new).
Proof.
  unfold try_station, station_disruptions, http_get, response_json.
  assert (Hnil : ∃ new, acc = acc ++ new ∧ (new = [] ∨ ∃ items, reports station_code items
         ∧ Forall2 (λ u d, transform_disruption u = Ok d)
             (filter (λ u, is_active u = true) items) new)).
  { exists []. rewrite app_nil_r. auto. }
  cbv zeta. destruct (requests_get _ _) as [msg|r] eqn:Hget; simpl; [by intros [= <-]|].
  destruct (ok r) eqn:Hok; [|by intros [= <-]].
  destruct (body r) as [data|] eqn:Hbody; simpl; [|by intros [= <-]].
  destruct data as [| | | | | |data]; simpl; try done.
  destruct (data !! "payload"%string) as [payload|] eqn:Hpayload; simpl; [|by intros [= <-]].
  destruct payload as [| | | | | |payload]; simpl; try done.
  destruct (payload !! "disruptions"%string) as [l|] eqn:Hl; simpl; [|by intros [= <-]].
  destruct (truthy l) eqn:Htruthy; [|by intros [= <-]].
  rewrite ?Hpayload. simpl. rewrite ?Hl. simpl.
  destruct l as [| | | | |items|keys]; simpl; try done.
  - (* a string: its characters have no [get] *)
    destruct (chars s) as [|c cs]; simpl; [by intros [= <-]|done].
  - intros Hloop.
    destruct (append_active items acc) as [ds'|[]] eqn:Happ; simplify_eq/=.
    + apply append_active_Ok in Happ as (new & -> & Hnew & _).
      exists new. split; [done|]. right. exists items. split; [|done].
      by exists r, data, payload.
    + by apply append_active_not_RequestException in Happ.
  - (* an object: its keys have no [get] *)
    destruct (map_to_list keys) as [|kv kvs]; simpl; [by intros [= <-]|done].
Qed.

Lemma fetch_disruptions_Ok station_codes acc ds :
  fetch_disruptions station_codes acc = Ok ds →
  ∃ new, ds = acc ++ new
    ∧ Forall (from_reported_active station_codes) new
    ∧ ∀ station_code items u,
        station_code ∈ station_codes → reports station_code items →
        u ∈ items → is_active u = true →
        ∃ d, transform_disruption u = Ok d ∧ d ∈ new.
Proof.
  revert acc ds. induction station_codes as [|c cs IH]; intros acc ds; simpl.
  - intros [= <-]. exists []. rewrite app_nil_r. split_and!; [done|constructor|].
    intros ??? Hin. by apply elem_of_nil in Hin.
  - intros Hfetch. apply bind_Ok in Hfetch as (mid & Htry & Hrest).
    apply IH in Hrest as (new2 & -> & Hnew2 & Hall2).
    pose proof Htry as Htry'.
    apply try_station_Ok in Htry as (new1 & -> & Hnew1).
    exists (new1 ++ new2). split_and!; [by rewrite <- app_assoc | |].
    + apply Forall_app. split.
      * destruct Hnew1 as [-> | (items & Hrep & Hnew1)]; [constructor|].
        apply Forall_forall. intros d Hd.
        apply list_elem_of_lookup in Hd as (i & Hd).
        destruct (Forall2_lookup_r _ _ _ _ _ Hnew1 Hd) as (u & Hu & Htr).
        apply list_elem_of_lookup_2 in Hu. apply list_elem_of_filter in Hu as (Hact & Hu).
        exists c, items, u. split_and!; [left|done..].
      * eapply Forall_impl; [exact Hnew2|].
        intros d (c' & items & u & Hc' & ?). exists c', items, u. split; [by right|done].
    + intros c' items u Hc' Hrep Hu Hact. apply elem_of_cons in Hc' as [-> | Hc'].
      * rewrite (try_station_reports c items acc Hrep) in Htry'.
        apply append_active_Ok in Htry' as (new & Heq & Hnew & _).
        apply app_inv_head in Heq as <-.
        assert (Hu' : u ∈ filter (λ u, is_active u = true) items)
          by by apply list_elem_of_filter.
        apply list_elem_of_lookup in Hu' as (i & Hi).
        destruct (Forall2_lookup_l _ _ _ _ _ Hnew Hi) as (d & Hd & Htr).
        exists d. split; [done|]. apply elem_of_app. left. by eapply list_elem_of_lookup_2.
      * destruct (Hall2 c' items u Hc' Hrep Hu Hact) as (d & Htr & Hd).
        exists d. split; [done|]. apply elem_of_app. by right.
Qed.

(** C5. The disruptions of a [RouteResponse] are active ones: each is
    marked active and was built from a disruption that a queried station
    reported with its [isActive] flag set, so one reported with
    [isActive = false] gives none; and every disruption a queried station
    reports with [isActive = true] is in the list. *)
Theorem disruptions_are_the_active_ones :
  ∀ max_journeys is_reversed route r,
    route_response max_journeys is_reversed route = Ok r →
    (∀ d, d ∈ RouteResponse.disruptions r →
       Disruption.isActive d = true
       ∧ ∃ station_code items u a,
           station_code ∈ station_codes is_reversed route
           ∧ reports station_code items ∧ u ∈ items
           ∧ py_get u "isActive" = Ok a ∧ truthy a = true ∧ a ≠ JBool false
           ∧ transform_disruption u = Ok d)
    ∧ (∀ station_code items u,
         station_code ∈ station_codes is_reversed route →
         reports station_code items → u ∈ items →
         py_get u "isActive" = Ok (JBool true) →
         ∃ d, transform_disruption u = Ok d ∧ d ∈ RouteResponse.disruptions r).
Proof.
  intros max_journeys is_reversed route r Hr. unfold route_response in Hr. ok_inv.
  subst r. simpl.
  match goal with Hf : fetch_disruptions _ _ = Ok _ |- _ =>
    apply fetch_disruptions_Ok in Hf as (new & -> & Hnew & Hall) end.
  simpl. split.
  - intros d Hd. rewrite Forall_forall in Hnew.
    destruct (Hnew d Hd) as (c & items & u & Hc & Hrep & Hu & Hact & Htr).
    split; [by eapply transform_disruption_isActive|].
    unfold is_active in Hact. destruct (py_get u "isActive") as [a|] eqn:Ha; [|done].
    exists c, items, u, a. split_and!; try done. by intros ->.
  - intros c items u Hc Hrep Hu Ha. apply (Hall c items u); try done.
    unfold is_active. by rewrite Ha.
Qed.

End Disruption_properties.

(** A route whose two station codes are the same station lists that
    station's active disruption twice. *)
Lemma disruptions_are_the_active_ones_witness :
  ∃ r,
    @route_response strict test_environment 5 false
      (Route.Build "Utrecht" "Amsterdam" (Some "UT") (Some "UT")) = Ok r
    ∧ length (RouteResponse.disruptions r) = 2%nat
    ∧ ∀ d, d ∈ RouteResponse.disruptions r → Disruption.isActive d = true.
Proof.
  eexists. split; [vm_compute; reflexivity|]. split; [reflexivity|].
  intros d Hd.
  eapply (@disruptions_are_the_active_ones strict test_environment 5 false
            (Route.Build "Utrecht" "Amsterdam" (Some "UT") (Some "UT")));
    [vm_compute; reflexivity | exact Hd].
Defined.

(** ** Failures *)

Section Failure_properties.
Context `{Pydantic, Environment, Unicode}.

Lemma fetch_trips_fails is_reversed route e :
  trip_search_fails is_reversed route e
  ↔ fetch_trips is_reversed route = Raise (RequestException e).
Proof.
  unfold trip_search_fails, fetch_trips, http_get, raise_for_status, response_json.
  cbv zeta. destruct (requests_get _ _) as [msg|r]; simpl.
  - split; [by intros -> | by intros [= ->]].
  - destruct (is_error_status r); simpl.
    + split; [by intros -> | by intros [= ->]].
    + destruct (body r); simpl.
      * split; [by intros [? _] | done].
      * split; [by intros [_ ->] | by intros [= ->]].
Qed.

Lemma route_response_trip_search_fails max_journeys is_reversed route e :
  trip_search_fails is_reversed route e →
  route_response max_journeys is_reversed route = Raise (RequestException e).
Proof.
  intros Hfail. apply fetch_trips_fails in Hfail.
  unfold route_response. by rewrite Hfail.
Qed.

Lemma for_append_Ok_elem {A B} (body : A → result B) xs acc ys x :
  for_append body xs acc = Ok ys → x ∈ xs → ∃ y, body x = Ok y.
Proof.
  intros Hok Hx. apply for_append_Ok in Hok as (zs & _ & Hzs).
  apply list_elem_of_lookup in Hx as (i & Hi).
  destruct (Forall2_lookup_l _ _ _ _ _ Hzs Hi) as (y & _ & Hy). eauto.
Qed.

(** C6. A station whose disruption lookup fails adds nothing and raises
    nothing: when the route has two station codes and the lookup of one
    fails, the route's response holds its trips and the disruptions of the
    other station alone. A trip search fails by raising a
    [RequestException]; when it fails for any route of the batch the
    handler returns no list but raises, and when the routes before it were
    answered it raises the [HTTPException] with status 500. *)
Theorem disruption_failure_swallowed_trip_failure_aborts :
  (∀ station_code disruptions,
     lookup_fails station_code → try_station station_code disruptions = Ok disruptions)
  ∧ (∀ max_journeys is_reversed route failing other trips_data trips disruptions,
       station_codes is_reversed route = [failing; other]
       ∨ station_codes is_reversed route = [other; failing] →
       lookup_fails failing →
       fetch_trips is_reversed route = Ok trips_data →
       transform_trips max_journeys trips_data = Ok trips →
       try_station other [] = Ok disruptions →
       route_response max_journeys is_reversed route
       = Ok (RouteResponse.Build (route_key is_reversed route) trips disruptions))
  ∧ (∀ is_reversed route e,
       trip_search_fails is_reversed route e
       ↔ fetch_trips is_reversed route = Raise (RequestException e))
  ∧ (∀ request route e,
       route ∈ RouteRequest.routes request →
       trip_search_fails (RouteRequest.is_reversed request) route e →
       ∃ e', get_train_routes request = Raise e')
  ∧ (∀ request pre route post e,
       RouteRequest.routes request = pre ++ route :: post →
       Forall (λ route', ∃ r,
                 route_response (RouteRequest.max_journeys request)
                   (RouteRequest.is_reversed request) route' = Ok r) pre →
       trip_search_fails (RouteRequest.is_reversed request) route e →
       get_train_routes request
       = Raise (HTTPException 500 ("Error fetching train routes: " +:+ str_of_error e))).
Proof.
  split_and!.
  - intros. by apply try_station_fails.
  - intros max_journeys is_reversed route failing other trips_data trips disruptions
      Hcodes Hfail Htrips Htransform Hother.
    unfold route_response. rewrite Htrips. simpl. rewrite Htransform. simpl.
    destruct Hcodes as [-> | ->]; simpl.
    + rewrite (try_station_fails failing) by done. simpl. by rewrite Hother.
    + rewrite Hother. simpl. by rewrite (try_station_fails failing) by done.
  - apply fetch_trips_fails.
  - intros request route e Hroute Hfail. unfold get_train_routes.
    destruct (for_append _ _ _) as [ys|e0] eqn:Hloop.
    + destruct (for_append_Ok_elem _ _ _ _ _ Hloop Hroute) as (y & Hy).
      by rewrite (route_response_trip_search_fails _ _ _ e) in Hy.
    + destruct e0; simpl; eauto.
  - intros request pre route post e Hroutes Hpre Hfail. unfold get_train_routes.
    assert (Hloop : for_append
              (route_response (RouteRequest.max_journeys request)
                 (RouteRequest.is_reversed request))
              (RouteRequest.routes request) [] = Raise (RequestException e)).
    { apply for_append_Raise.
      assert (∃ zs, Forall2 (λ x z, route_response (RouteRequest.max_journeys request)
                 (RouteRequest.is_reversed request) x = Ok z) pre zs) as (zs & Hzs).
      { clear Hroutes. induction Hpre as [|x pre (r & Hr) _ (zs & IH)].
        - by exists [].
        - exists (r :: zs). by constructor. }
      exists pre, route, post, zs. split_and!; [done|done|].
      by apply route_response_trip_search_fails. }
    by rewrite Hloop.
Qed.

End Failure_properties.

(** With the lookup of station ASD failing, the route from Utrecht keeps its
    trips and the disruption of station UT; reversed, its trip search is not
    found and the batch fails. *)
Lemma disruption_failure_swallowed_trip_failure_aborts_witness :
  (∃ r, @route_response strict test_environment 5 false utrecht_amsterdam = Ok r
        ∧ length (RouteResponse.trips r) = 3%nat
        ∧ Disruption.id <$> RouteResponse.disruptions r = ["d1"%string])
  ∧ ∃ e, @get_train_routes strict test_environment
           (RouteRequest.Build [utrecht_amsterdam] 5 true) = Raise e.
Proof.
  pose proof (@disruption_failure_swallowed_trip_failure_aborts strict test_environment)
    as (_ & Hswallowed & _ & Haborts & _).
  split.
  - eexists. split.
    + eapply (Hswallowed 5 false utrecht_amsterdam "ASD"%string "UT"%string);
        [right; reflexivity | vm_compute; exact I | vm_compute; reflexivity ..].
    + split; reflexivity.
  - eapply (Haborts (RouteRequest.Build [utrecht_amsterdam] 5 true) utrecht_amsterdam).
    + apply list_elem_of_here.
    + vm_compute. reflexivity.
Defined.

(** ** Traffic level *)

(** Comparison of binary64 values is antisymmetric. *)
Lemma SFcompare_antisym (x y : spec_float) :
  SFcompare y x = CompOpp <$> SFcompare x y.
Proof.
  destruct x as [[]|[]| |[] mx ex], y as [[]|[]| |[] my ey]; simpl; try done;
    rewrite (Z.compare_antisym ex ey);
    assert (Pos.compare_cont Eq my mx = CompOpp (Pos.compare_cont Eq mx my)) as ->
      by (symmetry; apply (Pos.compare_cont_antisym mx my Eq));
    destruct (ex ?= ey)%Z; simpl; try done;
    by destruct (Pos.compare_cont Eq mx my).
Qed.

Lemma float_leb_not_ltb (x y : float) : (x <=? y)%float = true → (y <? x)%float = false.
Proof.
  rewrite leb_spec, ltb_spec. unfold SFleb, SFltb.
  rewrite (SFcompare_antisym (Prim2SF x) (Prim2SF y)).
  by destruct (SFcompare (Prim2SF x) (Prim2SF y)) as [[]|].
Qed.

(** A value at most a positive binary64 is not above a larger one with the
    same exponent. *)
Lemma SFleb_not_gt_larger (x : spec_float) (m1 m2 : positive) (e : Z) :
  (m1 < m2)%positive →
  SFleb x (S754_finite false m1 e) = true →
  SFltb (S754_finite false m2 e) x = false.
Proof.
  intros Hm. unfold SFleb, SFltb.
  rewrite (SFcompare_antisym x (S754_finite false m2 e)).
  destruct x as [[]|[]| |[] m e']; simpl; try done.
  destruct (e' ?= e)%Z; try done.
  rewrite !Pos.compare_cont_spec. simpl.
  destruct (Pos.compare_spec m m1) as [-> | Hlt | Hgt]; try done; intros _.
  - by destruct (Pos.compare_spec m1 m2) as [-> | Hlt' | Hgt']; try lia.
  - by destruct (Pos.compare_spec m m2) as [-> | Hlt' | Hgt']; try lia.
Qed.

(** At most 1.2 is not above 1.4. *)
Lemma float_leb_1_2_not_gt_1_4 (x : float) :
  (x <=? 1.2)%float = true → (1.4 <? x)%float = false.
Proof.
  rewrite leb_spec, ltb_spec.
  apply (SFleb_not_gt_larger (Prim2SF x) 5404319552844595 6305039478318694 (-52)).
  reflexivity.
Qed.

(** The three levels by the position of the ratio. *)
Lemma traffic_level_by_ratio (ratio : float) :
  ((1.4 <? ratio)%float = true → traffic_level ratio = "Heavy"%string)
  ∧ ((1.2 <? ratio)%float = true → (ratio <=? 1.4)%float = true →
     traffic_level ratio = "Moderate"%string)
  ∧ ((ratio <=? 1.2)%float = true → traffic_level ratio = "Light"%string).
Proof.
  unfold traffic_level. split_and!.
  - by intros ->.
  - intros -> Hle. by rewrite (float_leb_not_ltb _ _ Hle).
  - intros Hle. by rewrite (float_leb_1_2_not_gt_1_4 _ Hle), (float_leb_not_ltb _ _ Hle).
Qed.

Lemma Q_of_fraction_eq (a b n : Z) (d : positive) :
  b ≠ 0 → a * Zpos d = n * b → Q_of_fraction a b == n # d.
Proof.
  intros Hb Hab. unfold Q_of_fraction, Qeq. destruct (Z.ltb_spec 0 b); simpl.
  - rewrite Z2Pos.id by lia. lia.
  - rewrite Z2Pos.id by lia. lia.
Qed.

(** An int quotient that is exactly a rational within range is that
    rational rounded. *)
Lemma int_truediv_exact (a b : Z) (q : Q) :
  b ≠ 0 → a ≠ 0 → Q_of_fraction a b == q →
  Qle_bool overflow_threshold (Qabs q) = false →
  int_truediv a b = Ok (round_Q q).
Proof.
  intros Hb Ha Hq Hrange. unfold int_truediv.
  rewrite (proj2 (Z.eqb_neq b 0) Hb), (proj2 (Z.eqb_neq a 0) Ha).
  assert (Qle_bool overflow_threshold (Qabs (Q_of_fraction a b)) = false) as ->.
  { apply not_true_is_false. intros Hle. apply Qle_bool_iff in Hle.
    rewrite Hq in Hle. apply Qle_bool_iff in Hle. congruence. }
  unfold round_Q. by rewrite (Qred_complete _ _ Hq).
Qed.

Section Traffic_properties.
Context `{Pydantic, Environment, Unicode}.

(** The traffic level of a response is the level of the ratio of the
    first element of the route's distance matrix. *)
Lemma car_trip_response_traffic route r :
  car_trip_response route = Ok r →
  ∃ distance_matrix_data element ratio,
    google_call (distance_matrix_url route) "Distance Matrix API error: "
    = Ok distance_matrix_data
    ∧ first_element distance_matrix_data = Ok element
    ∧ traffic_ratio element = Ok ratio
    ∧ CarTripResponse.traffic r = traffic_level ratio
    ∧ ∃ distance,
        nested_getitem element "distance" "text" = Ok distance
        ∧ fuel_cost distance = Ok (CarTripResponse.fuelCost r).
Proof.
  unfold car_trip_response. intros Hr. ok_inv.
  apply make_CarTripResponse_Ok in Hr as (? & ? & ? & _ & _ & _ & ->). simpl.
  eauto 10.
Qed.

(** C7. The traffic level of every car response is that of the ratio
    [duration_in_traffic value / duration value] of the route's element:
    ["Heavy"] above 1.4, ["Moderate"] above 1.2 and up to 1.4, ["Light"] up
    to 1.2 (so for 1.5, 1.3 and 1.0). Values whose quotient is exactly 7/5
    give the ratio 1.4 and ["Moderate"], exactly 6/5 the ratio 1.2 and
    ["Light"]; without [duration_in_traffic] the ratio is 1 and the level
    ["Light"]. *)
Theorem traffic_level_from_ratio :
  (∀ route r,
     car_trip_response route = Ok r →
     ∃ distance_matrix_data element ratio,
       google_call (distance_matrix_url route) "Distance Matrix API error: "
       = Ok distance_matrix_data
       ∧ first_element distance_matrix_data = Ok element
       ∧ traffic_ratio element = Ok ratio
       ∧ CarTripResponse.traffic r = traffic_level ratio)
  ∧ (∀ ratio : float,
       ((1.4 <? ratio)%float = true → traffic_level ratio = "Heavy"%string)
       ∧ ((1.2 <? ratio)%float = true → (ratio <=? 1.4)%float = true →
          traffic_level ratio = "Moderate"%string)
       ∧ ((ratio <=? 1.2)%float = true → traffic_level ratio = "Light"%string))
  ∧ (traffic_level 1.5 = "Heavy" ∧ traffic_level 1.3 = "Moderate"
     ∧ traffic_level 1.0 = "Light" ∧ traffic_level 1.4 = "Moderate"
     ∧ traffic_level 1.2 = "Light")%string
  ∧ (∀ element a b,
       nested_getitem element "duration" "value" = Ok (JInt b) →
       in_traffic element "value" (JInt b) = Ok (JInt a) →
       b ≠ 0 →
       (5 * a = 7 * b → traffic_ratio element = Ok 1.4%float)
       ∧ (5 * a = 6 * b → traffic_ratio element = Ok 1.2%float))
  ∧ (∀ (element : gmap string json) b,
       element !! "duration_in_traffic" = None →
       nested_getitem (JDict element) "duration" "value" = Ok (JInt b) →
       b ≠ 0 →
       traffic_ratio (JDict element) = Ok 1%float).
Proof.
  split; [|split; [|split; [|split]]].
  - intros route r Hr.
    apply car_trip_response_traffic in Hr as (d & e & ratio & ? & ? & ? & ? & _).
    eauto 10.
  - apply traffic_level_by_ratio.
  - vm_compute. auto.
  - intros element a b Hb Ha Hnz. unfold traffic_ratio. rewrite Hb. simpl.
    rewrite Ha. simpl. split; intros Hab.
    + apply (int_truediv_exact a b (7 # 5)); [done|lia| |done].
      apply Q_of_fraction_eq; [done|lia].
    + apply (int_truediv_exact a b (6 # 5)); [done|lia| |done].
      apply Q_of_fraction_eq; [done|lia].
  - intros element b Habsent Hb Hnz. unfold traffic_ratio. rewrite Hb. simpl.
    unfold in_traffic. simpl. rewrite Habsent. simpl.
    apply (int_truediv_exact b b 1); [done|done| |done].
    apply Q_of_fraction_eq; [done|lia].
Qed.

End Traffic_properties.

(** The car response of the test double: quotient 2520 / 1800 is exactly
    7/5, hence ["Moderate"]. *)
Lemma traffic_level_from_ratio_witness :
  @traffic_ratio
    (obj [("duration", obj [("value", JInt 1800)]);
          ("duration_in_traffic", obj [("value", JInt 2520)])]%string)
  = Ok 1.4%float
  ∧ traffic_level 1.4 = "Moderate"%string.
Proof.
  pose proof (@traffic_level_from_ratio strict test_environment unicode_14) as (_ & Hlevel & _ & Hexact & _).
  split.
  - eapply (Hexact _ 2520 1800); [reflexivity | reflexivity | lia | lia].
  - apply Hlevel; reflexivity.
Defined.

(** ** Code points and UTF-8 *)

(** Decides the comparisons of a goal about bytes. *)
Ltac compare_N :=
  repeat match goal with
  | |- context [(?a <=? ?b)%N] =>
      (rewrite (proj2 (N.leb_le a b)) by lia) || (rewrite (proj2 (N.leb_gt a b)) by lia)
  | |- context [(?a <? ?b)%N] =>
      (rewrite (proj2 (N.ltb_lt a b)) by lia) || (rewrite (proj2 (N.ltb_ge a b)) by lia)
  end;
  simpl; try reflexivity.

(** Reads the comparisons a decoded code point has passed. *)
Ltac passed_N H :=
  unfold continuation_byte in H;
  rewrite ?andb_true_iff, ?N.leb_le, ?N.ltb_lt in H.

Lemma decode_ascii (b : N) (l : list N) :
  (b < 128)%N → decode (b :: l) = b :: decode l.
Proof. intros Hb. cbn [decode]. by rewrite (proj2 (N.ltb_lt _ _) Hb). Qed.

Lemma decode_two (b0 b1 : N) (l : list N) (c : codepoint) :
  (128 ≤ b0)%N → two_bytes b0 b1 = Some c → decode (b0 :: b1 :: l) = c :: decode l.
Proof.
  intros Hb H2. cbn [decode]. rewrite (proj2 (N.ltb_ge _ _) Hb). by rewrite H2.
Qed.

Lemma decode_three (b0 b1 b2 : N) (l : list N) (c : codepoint) :
  (128 ≤ b0)%N → two_bytes b0 b1 = None → three_bytes b0 b1 b2 = Some c →
  decode (b0 :: b1 :: b2 :: l) = c :: decode l.
Proof.
  intros Hb H2 H3. cbn [decode]. rewrite (proj2 (N.ltb_ge _ _) Hb). by rewrite H2, H3.
Qed.

Lemma decode_four (b0 b1 b2 b3 : N) (l : list N) (c : codepoint) :
  (128 ≤ b0)%N → two_bytes b0 b1 = None → three_bytes b0 b1 b2 = None →
  four_bytes b0 b1 b2 b3 = Some c →
  decode (b0 :: b1 :: b2 :: b3 :: l) = c :: decode l.
Proof.
  intros Hb H2 H3 H4. cbn [decode]. rewrite (proj2 (N.ltb_ge _ _) Hb).
  by rewrite H2, H3, H4.
Qed.

(** The four pieces a code point is cut into. *)
Lemma codepoint_pieces (c : codepoint) :
  ∃ a b d r,
    (c = 262144 * a + 4096 * b + 64 * d + r ∧ b < 64 ∧ d < 64 ∧ r < 64
     ∧ c / 64 = 4096 * a + 64 * b + d ∧ c mod 64 = r
     ∧ c / 4096 = 64 * a + b ∧ (c / 64) mod 64 = d
     ∧ c / 262144 = a ∧ (c / 4096) mod 64 = b)%N.
Proof.
  exists (c / 262144)%N, ((c / 4096) mod 64)%N, ((c / 64) mod 64)%N, (c mod 64)%N.
  zify. Z.to_euclidean_division_equations. lia.
Qed.

Lemma decode_encode (c : codepoint) (l : list N) :
  is_codepoint c → decode (encode c ++ l) = c :: decode l.
Proof.
  unfold is_codepoint, encode. intros Hc.
  destruct (codepoint_pieces c) as (a & b & d & r & Hsum & Hb & Hd & Hr
    & H64 & Hm64 & H4096 & Hm4096 & H262144 & Hm262144).
  destruct (N.ltb_spec c 128) as [H1|H1]; [by apply decode_ascii|].
  destruct (N.ltb_spec c 2048) as [H2|H2].
  { rewrite H64, Hm64. simpl. apply decode_two; [lia|].
    unfold two_bytes, continuation_byte. compare_N. f_equal. lia. }
  destruct (N.ltb_spec c 65536) as [H3|H3].
  { rewrite H4096, Hm4096, Hm64. simpl. apply decode_three; [lia| |].
    - unfold two_bytes. compare_N.
    - unfold three_bytes, continuation_byte. compare_N. f_equal. lia. }
  rewrite H262144, Hm262144, Hm4096, Hm64. simpl. apply decode_four; [lia| | |].
  - unfold two_bytes. compare_N.
  - unfold three_bytes. compare_N.
  - unfold four_bytes, continuation_byte. compare_N. f_equal. lia.
Qed.

Lemma encode_bytes (c : codepoint) :
  is_codepoint c → Forall (λ b, (b < 256)%N) (encode c).
Proof.
  unfold is_codepoint, encode. intros Hc.
  destruct (codepoint_pieces c) as (a & b & d & r & Hsum & Hb & Hd & Hr
    & H64 & Hm64 & H4096 & Hm4096 & H262144 & Hm262144).
  rewrite H262144, Hm262144, H4096, Hm4096, H64, Hm64.
  destruct (N.ltb_spec c 128); [|destruct (N.ltb_spec c 2048); [|destruct (N.ltb_spec c 65536)]];
    repeat constructor; lia.
Qed.

Lemma decode_codepoints (l : list N) : Forall is_codepoint (decode l).
Proof.
  assert (Hlen : ∀ n l, (length l < n)%nat → Forall is_codepoint (decode l)).
  { clear l. induction n as [|n IH]; intros l Hl; [lia|].
    assert (Hreplace : ∀ l1, (length l1 < n)%nat →
              Forall is_codepoint (replacement_character :: decode l1)).
    { intros l1 Hl1. constructor; [reflexivity | by apply IH]. }
    destruct l as [|b0 l1]; [constructor|]. simpl in Hl. cbn [decode].
    destruct (N.ltb_spec b0 128) as [H0|H0].
    { constructor; [unfold is_codepoint; lia | apply IH; lia]. }
    destruct l1 as [|b1 l2]; [apply (Hreplace []); simpl; lia|]. simpl in Hl.
    destruct (two_bytes b0 b1) as [c|] eqn:H2.
    { constructor; [|apply IH; lia]. revert H2. unfold two_bytes.
      destruct (_ && _) eqn:Hpassed; [|done]. intros [= <-]. passed_N Hpassed.
      unfold is_codepoint. lia. }
    destruct l2 as [|b2 l3]; [apply Hreplace; simpl; lia|]. simpl in Hl.
    destruct (three_bytes b0 b1 b2) as [c|] eqn:H3.
    { constructor; [|apply IH; lia]. revert H3. unfold three_bytes. cbv zeta.
      destruct (_ && _) eqn:Hpassed; [|done]. intros [= <-]. passed_N Hpassed.
      unfold is_codepoint. lia. }
    destruct l3 as [|b3 l4]; [apply Hreplace; simpl; lia|]. simpl in Hl.
    destruct (four_bytes b0 b1 b2 b3) as [c|] eqn:H4; [|apply Hreplace; simpl; lia].
    constructor; [|apply IH; lia]. revert H4. unfold four_bytes. cbv zeta.
    destruct (_ && _) eqn:Hpassed; [|done]. intros [= <-]. passed_N Hpassed.
    unfold is_codepoint. lia. }
  apply (Hlen (S (length l))). lia.
Qed.

Lemma chars_codepoints (s : string) : Forall is_codepoint (chars s).
Proof. apply decode_codepoints. Qed.

Lemma decode_bind_encode (l : list codepoint) :
  Forall is_codepoint l → decode (l ≫= encode) = l.
Proof.
  induction 1 as [|c l Hc _ IH]; [done|].
  change ((c :: l) ≫= encode) with (encode c ++ (l ≫= encode)).
  by rewrite decode_encode, IH.
Qed.

Lemma bytes_of_ascii_of_bytes (l : list N) :
  Forall (λ b, (b < 256)%N) l → N_of_ascii <$> (ascii_of_N <$> l) = l.
Proof.
  induction 1 as [|b l Hb _ IH]; [done|]. rewrite !fmap_cons, IH. f_equal.
  by apply N_ascii_embedding.
Qed.

(** Writing code points and reading them again gives them back. *)
Lemma chars_text (l : list codepoint) : Forall is_codepoint l → chars (text l) = l.
Proof.
  intros Hl. unfold chars, text. rewrite list_ascii_of_string_of_list_ascii.
  rewrite bytes_of_ascii_of_bytes; [by apply decode_bind_encode|].
  induction Hl as [|c l Hc _ IH]; [constructor|].
  change ((c :: l) ≫= encode) with (encode c ++ (l ≫= encode)).
  apply Forall_app. split; [by apply encode_bytes | done].
Qed.

(** What is kept of the code points of a text is read back as it is. *)
Lemma chars_text_filter (p : codepoint → Prop) `{∀ c, Decision (p c)} (s : string) :
  chars (text (filter p (chars s))) = filter p (chars s).
Proof.
  apply chars_text, Forall_forall. intros c [_ Hc]%list_elem_of_filter.
  by apply (proj1 (Forall_forall _ _) (chars_codepoints s)).
Qed.



Lemma chars_app_ascii (s t : string) :
  is_ascii_text s → chars (s +:+ t) = chars s ++ chars t.
Proof.
  unfold is_ascii_text. induction s as [|c s IH]; intros Hs; [done|].
  cbn [list_ascii_of_string] in Hs. apply Forall_cons in Hs as [Hc Hs].
  unfold chars in *. change (String c s +:+ t) with (String c (s +:+ t)).
  cbn [list_ascii_of_string].
  rewrite !fmap_cons, !decode_ascii by done. rewrite <- app_comm_cons. f_equal.
  by apply IH.
Qed.

(** ** The character classes *)

Section Character_classes.
Context `{Unicode}.

Lemma decimal_digit_run (c : codepoint) (d : N) :
  decimal_digit c = Some d
  ↔ ∃ z, find (λ z, (z <=? c) && (c <=? z + 9))%N decimal_zeros = Some z
         ∧ (z ≤ c ≤ z + 9)%N ∧ d = (c - z)%N ∧ z ∈ decimal_zeros.
Proof.
  unfold decimal_digit. split.
  - destruct (find _ _) as [z|] eqn:Hfind; [|done]. intros [= <-]. exists z.
    apply find_some in Hfind as [Hin Hrun].
    apply andb_prop in Hrun as [Hlo%N.leb_le Hhi%N.leb_le].
    by rewrite list_elem_of_In.
  - intros (z & -> & _ & -> & _). done.
Qed.

Lemma ascii_zero (z : codepoint) : z ∈ decimal_zeros → (z < 128)%N → z = 48%N.
Proof.
  intros Hz Hascii.
  assert (Hin : z ∈ filter (λ z, (z <? 128)%N = true) decimal_zeros).
  { apply list_elem_of_filter. split; [by apply N.ltb_lt | done]. }
  rewrite decimal_zeros_ascii in Hin. by apply list_elem_of_singleton in Hin.
Qed.

Lemma zero_48 : 48%N ∈ decimal_zeros.
Proof.
  assert (Hin : 48%N ∈ filter (λ z, (z <? 128)%N = true) decimal_zeros).
  { rewrite decimal_zeros_ascii. apply list_elem_of_singleton. done. }
  by apply list_elem_of_filter in Hin as [_ Hin].
Qed.

(** On ASCII the decimal digits are [0] to [9], with their values. *)
Lemma decimal_digit_ascii (c : codepoint) :
  (c < 128)%N →
  decimal_digit c = if ascii_digit c then Some (c - 48)%N else None.
Proof.
  intros Hc. unfold ascii_digit.
  destruct (decimal_digit c) as [d|] eqn:Hd.
  - apply decimal_digit_run in Hd as (z & _ & Hrun & -> & Hz).
    assert (z = 48%N) as -> by (apply ascii_zero; [done | lia]).
    by rewrite (proj2 (N.leb_le 48 c)), (proj2 (N.leb_le c 57)) by lia.
  - destruct (N.leb_spec 48 c) as [Hlo|Hlo]; [|done].
    destruct (N.leb_spec c 57) as [Hhi|Hhi]; [|done]. simpl.
    unfold decimal_digit in Hd. destruct (find _ _) as [z|] eqn:Hfind; [done|].
    pose proof zero_48 as Hin%list_elem_of_In.
    apply (find_none _ _ Hfind) in Hin. cbv beta in Hin.
    rewrite (proj2 (N.leb_le 48 c)), (proj2 (N.leb_le c (48 + 9))) in Hin by lia. done.
Qed.

Lemma is_digit_ascii (c : codepoint) : (c < 128)%N → is_digit c = ascii_digit c.
Proof.
  intros Hc. unfold is_digit. rewrite (decimal_digit_ascii c Hc). by destruct (ascii_digit c).
Qed.



Lemma digit_value_bounds (c : codepoint) : 0 ≤ digit_value c ≤ 9.
Proof.
  unfold digit_value. destruct (decimal_digit c) as [d|] eqn:Hd; simpl; [|lia].
  apply decimal_digit_run in Hd as (z & _ & Hrun & -> & _). lia.
Qed.



Lemma is_point_not_digit (c : codepoint) : is_point c = true → is_digit c = false.
Proof.
  unfold is_point. intros ->%N.eqb_eq. by rewrite is_digit_ascii.
Qed.

End Character_classes.

(** ** Numerals *)










(** ** Printing a number *)



Lemma is_ascii_text_app (s t : string) :
  is_ascii_text s → is_ascii_text t → is_ascii_text (s +:+ t).
Proof.
  unfold is_ascii_text. induction s as [|c s IH]; intros Hs Ht; [done|].
  change (String c s +:+ t) with (String c (s +:+ t)). cbn [list_ascii_of_string] in *.
  apply Forall_cons in Hs as [Hc Hs]. constructor; [done | by apply IH].
Qed.





(** ** Rounding to hundredths *)






Lemma text_ascii (l : list codepoint) :
  Forall (λ c, (c < 128)%N) l → text l = string_of_list_ascii (ascii_of_N <$> l).
Proof.
  intros Hl. unfold text. do 2 f_equal.
  induction Hl as [|c l Hc _ IH]; [done|].
  change ((c :: l) ≫= encode) with (encode c ++ (l ≫= encode)).
  rewrite IH. unfold encode. by rewrite (proj2 (N.ltb_lt _ _) Hc).
Qed.



(** ** Fuel cost *)

Section Distance_text.
Context `{Unicode}.

Lemma re_sub_class_keeps (distance : string) :
  re_sub_class not_digit_or_point distance = text (stripped distance).
Proof.
  unfold re_sub_class, stripped. f_equal. apply list_filter_iff. intros c.
  unfold not_digit_or_point. by destruct (is_digit c || is_point c).
Qed.

Lemma chars_stripped (distance : string) :
  chars (text (stripped distance)) = stripped distance.
Proof. apply chars_text_filter. Qed.


Lemma split_point_app (l ip : list codepoint) (fp : option (list codepoint)) :
  split_point l = (ip, fp) →
  forallb (λ c, negb (is_point c)) ip = true
  ∧ l = ip ++ match fp with Some f => 46%N :: f | None => [] end.
Proof.
  revert ip fp. induction l as [|c l IH]; intros ip fp; simpl.
  - by intros [= <- <-].
  - destruct (is_point c) eqn:Hc.
    + intros [= <- <-]. unfold is_point in Hc. apply N.eqb_eq in Hc as ->. done.
    + destruct (split_point l) as [ip' fp'] eqn:Hsplit. intros [= <- <-].
      destruct (IH ip' fp' eq_refl) as [Hip Hl]. simpl. rewrite Hc. simpl.
      split; [done|]. by f_equal.
Qed.





End Distance_text.


Section Fuel_properties.
Context `{Pydantic, Environment, Unicode}.


End Fuel_properties.


(** C8, as stated, fails: a distance text with a number of 310 digits is
    too large for a float, and its cost is written ["€inf"], which has no
    decimal places. *)
Lemma huge_distance_has_no_decimal_places :
  @fuel_cost unicode_14 (JStr huge_distance) = Ok "€inf"%string
  ∧ ¬ euro_two_decimal_places "€inf".
Proof.
  split; [vm_compute; reflexivity|].
  intros (t & Ht & negative & cents & whole & d1 & d2 & -> & Hdigits & Hwhole & _).
  apply (f_equal String.length) in Ht. revert Ht.
  rewrite forallb_app in Hdigits. apply andb_prop in Hdigits as [Hdigits Htwo].
  assert (Hascii : ∀ l, forallb ascii_digit l = true → Forall (λ c, (c < 128)%N) l).
  { intros l Hl. apply Forall_forall. intros c Hc%list_elem_of_In.
    rewrite forallb_forall in Hl. apply Hl in Hc. unfold ascii_digit in Hc.
    apply andb_prop in Hc as [_ Hc%N.leb_le]. lia. }
  rewrite (text_ascii whole (Hascii _ Hdigits)), (text_ascii [d1; d2] (Hascii _ Htwo)).
  assert (Hlength : ∀ l, String.length (string_of_list_ascii l) = length l).
  { induction l as [|c l IH]; [done|]. simpl. by rewrite IH. }
  assert (Happ : ∀ s t, String.length (s +:+ t) = (String.length s + String.length t)%nat).
  { induction s as [|c s IH]; intros t'; [done|]. simpl. by rewrite <- IH. }
  rewrite !Happ, !Hlength, !length_fmap. destruct whole; [done|].
  destruct negative; simpl; lia.
Qed.

(** ** Division by the duration value *)

Lemma int_truediv_in_range (a b : Z) :
  0 < b → Z.abs a < 2 ^ 1023 → ∃ ratio, int_truediv a b = Ok ratio.
Proof.
  intros Hb Ha. unfold int_truediv.
  rewrite (proj2 (Z.eqb_neq b 0)) by lia.
  assert (Qle_bool overflow_threshold (Qabs (Q_of_fraction a b)) = false) as ->.
  { apply not_true_is_false. intros Hle. apply Qle_bool_iff in Hle.
    unfold Q_of_fraction in Hle. rewrite (proj2 (Z.ltb_lt 0 b)) in Hle by done.
    unfold Qle, overflow_threshold in Hle. simpl in Hle.
    assert (Hthreshold : 2 ^ 1023 < 2 ^ 1024 - 2 ^ 970) by (vm_compute; reflexivity).
    revert Ha Hle Hthreshold.
    generalize (2 ^ 1024 - 2 ^ 970) (2 ^ 1023). intros T B ???.
    assert (1 ≤ Z.pos (Z.to_pos b)) by lia. nia. }
  destruct (a =? 0); eauto.
Qed.

Section Division_properties.
Context `{Pydantic, Environment, Unicode}.

(** C10. The ratio divides by the duration value with no guard. When the
    duration value is a positive int, and the duration-in-traffic value an
    int within the range of a binary64, the division returns a ratio; when
    the duration value is not zero the division never raises
    [ZeroDivisionError]; when it is zero it does, and [get_car_routes] does
    not turn that error into its [HTTPException]: the handler itself raises
    [ZeroDivisionError], as for the route of the test double whose duration
    is zero seconds. *)
Theorem division_by_duration_value_unguarded :
  (∀ element a b,
     nested_getitem element "duration" "value" = Ok (JInt b) →
     in_traffic element "value" (JInt b) = Ok (JInt a) →
     (0 < b → Z.abs a < 2 ^ 1023 → ∃ ratio, traffic_ratio element = Ok ratio)
     ∧ (b ≠ 0 → traffic_ratio element ≠ Raise ZeroDivisionError)
     ∧ (b = 0 → traffic_ratio element = Raise ZeroDivisionError))
  ∧ (∀ request,
       for_append car_trip_response
         (current_route (CarRouteRequest.is_reversed request)
            <$> CarRouteRequest.routes request) []
       = Raise ZeroDivisionError →
       get_car_routes request = Raise ZeroDivisionError)
  ∧ @get_car_routes strict test_environment unicode_14
      (CarRouteRequest.Build [car_utrecht_utrecht] false)
    = Raise ZeroDivisionError.
Proof.
  split; [|split].
  - intros element a b Hb Ha. unfold traffic_ratio. rewrite Hb. simpl. rewrite Ha. simpl.
    split_and!.
    + apply int_truediv_in_range.
    + intros Hnz. change (int_truediv a b ≠ Raise ZeroDivisionError).
      unfold int_truediv. rewrite (proj2 (Z.eqb_neq b 0) Hnz).
      by repeat case_match.
    + by intros ->.
  - intros request Hloop. unfold get_car_routes. by rewrite Hloop.
  - vm_compute. reflexivity.
Qed.

End Division_properties.

(** The element of the test double for Utrecht to Amsterdam: 2520 / 1800. *)
Lemma division_by_duration_value_unguarded_witness :
  ∃ ratio,
    traffic_ratio
      (obj [("duration", obj [("value", JInt 1800)]);
            ("duration_in_traffic", obj [("value", JInt 2520)])]%string)
    = Ok ratio.
Proof.
  pose proof (@division_by_duration_value_unguarded strict test_environment unicode_14)
    as (Hdivision & _).
  eapply (Hdivision _ 2520 1800); [reflexivity | reflexivity | lia | vm_compute; reflexivity].
Defined.

(** ** Road names *)

Section Road_tokens.
Context `{Unicode}.










Lemma collect_road_names_cons (step : json) (steps : list json) (road_names : list string)
    (s : string) :
  py_getitem step "html_instructions" = Ok (JStr s) →
  collect_road_names (step :: steps) road_names
  = match re_search road_pattern s with
    | Some road =>
        if (3 <=? length (road_names ++ [road]))%nat then Ok (road_names ++ [road])
        else collect_road_names steps (road_names ++ [road])
    | None => collect_road_names steps road_names
    end.
Proof. intros Hs. simpl. by rewrite Hs. Qed.



End Road_tokens.

(** ** Road names in ASCII text *)

Section Ascii_text.
Context `{Unicode}.













End Ascii_text.


Section Road_properties.
Context `{Pydantic, Environment, Unicode}.



End Road_properties.



(** A batch of two routes against the test double: two responses, with the
    keys in the order of the routes. *)
Lemma one_response_per_route_in_order_witness :
  ∃ responses,
    @get_train_routes strict test_environment
      (RouteRequest.Build [utrecht_amsterdam; reversed_route (reversed_route utrecht_amsterdam)]
         5 false) = Ok responses
    ∧ length responses = 2%nat
    ∧ RouteResponse.routeKey <$> responses
      = ["Utrecht-Amsterdam"; "Utrecht-Amsterdam"]%string.
Proof.
  eexists. split; [vm_compute; reflexivity|].
  pose proof (@one_response_per_route_in_order strict test_environment unicode_14
    (RouteRequest.Build [utrecht_amsterdam; reversed_route (reversed_route utrecht_amsterdam)]
       5 false)
    (CarRouteRequest.Build [car_utrecht_amsterdam] false)) as (_ & Hkeys & _).
  eapply Hkeys. vm_compute. reflexivity.
Defined.


(** * Further properties of the handlers *)

(** ** Which exceptions the transformations raise *)

Lemma raises_unhandled_bind {A B} (m : result A) (f : A → result B) :
  raises_unhandled m → (∀ a, m = Ok a → raises_unhandled (f a)) →
  raises_unhandled (m ≫= f).
Proof.
  intros Hm Hf e He. apply bind_Raise in He as [He | (a & Ha & He)]; [by apply Hm|].
  by apply (Hf a Ha).
Qed.

Lemma raises_unhandled_Ok {A} (a : A) : raises_unhandled (Ok a).
Proof. by intros e. Qed.

Lemma raises_unhandled_Raise {A} (e : exn) :
  unhandled e = true → raises_unhandled (@Raise A e).
Proof. by intros He e' [= <-]. Qed.

Lemma raises_unhandled_py_get_default x k dflt : raises_unhandled (py_get_default x k dflt).
Proof. destruct x; simpl; by intros e [= <-]. Qed.

Lemma raises_unhandled_py_get x k : raises_unhandled (py_get x k).
Proof. apply raises_unhandled_py_get_default. Qed.

Lemma raises_unhandled_py_getitem x k : raises_unhandled (py_getitem x k).
Proof. destruct x; simpl; try by intros e [= <-]. destruct (_ !! _); by intros e [= <-]. Qed.

Lemma raises_unhandled_py_index x i : raises_unhandled (py_index x i).
Proof.
  destruct x; simpl; try by intros e [= <-].
  all: destruct (list_index _ _); by intros e [= <-].
Qed.

Lemma raises_unhandled_py_iter x : raises_unhandled (py_iter x).
Proof. destruct x; simpl; by intros e [= <-]. Qed.

Lemma raises_unhandled_py_slice_to x n : raises_unhandled (py_slice_to x n).
Proof. destruct x; simpl; by intros e [= <-]. Qed.

Lemma raises_unhandled_validated {A} (o : option A) : raises_unhandled (validated o).
Proof. destruct o; simpl; by intros e [= <-]. Qed.

Lemma raises_unhandled_py_or_else a (b : result json) :
  raises_unhandled b → raises_unhandled (py_or_else a b).
Proof. unfold py_or_else. destruct (truthy a); [intros _; apply raises_unhandled_Ok | done]. Qed.

Lemma raises_unhandled_for_append {A B} (body : A → result B) xs acc :
  (∀ x, raises_unhandled (body x)) → raises_unhandled (for_append body xs acc).
Proof.
  intros Hbody. revert acc. induction xs as [|x xs IH]; intros acc; simpl.
  - apply raises_unhandled_Ok.
  - apply raises_unhandled_bind; [apply Hbody | intros; apply IH].
Qed.

Lemma raises_unhandled_for_enumerate {A B} (body : Z → A → result B) idx xs acc :
  (∀ i x, raises_unhandled (body i x)) → raises_unhandled (for_enumerate body idx xs acc).
Proof.
  intros Hbody. revert idx acc. induction xs as [|x xs IH]; intros idx acc; simpl.
  - apply raises_unhandled_Ok.
  - apply raises_unhandled_bind; [apply Hbody | intros; apply IH].
Qed.

Create HintDb unhandled.
#[local] Hint Resolve raises_unhandled_Ok raises_unhandled_py_get_default
  raises_unhandled_py_get raises_unhandled_py_getitem raises_unhandled_py_index
  raises_unhandled_py_iter raises_unhandled_py_slice_to raises_unhandled_validated
  raises_unhandled_py_or_else : unhandled.

(** Splits a sequence of steps into its steps. *)
Ltac unhandled_steps :=
  repeat first
    [ progress eauto with unhandled
    | apply raises_unhandled_bind; [|intros ? _]
    | apply raises_unhandled_py_or_else
    | match goal with |- raises_unhandled (if ?b then _ else _) => destruct b end ].

Section Unhandled.
Context `{Pydantic, Environment, Unicode}.

Lemma raises_unhandled_nested_get x outer inner : raises_unhandled (nested_get x outer inner).
Proof. unfold nested_get. unhandled_steps. Qed.

Lemma raises_unhandled_transform_leg leg : raises_unhandled (transform_leg leg).
Proof.
  pose proof raises_unhandled_nested_get.
  unfold transform_leg, leg_name, leg_plannedDepartureTime, leg_product, make_Leg,
    make_Product.
  unhandled_steps.
Qed.

Lemma raises_unhandled_transform_trip idx trip : raises_unhandled (transform_trip idx trip).
Proof.
  unfold transform_trip, transform_legs, make_Trip. unhandled_steps.
  apply raises_unhandled_for_append, raises_unhandled_transform_leg.
Qed.

Lemma raises_unhandled_transform_trips max_journeys trips_data :
  raises_unhandled (transform_trips max_journeys trips_data).
Proof.
  unfold transform_trips. unhandled_steps.
  apply raises_unhandled_for_enumerate, raises_unhandled_transform_trip.
Qed.

Lemma raises_unhandled_transform_disruption u : raises_unhandled (transform_disruption u).
Proof. unfold transform_disruption, make_Disruption. unhandled_steps. Qed.

Lemma raises_unhandled_append_active items acc : raises_unhandled (append_active items acc).
Proof.
  revert acc. induction items as [|u items IH]; intros acc; simpl.
  - apply raises_unhandled_Ok.
  - pose proof raises_unhandled_transform_disruption. unhandled_steps.
Qed.

Lemma station_disruptions_Raise station_code acc e :
  station_disruptions station_code acc = Raise e →
  (∃ err, e = RequestException err) ∨ unhandled e = true.
Proof.
  unfold station_disruptions, http_get, response_json. cbv zeta.
  destruct (requests_get _ _) as [msg|r]; simpl; [intros [= <-]; eauto|].
  destruct (ok r); [|done]. destruct (body r) as [data|]; simpl; [|intros [= <-]; eauto].
  intros Hrest. right. revert e Hrest.
  change (raises_unhandled
    (py_get_default data "payload" (JDict ∅) ≫= λ payload,
       py_get payload "disruptions" ≫= λ l,
         if truthy l
         then py_getitem data "payload" ≫= λ payload,
                py_getitem payload "disruptions" ≫= λ l,
                  py_iter l ≫= λ items, append_active items acc
         else Ok acc)).
  pose proof raises_unhandled_append_active. unhandled_steps.
Qed.

Lemma raises_unhandled_try_station station_code acc :
  raises_unhandled (try_station station_code acc).
Proof.
  unfold try_station. intros e He.
  destruct (station_disruptions station_code acc) as [ds|e'] eqn:Hstation; [done|].
  apply station_disruptions_Raise in Hstation as [(err & ->) | Hplain]; [done|].
  destruct e'; simplify_eq/=; done.
Qed.

Lemma raises_unhandled_fetch_disruptions station_codes acc :
  raises_unhandled (fetch_disruptions station_codes acc).
Proof.
  revert acc. induction station_codes as [|c cs IH]; intros acc; simpl.
  - apply raises_unhandled_Ok.
  - apply raises_unhandled_bind; [apply raises_unhandled_try_station | intros; apply IH].
Qed.

Lemma fetch_trips_Raise is_reversed route e :
  fetch_trips is_reversed route = Raise e →
  ∃ err, e = RequestException err ∧ trip_search_fails is_reversed route err.
Proof.
  intros Hfetch.
  assert (∃ err, e = RequestException err) as (err & ->).
  { unfold fetch_trips, http_get, raise_for_status, response_json in Hfetch.
    cbv zeta in Hfetch. destruct (requests_get _ _) as [msg|r]; simpl in Hfetch.
    - injection Hfetch as <-. eauto.
    - destruct (is_error_status r); simpl in Hfetch; [injection Hfetch as <-; eauto|].
      destruct (body r); simpl in Hfetch; [done|]. injection Hfetch as <-. eauto. }
  exists err. split; [done|]. by apply fetch_trips_fails.
Qed.

(** X2. The only exception [get_train_routes] raises on purpose is the
    [HTTPException] with status 500 for a failed trip search: when the
    handler raises an [HTTPException], the trip search of one of the routes
    failed and the detail names its error; a [RequestException] never
    leaves the handler. *)
Theorem train_routes_HTTPException_only_from_trip_search :
  ∀ request : RouteRequest.t,
    (∀ status_code detail,
       get_train_routes request = Raise (HTTPException status_code detail) →
       status_code = 500
       ∧ ∃ route e,
           route ∈ RouteRequest.routes request
           ∧ trip_search_fails (RouteRequest.is_reversed request) route e
           ∧ detail = ("Error fetching train routes: " +:+ str_of_error e)%string)
    ∧ (∀ e, get_train_routes request ≠ Raise (RequestException e)).
Proof.
  intros request.
  assert (Hbody : ∀ route e,
    route_response (RouteRequest.max_journeys request)
      (RouteRequest.is_reversed request) route = Raise e →
    (∃ err, e = RequestException err
            ∧ trip_search_fails (RouteRequest.is_reversed request) route err)
    ∨ unhandled e = true).
  { intros route e Hr. unfold route_response in Hr.
    apply bind_Raise in Hr as [Hr | (data & _ & Hr)].
    - left. by apply fetch_trips_Raise.
    - right. revert e Hr.
      change (raises_unhandled
        (transform_trips (RouteRequest.max_journeys request) data ≫= λ transformed_trips,
           fetch_disruptions (station_codes (RouteRequest.is_reversed request) route) []
           ≫= λ disruptions,
             Ok (RouteResponse.Build (route_key (RouteRequest.is_reversed request) route)
                   transformed_trips disruptions))).
      pose proof raises_unhandled_transform_trips.
      pose proof raises_unhandled_fetch_disruptions. unhandled_steps. }
  unfold get_train_routes.
  destruct (for_append _ _ _) as [rs|e0] eqn:Hloop; [by split|].
  apply for_append_Raise in Hloop as (pre & route & post & zs & Hroutes & _ & Hr).
  destruct (Hbody route e0 Hr) as [(err & -> & Hfail) | Hplain].
  - simpl. split; [|done]. intros c d [= <- <-]. split; [done|].
    exists route, err. split_and!; [|done|done]. rewrite Hroutes.
    apply elem_of_app. right. apply list_elem_of_here.
  - destruct e0; try done; simpl; by split.
Qed.

End Unhandled.

(** A reversed batch against the test double: the trip search is not found,
    and the handler raises the [HTTPException] with status 500. *)
Lemma train_routes_HTTPException_only_from_trip_search_witness :
  ∃ status_code detail,
    @get_train_routes strict test_environment
      (RouteRequest.Build [utrecht_amsterdam] 5 true)
    = Raise (HTTPException status_code detail)
    ∧ status_code = 500.
Proof.
  eexists _, _. split; [vm_compute; reflexivity|].
  eapply (@train_routes_HTTPException_only_from_trip_search strict test_environment
            (RouteRequest.Build [utrecht_amsterdam] 5 true)).
  vm_compute. reflexivity.
Defined.

(** ** The trips and legs of a route *)

Section Trip_properties.
Context `{Pydantic, Environment, Unicode}.

Lemma length_slice_to_min {A} (n : Z) (l : list A) :
  0 ≤ n → length (slice_to n l) = Nat.min (Z.to_nat n) (length l).
Proof.
  intros Hn. unfold slice_to. destruct (Z.leb_spec 0 n); [|lia]. apply length_take.
Qed.

(** X1. For a cap that is not negative, the trips of a route are the first
    [max_journeys] trips of the upstream list (all of them when there are
    fewer), transformed in upstream order, the one at position [i] with
    [idx = i]. *)
Theorem trips_are_the_first_max_journeys :
  ∀ max_journeys is_reversed route r trips_data upstream,
    route_response max_journeys is_reversed route = Ok r →
    fetch_trips is_reversed route = Ok trips_data →
    py_get trips_data "trips" = Ok (JList upstream) →
    0 ≤ max_journeys →
    length (RouteResponse.trips r) = Nat.min (Z.to_nat max_journeys) (length upstream)
    ∧ ∀ (i : nat) t,
        RouteResponse.trips r !! i = Some t →
        Trip.idx t = Z.of_nat i
        ∧ ∃ trip, upstream !! i = Some trip ∧ transform_trip (Z.of_nat i) trip = Ok t.
Proof.
  intros max_journeys is_reversed route r trips_data upstream Hr Hfetch Hget Hmax.
  unfold route_response in Hr. rewrite Hfetch in Hr. simpl in Hr. ok_inv. subst r. simpl.
  match goal with Ht : transform_trips _ _ = Ok ?ts |- _ =>
    destruct (transform_trips_Ok _ upstream _ ts Hget Ht) as (Hlen & Hall & Hidx & _) end.
  split; [by rewrite Hlen, length_slice_to_min|].
  intros i t Ht. split; [by apply Hidx|].
  destruct (slice_to max_journeys upstream !! i) as [trip|] eqn:Htrip.
  - destruct (Hall i trip Htrip) as (t' & Ht' & Htransform). simplify_eq.
    exists trip. split; [|done]. unfold slice_to in Htrip.
    destruct (0 <=? max_journeys); by apply lookup_take_Some in Htrip as [? _].
  - apply lookup_ge_None in Htrip. apply lookup_lt_Some in Ht. lia.
Qed.

(** X6. The legs of a transformed trip are the transformed legs of the
    upstream trip, one per upstream leg and in upstream order; a trip
    without legs, or with [legs] null, has none. *)
Theorem legs_of_a_trip_in_upstream_order :
  ∀ idx (trip : gmap string json) t,
    transform_trip idx (JDict trip) = Ok t →
    (∀ upstream, trip !! "legs" = Some (JList upstream) →
       Forall2 (λ leg l, transform_leg leg = Ok l) upstream (Trip.legs t))
    ∧ (trip !! "legs" = None ∨ trip !! "legs" = Some JNull → Trip.legs t = []).
Proof.
  intros idx trip t Ht. unfold transform_trip in Ht.
  apply bind_Ok in Ht as (legs & Hlegs & Ht). ok_inv.
  unfold make_Trip in Ht. apply validated_Ok in Ht. fields_inv Ht. subst t. simpl.
  unfold transform_legs in Hlegs. simpl in Hlegs. split.
  - intros upstream Hup. rewrite Hup in Hlegs. simpl in Hlegs.
    destruct upstream as [|leg upstream]; simpl in Hlegs.
    { injection Hlegs as <-. constructor. }
    rewrite ?Hup in Hlegs. simpl in Hlegs.
    apply (for_append_Ok transform_leg (leg :: upstream) []) in Hlegs as (zs & -> & Hzs).
    done.
  - intros [Hnone | Hnull]; [rewrite Hnone in Hlegs | rewrite Hnull in Hlegs];
      simpl in Hlegs; by injection Hlegs as <-.
Qed.

(** X5. A leg has a [Product] exactly when its upstream leg carries a
    product that is not empty; its category name is then the upstream one,
    ["Train"] when that is missing or empty, and its number the upstream
    one, the empty string when that is missing or empty. *)
Theorem product_only_for_a_leg_with_product_data :
  ∀ (leg p : gmap string json) l,
    transform_leg (JDict leg) = Ok l →
    sub_object leg "product" p →
    text_or_missing (p !! "longCategoryName") →
    text_or_missing (p !! "number") →
    (Leg.product l = None ↔ p = ∅)
    ∧ ∀ product,
        Leg.product l = Some product →
        Product.longCategoryName product = first_nonempty [p !! "longCategoryName"] "Train"
        ∧ Product.number product = first_nonempty [p !! "number"] "".
Proof.
  intros leg p l Hl Hp Hlcn Hnum. unfold transform_leg in Hl. ok_inv.
  unfold make_Leg in Hl. apply validated_Ok in Hl. fields_inv Hl. subst l. simpl.
  match goal with Hprod : leg_product _ = Ok _ |- _ => rename Hprod into Hproduct end.
  unfold leg_product in Hproduct. simpl in Hproduct.
  unfold sub_object in Hp. destruct (leg !! "product"%string) as [[| | | | | |m]|] eqn:Hleg;
    try done; simpl in Hproduct.
  - subst m. destruct (bool_decide (p = ∅)) eqn:Hempty; simpl in Hproduct.
    + apply bool_decide_eq_true in Hempty. injection Hproduct as <-. by split.
    + apply bool_decide_eq_false in Hempty.
      unfold nested_get in Hproduct. simpl in Hproduct. rewrite Hleg in Hproduct.
      simpl in Hproduct.
      assert (Hchain : ∀ v dflt, text_or_missing v →
                py_or_else (default JNull v) (Ok (JStr dflt))
                = Ok (JStr (first_nonempty [v] dflt))).
      { intros [[| | | |s'| |]|] dflt Hv; try done; simpl. unfold py_or_else. simpl.
        by destruct (String.eqb s' ""). }
      rewrite !Hchain in Hproduct by done. simpl in Hproduct.
      unfold make_Product in Hproduct. rewrite !validate_str_str in Hproduct.
      simpl in Hproduct. injection Hproduct as <-.
      split; [by split|]. by intros product [= <-].
  - subst p. injection Hproduct as <-. by split.
Qed.

(** X8. A trip search that answers with JSON that is not an object makes
    the handler raise [AttributeError], not its [HTTPException], when the
    routes before it were answered. *)
Theorem trip_search_body_not_an_object :
  ∀ request pre route post trips_data,
    RouteRequest.routes request = pre ++ route :: post →
    Forall (λ route', ∃ r,
              route_response (RouteRequest.max_journeys request)
                (RouteRequest.is_reversed request) route' = Ok r) pre →
    fetch_trips (RouteRequest.is_reversed request) route = Ok trips_data →
    (∀ m, trips_data ≠ JDict m) →
    get_train_routes request = Raise AttributeError.
Proof.
  intros request pre route post trips_data Hroutes Hpre Hfetch Hshape.
  unfold get_train_routes.
  assert (Hloop : for_append
            (route_response (RouteRequest.max_journeys request)
               (RouteRequest.is_reversed request))
            (RouteRequest.routes request) [] = Raise AttributeError); [|by rewrite Hloop].
  apply for_append_Raise.
  assert (∃ zs, Forall2 (λ x z, route_response (RouteRequest.max_journeys request)
             (RouteRequest.is_reversed request) x = Ok z) pre zs) as (zs & Hzs).
  { clear Hroutes. induction Hpre as [|x pre (r & Hr) _ (zs & IH)].
    - by exists [].
    - exists (r :: zs). by constructor. }
  exists pre, route, post, zs. split_and!; [done|done|].
  unfold route_response. rewrite Hfetch. simpl. unfold transform_trips.
  destruct trips_data; try done. by destruct (Hshape m eq_refl).
Qed.

End Trip_properties.

(** ** The disruptions of a route, station by station *)

Lemma prepend_prepend {A} (a b : list A) (m : result (list A)) :
  prepend a (prepend b m) = prepend (a ++ b) m.
Proof. destruct m; simpl; [by rewrite app_assoc | done]. Qed.

Lemma bind_prepend {A B} (m : result A) (f : A → list B → result (list B)) (acc : list B) :
  (∀ a, f a acc = prepend acc (f a [])) →
  (m ≫= λ a, f a acc) = prepend acc (m ≫= λ a, f a []).
Proof. intros Hf. destruct m; simpl; [apply Hf | done]. Qed.

Section Station_properties.
Context `{Pydantic, Environment, Unicode}.

Lemma append_active_prepend items acc :
  append_active items acc = prepend acc (append_active items []).
Proof.
  revert acc. induction items as [|u items IH]; intros acc; simpl.
  - by rewrite app_nil_r.
  - destruct (py_get u "isActive") as [a|e]; simpl; [|done].
    destruct (truthy a); [|apply IH].
    destruct (transform_disruption u) as [d|e]; simpl; [|done].
    rewrite (IH (acc ++ [d])), (IH [d]). by rewrite prepend_prepend.
Qed.

Lemma station_disruptions_prepend station_code acc :
  station_disruptions station_code acc = prepend acc (station_disruptions station_code []).
Proof.
  unfold station_disruptions. cbv zeta.
  destruct (http_get _ _) as [r|]; [|done]. cbn [mbind result_bind].
  destruct (ok r); [|by simpl; rewrite app_nil_r].
  destruct (response_json _ r) as [data|]; [|done]. cbn [mbind result_bind].
  destruct (py_get_default data "payload" (JDict ∅)) as [payload|]; [|done].
  cbn [mbind result_bind].
  destruct (py_get payload "disruptions") as [l|]; [|done]. cbn [mbind result_bind].
  destruct (truthy l); [|by simpl; rewrite app_nil_r].
  destruct (py_getitem data "payload") as [payload'|]; [|done]. cbn [mbind result_bind].
  destruct (py_getitem payload' "disruptions") as [l'|]; [|done]. cbn [mbind result_bind].
  destruct (py_iter l') as [items|]; [|done]. cbn [mbind result_bind].
  apply append_active_prepend.
Qed.

(** What a station adds does not depend on what was collected before. *)
Lemma try_station_prepend station_code acc :
  try_station station_code acc = prepend acc (try_station station_code []).
Proof.
  unfold try_station. rewrite (station_disruptions_prepend station_code acc).
  destruct (station_disruptions station_code []) as [new|[]]; simpl; try done.
  by rewrite app_nil_r.
Qed.

Lemma fetch_disruptions_concat station_codes acc ds :
  fetch_disruptions station_codes acc = Ok ds
  ↔ ∃ lists,
      Forall2 (λ station_code l, try_station station_code [] = Ok l) station_codes lists
      ∧ ds = acc ++ concat lists.
Proof.
  revert acc. induction station_codes as [|c cs IH]; intros acc; simpl.
  - split.
    + intros [= <-]. exists []. split; [constructor | by rewrite app_nil_r].
    + intros (lists & Hlists & ->). apply Forall2_nil_inv_l in Hlists as ->.
      simpl. by rewrite app_nil_r.
  - rewrite bind_Ok. setoid_rewrite IH. rewrite (try_station_prepend c acc). split.
    + intros (mid & Hmid & lists & Hlists & ->).
      destruct (try_station c []) as [l|] eqn:Hc; [|done]. injection Hmid as <-.
      exists (l :: lists). split; [by constructor | simpl; by rewrite app_assoc].
    + intros (lists & Hlists & ->).
      apply Forall2_cons_inv_l in Hlists as (l & lists' & Hl & Hlists & ->).
      rewrite Hl. simpl. exists (acc ++ l). split; [done|].
      exists lists'. split; [done | by rewrite app_assoc].
Qed.

(** X3. The disruptions of a route are those of its station codes in the
    order of the lookups, the effective origin's before the effective
    destination's, each list as that station's lookup alone gives it. *)
Theorem disruptions_station_by_station :
  ∀ max_journeys is_reversed route r,
    route_response max_journeys is_reversed route = Ok r →
    ∃ lists,
      Forall2 (λ station_code l, try_station station_code [] = Ok l)
        (station_codes is_reversed route) lists
      ∧ RouteResponse.disruptions r = concat lists.
Proof.
  intros max_journeys is_reversed route r Hr. unfold route_response in Hr. ok_inv.
  subst r. simpl.
  match goal with Hf : fetch_disruptions _ _ = Ok _ |- _ =>
    apply fetch_disruptions_concat in Hf as (lists & Hlists & ->) end.
  by exists lists.
Qed.

(** X4. A station code that is absent or empty is not looked up: a route
    without station codes has no disruptions, whatever upstream reports,
    and no route has more than two lookups. *)
Theorem no_station_code_no_disruptions :
  ∀ max_journeys is_reversed route r,
    route_response max_journeys is_reversed route = Ok r →
    (length (station_codes is_reversed route) ≤ 2)%nat
    ∧ ((Route.fromStationCode route = None ∨ Route.fromStationCode route = Some ""%string) →
       (Route.toStationCode route = None ∨ Route.toStationCode route = Some ""%string) →
       RouteResponse.disruptions r = []).
Proof.
  intros max_journeys is_reversed route r Hr. split.
  - unfold station_codes. simpl.
    destruct (code_given (actual_from_station_code is_reversed route)),
      (code_given (actual_to_station_code is_reversed route)); simpl; lia.
  - intros Hfrom Hto. unfold route_response in Hr. ok_inv. subst r. simpl.
    assert (Hcodes : station_codes is_reversed route = []).
    { unfold station_codes, actual_from_station_code, actual_to_station_code.
      destruct is_reversed, Hfrom as [-> | ->], Hto as [-> | ->]; done. }
    rewrite Hcodes in *. simpl in *. congruence.
Qed.

(** X7. The fields of a [Disruption] that upstream leaves out take their
    defaults: the empty id, the title ["Unknown disruption"] and the
    impact value 1; the impact always maps the single key ["value"], and
    the disruption is marked active. *)
Theorem disruption_defaults :
  ∀ (u : gmap string json) d,
    transform_disruption (JDict u) = Ok d →
    Disruption.isActive d = true
    ∧ (∃ value, Disruption.impact d = {[ "value"%string := value ]})
    ∧ (u !! "id" = None → Disruption.id d = ""%string)
    ∧ (u !! "title" = None → Disruption.title d = "Unknown disruption"%string)
    ∧ (u !! "impact" = None → Disruption.impact d = {[ "value"%string := 1 ]}).
Proof.
  intros u d Hd. unfold transform_disruption in Hd. simpl in Hd.
  apply bind_Ok in Hd as (value & Hvalue & Hd).
  unfold make_Disruption in Hd. apply validated_Ok in Hd. fields_inv Hd. subst d. simpl.
  split_and!; [done|by eauto| | |].
  - intros Hid. rewrite Hid in *. simpl in *. rewrite validate_str_str in *. congruence.
  - intros Htitle. rewrite Htitle in *. simpl in *. rewrite validate_str_str in *.
    congruence.
  - intros Himpact. rewrite Himpact in Hvalue. simpl in Hvalue. injection Hvalue as <-.
    match goal with Hv : validate_int _ = Some _ |- _ =>
      change (validate_int (JInt 1) = Some z) in Hv; rewrite validate_int_int in Hv end.
    congruence.
Qed.

End Station_properties.

(** ** Car routes: reversal, upstream status, fallbacks *)

Lemma Forall_Ok_Forall2 {A B} (body : A → result B) (xs : list A) :
  Forall (λ x, ∃ y, body x = Ok y) xs → ∃ ys, Forall2 (λ x y, body x = Ok y) xs ys.
Proof.
  induction 1 as [|x xs (y & Hy) _ (ys & IH)]; [by exists []|].
  exists (y :: ys). by constructor.
Qed.

(** The loop raises what its body raises at the first element it does not
    return for. *)
Lemma for_append_first_Raise {A B} (body : A → result B) (pre : list A) (x : A)
    (post : list A) (e : exn) :
  Forall (λ x, ∃ y, body x = Ok y) pre → body x = Raise e →
  for_append body (pre ++ x :: post) [] = Raise e.
Proof.
  intros Hpre Hx. apply Forall_Ok_Forall2 in Hpre as (ys & Hys).
  apply for_append_Raise. by exists pre, x, post, ys.
Qed.

Section Car_properties.
Context `{Pydantic, Environment, Unicode}.

Lemma current_route_reversed route :
  current_route true route = current_route false (reversed_car_route route).
Proof. by destruct route. Qed.

(** X9. With [is_reversed] a car batch is answered as the batch of the
    exchanged routes without reversal: origin and destination are
    exchanged in the upstream calls, and each response is from the
    destination name to the origin name of its route, with the route's
    id. *)
Theorem car_is_reversed_swaps_origin_and_destination :
  ∀ routes : list CarRoute.t,
    get_car_routes (CarRouteRequest.Build routes true)
    = get_car_routes (CarRouteRequest.Build (reversed_car_route <$> routes) false)
    ∧ ∀ responses,
        get_car_routes (CarRouteRequest.Build routes true) = Ok responses →
        Forall2
          (λ route r,
             CarTripResponse.id r = CarRoute.id route
             ∧ CarTripResponse.from_location r = CarRoute.destinationName route
             ∧ CarTripResponse.to r = CarRoute.originName route)
          routes responses.
Proof.
  intros routes. split.
  - unfold get_car_routes. simpl. f_equal. f_equal.
    rewrite <- list_fmap_compose. apply list_fmap_ext. intros i route _. simpl.
    apply current_route_reversed.
  - intros responses Hr. unfold get_car_routes in Hr. simpl in Hr.
    apply except_RequestException_Ok, for_append_Ok in Hr as (zs & -> & Hzs).
    simpl. apply Forall2_fmap_l in Hzs. eapply Forall2_impl; [exact Hzs|].
    simpl. intros route r Hresp. by apply car_trip_response_route in Hresp as (? & ? & ? & _).
Qed.

Lemma google_call_answers url prefix (m : gmap string json) :
  call_answers (requests_get url []) (JDict m) →
  google_call url prefix
  = match m !! "status" with
    | Some st =>
        if py_ne_str st "OK" then Raise (HTTPException 500 (prefix +:+ py_str repr st))
        else Ok (JDict m)
    | None => Raise KeyError
    end.
Proof.
  unfold call_answers, google_call, http_get, raise_for_status, response_json.
  destruct (requests_get url []) as [msg|r]; [done|]. intros [Herr Hbody]. simpl.
  rewrite Herr. simpl. rewrite Hbody. simpl.
  destruct (m !! "status"%string) as [st|]; simpl; [|done].
  by destruct (py_ne_str st "OK").
Qed.

(** X10. A distance matrix that answers with a status other than ["OK"]
    makes the whole batch fail with the [HTTPException] of status 500
    whose detail names that status, when the routes before were answered;
    so does a directions answer, with its own detail, once the distance
    matrix of the route was read. *)
Theorem google_status_not_OK_aborts_the_batch :
  ∀ request pre route post (m : gmap string json) status,
    current_route (CarRouteRequest.is_reversed request) <$> CarRouteRequest.routes request
    = pre ++ route :: post →
    Forall (λ route', ∃ r, car_trip_response route' = Ok r) pre →
    m !! "status" = Some (JStr status) →
    status ≠ "OK"%string →
    (call_answers (requests_get (distance_matrix_url route) []) (JDict m) →
     get_car_routes request
     = Raise (HTTPException 500 ("Distance Matrix API error: " +:+ status)))
    ∧ (∀ distance_matrix_data element distance duration duration_in_traffic,
         google_call (distance_matrix_url route) "Distance Matrix API error: "
         = Ok distance_matrix_data →
         first_element distance_matrix_data = Ok element →
         nested_getitem element "distance" "text" = Ok distance →
         nested_getitem element "duration" "text" = Ok duration →
         in_traffic element "text" duration = Ok duration_in_traffic →
         call_answers (requests_get (directions_url route) []) (JDict m) →
         get_car_routes request
         = Raise (HTTPException 500 ("Directions API error: " +:+ status))).
Proof.
  intros request pre route post m status Hroutes Hpre Hstatus Hne.
  assert (Hcall : ∀ url prefix,
    call_answers (requests_get url []) (JDict m) →
    google_call url prefix = Raise (HTTPException 500 (prefix +:+ status))).
  { intros url prefix Hanswers. rewrite (google_call_answers url prefix m Hanswers), Hstatus.
    simpl. by rewrite (proj2 (String.eqb_neq status "OK") Hne). }
  split.
  - intros Hanswers. unfold get_car_routes. cbv zeta. rewrite Hroutes.
    rewrite (for_append_first_Raise _ pre route post
               (HTTPException 500 ("Distance Matrix API error: " +:+ status))); [done..|].
    unfold car_trip_response. by rewrite (Hcall _ _ Hanswers).
  - intros data element distance duration dit Hdm Helement Hdistance Hduration Hdit Hanswers.
    unfold get_car_routes. cbv zeta. rewrite Hroutes.
    rewrite (for_append_first_Raise _ pre route post
               (HTTPException 500 ("Directions API error: " +:+ status))); [done..|].
    unfold car_trip_response. rewrite Hdm. simpl. rewrite Helement. simpl.
    rewrite Hdistance. simpl. rewrite Hduration. simpl. rewrite Hdit. simpl.
    by rewrite (Hcall _ _ Hanswers).
Qed.

(** X12. The duration-in-traffic text of a response is the plain duration
    text when the element has no [duration_in_traffic], or one without
    [text]; it is the traffic text when the element has one. *)
Theorem duration_in_traffic_text_falls_back :
  ∀ route r distance_matrix_data (element : gmap string json),
    car_trip_response route = Ok r →
    google_call (distance_matrix_url route) "Distance Matrix API error: "
    = Ok distance_matrix_data →
    first_element distance_matrix_data = Ok (JDict element) →
    (element !! "duration_in_traffic" = None →
     CarTripResponse.durationInTraffic r = CarTripResponse.duration r)
    ∧ (∀ t : gmap string json,
         element !! "duration_in_traffic" = Some (JDict t) →
         (t !! "text" = None →
          CarTripResponse.durationInTraffic r = CarTripResponse.duration r)
         ∧ (∀ s, t !! "text" = Some (JStr s) → CarTripResponse.durationInTraffic r = s)).
Proof.
  intros route r data element Hr Hdm Helement. unfold car_trip_response in Hr.
  rewrite Hdm in Hr. simpl in Hr. rewrite Helement in Hr. simpl in Hr. ok_inv.
  apply make_CarTripResponse_Ok in Hr as (d' & u' & t' & Hd & Hu & Ht & ->). simpl.
  match goal with Hin : in_traffic _ _ _ = Ok _ |- _ => rename Hin into Hdit end.
  unfold in_traffic in Hdit. simpl in Hdit. split.
  - intros Hnone. rewrite Hnone in Hdit. simpl in Hdit. rewrite lookup_empty in Hdit.
    simpl in Hdit. injection Hdit as <-. congruence.
  - intros t Hsome. rewrite Hsome in Hdit. simpl in Hdit. injection Hdit as <-. split.
    + intros Hnone. rewrite Hnone in Ht. simpl in Ht. congruence.
    + intros s Hs. rewrite Hs in Ht. simpl in Ht. rewrite validate_str_str in Ht. congruence.
Qed.

End Car_properties.

Section Road_names_loop.
Context `{Unicode}.

(** X13. The loop over the steps keeps at most three road names, and once
    it has three it reads no further step: steps after them, well formed
    or not, change nothing. *)
Theorem at_most_three_road_names :
  ∀ steps road_names,
    collect_road_names steps [] = Ok road_names →
    (length road_names ≤ 3)%nat
    ∧ (length road_names = 3%nat →
       ∀ more, collect_road_names (steps ++ more) [] = Ok road_names).
Proof.
  assert (Hloop : ∀ steps acc road_names,
    (length acc < 3)%nat →
    collect_road_names steps acc = Ok road_names →
    (length road_names ≤ 3)%nat
    ∧ (length road_names = 3%nat →
       ∀ more, collect_road_names (steps ++ more) acc = Ok road_names)).
  { induction steps as [|step steps IH]; intros acc road_names Hacc Hsteps.
    - simpl in Hsteps. injection Hsteps as <-. split; [lia|]. intros. lia.
    - assert (∃ s, py_getitem step "html_instructions" = Ok (JStr s)) as (s & Hget).
      { simpl in Hsteps. apply bind_Ok in Hsteps as (instructions & Hget & Hsteps).
        apply bind_Ok in Hsteps as (s & Htext & _).
        destruct instructions; try done. injection Htext as ->. eauto. }
      rewrite (collect_road_names_cons step steps acc s Hget) in Hsteps.
      assert (Hmore : ∀ more, collect_road_names (step :: (steps ++ more)) acc
                = match re_search road_pattern s with
                  | Some road =>
                      if (3 <=? length (acc ++ [road]))%nat then Ok (acc ++ [road])
                      else collect_road_names (steps ++ more) (acc ++ [road])
                  | None => collect_road_names (steps ++ more) acc
                  end).
      { intros more. by apply collect_road_names_cons. }
      destruct (re_search road_pattern s) as [road|] eqn:Hre.
      + destruct (3 <=? length (acc ++ [road]))%nat eqn:Hfull.
        * injection Hsteps as <-. rewrite length_app. change (length [road]) with 1%nat.
          split; [lia|]. intros _ more.
          change ((step :: steps) ++ more) with (step :: (steps ++ more)).
          rewrite Hmore, ?Hre; cbv beta iota. by rewrite ?Hfull.
        * apply Nat.leb_gt in Hfull as Hroom.
          destruct (IH (acc ++ [road]) road_names Hroom Hsteps) as [Hle Hsame].
          split; [done|]. intros Hthree more.
          change ((step :: steps) ++ more) with (step :: (steps ++ more)).
          rewrite Hmore, ?Hre; cbv beta iota. rewrite ?Hfull. by apply Hsame.
      + destruct (IH acc road_names Hacc Hsteps) as [Hle Hsame].
        split; [done|]. intros Hthree more.
        change ((step :: steps) ++ more) with (step :: (steps ++ more)).
        rewrite Hmore, ?Hre; cbv beta iota. by apply Hsame. }
  intros steps road_names. apply Hloop. simpl. lia.
Qed.

End Road_names_loop.

(** ** Car routes: which exceptions leave the handler *)

Section Car_transformations.
Context `{Unicode}.

Lemma raises_unhandled_as_text x : raises_unhandled (as_text x).
Proof. destruct x; simpl; by intros e [= <-]. Qed.

Lemma raises_unhandled_collect_road_names steps acc :
  raises_unhandled (collect_road_names steps acc).
Proof.
  revert acc. induction steps as [|step steps IH]; intros acc; cbn [collect_road_names].
  - apply raises_unhandled_Ok.
  - apply raises_unhandled_bind; [apply raises_unhandled_py_getitem | intros instructions _].
    apply raises_unhandled_bind; [apply raises_unhandled_as_text | intros s _].
    destruct (re_search road_pattern s) as [road|]; [|apply IH].
    destruct (3 <=? length (acc ++ [road]))%nat; [apply raises_unhandled_Ok | apply IH].
Qed.

Lemma raises_unhandled_route_description steps : raises_unhandled (route_description steps).
Proof.
  unfold route_description. pose proof raises_unhandled_collect_road_names. unhandled_steps.
Qed.

Lemma raises_unhandled_py_truediv x y : raises_unhandled (py_truediv x y).
Proof.
  assert (Hint : ∀ a b, raises_unhandled (int_truediv a b)).
  { intros a b e. unfold int_truediv. repeat case_match; by intros [= <-]. }
  assert (Hfloat : ∀ f g, raises_unhandled (float_truediv f g)).
  { intros f g e. unfold float_truediv. case_match; by intros [= <-]. }
  assert (Hconv : ∀ n, raises_unhandled (float_of_int n)).
  { intros n e. unfold float_of_int. case_match; by intros [= <-]. }
  unfold py_truediv. destruct (as_number x) as [[]|], (as_number y) as [[]|];
    try (by intros e [= <-]); try done.
  all: apply raises_unhandled_bind; [done | by intros].
Qed.

Lemma raises_unhandled_traffic_ratio element : raises_unhandled (traffic_ratio element).
Proof.
  unfold traffic_ratio, nested_getitem, in_traffic.
  pose proof raises_unhandled_py_truediv. unhandled_steps.
Qed.

Lemma raises_unhandled_fuel_cost distance : raises_unhandled (fuel_cost distance).
Proof.
  unfold fuel_cost. apply raises_unhandled_bind; [apply raises_unhandled_as_text|].
  intros s _. apply raises_unhandled_bind; [|intros; apply raises_unhandled_Ok].
  intros e. unfold float_of_decimal. repeat case_match; by intros [= <-].
Qed.

End Car_transformations.

Section Car_exceptions.
Context `{Pydantic, Environment, Unicode}.

Lemma google_call_Raise url prefix e :
  google_call url prefix = Raise e →
  (∃ err, e = RequestException err)
  ∨ (∃ st, e = HTTPException 500 (prefix +:+ st))
  ∨ unhandled e = true.
Proof.
  unfold google_call, http_get, raise_for_status, response_json.
  destruct (requests_get url []) as [msg|r]; simpl; [intros [= <-]; eauto|].
  destruct (is_error_status r); simpl; [intros [= <-]; eauto|].
  destruct (body r) as [data|]; simpl; [|intros [= <-]; eauto].
  intros Hrest. apply bind_Raise in Hrest as [Hrest | (st & _ & Hrest)].
  { right. right. by apply raises_unhandled_py_getitem in Hrest. }
  destruct (py_ne_str st "OK"); [|done].
  apply bind_Raise in Hrest as [Hrest | (st' & _ & Hrest)].
  { right. right. by apply raises_unhandled_py_getitem in Hrest. }
  injection Hrest as <-. eauto.
Qed.

Lemma car_trip_response_Raise route e :
  car_trip_response route = Raise e →
  (∃ err, e = RequestException err)
  ∨ (∃ st, e = HTTPException 500 ("Distance Matrix API error: " +:+ st))
  ∨ (∃ st, e = HTTPException 500 ("Directions API error: " +:+ st))
  ∨ unhandled e = true.
Proof.
  unfold car_trip_response. intros Hr.
  assert (Hplain : ∀ A (m : result A), raises_unhandled m → m = Raise e →
            (∃ err, e = RequestException err)
            ∨ (∃ st, e = HTTPException 500 ("Distance Matrix API error: " +:+ st))
            ∨ (∃ st, e = HTTPException 500 ("Directions API error: " +:+ st))
            ∨ unhandled e = true).
  { intros A m Hm He. right. right. right. by apply Hm. }
  apply bind_Raise in Hr as [Hr | (data & _ & Hr)].
  { apply google_call_Raise in Hr as [? | [? | ?]]; auto. }
  apply bind_Raise in Hr as [Hr | (element & _ & Hr)].
  { revert Hr. apply Hplain. unfold first_element. unhandled_steps. }
  apply bind_Raise in Hr as [Hr | (distance & _ & Hr)].
  { revert Hr. apply Hplain. unfold nested_getitem. unhandled_steps. }
  apply bind_Raise in Hr as [Hr | (duration & _ & Hr)].
  { revert Hr. apply Hplain. unfold nested_getitem. unhandled_steps. }
  apply bind_Raise in Hr as [Hr | (dit & _ & Hr)].
  { revert Hr. apply Hplain. unfold in_traffic. unhandled_steps. }
  apply bind_Raise in Hr as [Hr | (directions & _ & Hr)].
  { apply google_call_Raise in Hr as [? | [? | ?]]; auto. }
  apply bind_Raise in Hr as [Hr | (steps & _ & Hr)].
  { revert Hr. apply Hplain. unfold first_steps. unhandled_steps. }
  apply bind_Raise in Hr as [Hr | (description & _ & Hr)].
  { revert Hr. apply Hplain. apply raises_unhandled_route_description. }
  apply bind_Raise in Hr as [Hr | (ratio & _ & Hr)].
  { revert Hr. apply Hplain. apply raises_unhandled_traffic_ratio. }
  apply bind_Raise in Hr as [Hr | (cost & _ & Hr)].
  { revert Hr. apply Hplain. apply raises_unhandled_fuel_cost. }
  revert Hr. apply Hplain. unfold make_CarTripResponse. apply raises_unhandled_validated.
Qed.

(** X11. Every [HTTPException] of [get_car_routes] has status 500, and its
    detail is that of a failed upstream request, of a distance matrix
    status or of a directions status; a [RequestException] never leaves
    the handler. *)
Theorem car_routes_HTTPException_details :
  ∀ request : CarRouteRequest.t,
    (∀ status_code detail,
       get_car_routes request = Raise (HTTPException status_code detail) →
       status_code = 500
       ∧ ((∃ e, detail = ("Error fetching car routes: " +:+ str_of_error e)%string)
          ∨ (∃ st, detail = ("Distance Matrix API error: " +:+ st)%string)
          ∨ (∃ st, detail = ("Directions API error: " +:+ st)%string)))
    ∧ (∀ e, get_car_routes request ≠ Raise (RequestException e)).
Proof.
  intros request. unfold get_car_routes. cbv zeta.
  destruct (for_append _ _ _) as [rs|e0] eqn:Hloop; [by split|].
  apply for_append_Raise in Hloop as (pre & route & post & zs & _ & _ & Hr).
  apply car_trip_response_Raise in Hr as [(err & ->) | [(st & ->) | [(st & ->) | Hplain]]];
    simpl.
  - split; [|done]. intros c d [= <- <-]. eauto.
  - split; [|done]. intros c d [= <- <-]. eauto.
  - split; [|done]. intros c d [= <- <-]. eauto 6.
  - destruct e0; try done; simpl; by split.
Qed.

End Car_exceptions.

(** ** Fuel cost: which distance texts are numbers *)

Section Counting.
Context `{Unicode}.
Implicit Types l : list codepoint.

Let count (p : codepoint → bool) l : nat := length (filter (λ c, p c = true) l).
Let kept l : Prop := Forall (λ c, is_digit c || is_point c = true) l.

Lemma count_app p l1 l2 : count p (l1 ++ l2) = (count p l1 + count p l2)%nat.
Proof. unfold count. by rewrite filter_app, length_app. Qed.

Lemma count_cons p c l :
  count p (c :: l) = ((if p c then 1 else 0) + count p l)%nat.
Proof. unfold count. rewrite filter_cons. by destruct (p c); simpl. Qed.

Lemma count_nil p : count p [] = 0%nat.
Proof. done. Qed.

(** Among digits and points, a text without points is all digits. *)
Lemma kept_no_point_digits l :
  kept l →
  (forallb (λ c, negb (is_point c)) l = true ↔ forallb is_digit l = true)
  ∧ (forallb is_digit l = true ↔ count is_point l = 0%nat)
  ∧ (forallb is_digit l = true → count is_digit l = length l).
Proof.
  induction 1 as [|c l Hc _ (IH1 & IH2 & IH3)]; [done|]. simpl.
  rewrite !count_cons. destruct (is_point c) eqn:Hpoint.
  - rewrite (is_point_not_digit c Hpoint). simpl. split_and!; (split; done) || done.
  - rewrite orb_false_r in Hc. rewrite Hc. simpl. rewrite IH1, IH2.
    split_and!; [done|done|]. intros Hl. by rewrite IH3 by by apply IH2.
Qed.

(** [float] accepts what is left of a distance text exactly when it has a
    digit and at most one point. *)
Lemma float_of_decimal_kept l :
  chars (text l) = l →
  kept l →
  (count is_digit l = 0%nat ∨ (2 ≤ count is_point l)%nat →
   float_of_decimal (text l) = Raise ValueError)
  ∧ ((1 ≤ count is_digit l)%nat → (count is_point l ≤ 1)%nat →
     ∃ x, float_of_decimal (text l) = Ok x).
Proof.
  intros Htext Hkept. unfold float_of_decimal. rewrite Htext.
  destruct (split_point l) as [ip fp] eqn:Hsplit.
  apply split_point_app in Hsplit as [Hip Hl].
  assert (Hkept' : kept ip ∧ kept (default [] fp)).
  { subst l. unfold kept in *. apply Forall_app in Hkept as [? Hfp]. split; [done|].
    destruct fp; [by inversion Hfp | constructor]. }
  destruct Hkept' as [Hkip Hkfp].
  destruct (kept_no_point_digits ip Hkip) as (Hip1 & Hip2 & Hip3).
  destruct (kept_no_point_digits (default [] fp) Hkfp) as (_ & Hfp2 & Hfp3).
  apply Hip1 in Hip. rewrite Hip. simpl.
  assert (Hdigits : count is_digit l
                    = (length ip + count is_digit (default [] fp))%nat).
  { subst l. rewrite count_app, Hip3 by done. destruct fp; simpl; [|by rewrite count_nil].
    by rewrite count_cons, (is_point_not_digit 46%N eq_refl). }
  assert (Hpoints : count is_point l
                    = (match fp with Some _ => 1 | None => 0 end
                       + count is_point (default [] fp))%nat).
  { subst l. rewrite count_app, (proj1 Hip2 Hip). destruct fp; simpl; [|by rewrite count_nil].
    by rewrite count_cons. }
  destruct (forallb is_digit (default [] fp)) eqn:Hfp; simpl.
  - pose proof (proj1 Hfp2 eq_refl) as Hnopoint. pose proof (Hfp3 eq_refl) as Hlen.
    destruct (Nat.eqb_spec (length ip + length (default [] fp)) 0) as [Hzero | Hsome]; simpl.
    + split; [done|]. intros. destruct fp; simpl in *; lia.
    + split; [|by eauto]. intros [? | ?]; destruct fp; simpl in *; lia.
  - split; [done|]. intros _ Hle. destruct fp as [f|]; [|done].
    assert (count is_point f ≠ 0%nat) by (intros Hz; apply Hfp2 in Hz; simpl in Hz; congruence).
    simpl in *. lia.
Qed.

Lemma count_chars_stripped (p : codepoint → bool) (distance : string) :
  (∀ c, p c = true → is_digit c || is_point c = true) →
  length (filter (λ c, p c = true) (stripped distance)) = count_chars p distance.
Proof.
  intros Hp. unfold count_chars, stripped. f_equal. rewrite list_filter_filter.
  apply list_filter_iff. intros c. split; [by intros [? _] | by auto].
Qed.

(** X14. The fuel cost of a distance text is computed exactly when the
    text has at least one decimal digit and at most one point; a text with
    no digit, or with two points or more (as ["0.3 mi."]), makes [float]
    raise [ValueError], which nothing catches. The digits are the decimal
    digits of Unicode, of any script. *)
Theorem fuel_cost_needs_one_number :
  ∀ distance : string,
    (count_chars is_digit distance = 0%nat ∨ (2 ≤ count_chars is_point distance)%nat →
     fuel_cost (JStr distance) = Raise ValueError)
    ∧ ((1 ≤ count_chars is_digit distance)%nat →
       (count_chars is_point distance ≤ 1)%nat →
       ∃ cost, fuel_cost (JStr distance) = Ok cost).
Proof.
  intros distance. unfold fuel_cost. simpl. rewrite re_sub_class_keeps.
  assert (Hkept : Forall (λ c, is_digit c || is_point c = true) (stripped distance)).
  { apply Forall_forall. intros c Hc. by apply list_elem_of_filter in Hc as [? _]. }
  destruct (float_of_decimal_kept (stripped distance) (chars_stripped distance) Hkept)
    as [Hbad Hgood].
  unfold count in Hbad, Hgood.
  rewrite !count_chars_stripped in Hbad, Hgood
    by (intros c Hc; rewrite ?Hc, ?orb_true_r; done).
  split.
  - intros Hcounts. by rewrite (Hbad Hcounts).
  - intros Hdigit Hpoint. destruct (Hgood Hdigit Hpoint) as (x & ->). simpl. eauto.
Qed.

End Counting.

(** ** The station list and the passthrough handlers *)

Section Passthrough_properties.
Context `{Pydantic, Environment, ParamsClient}.

Lemma stations_call_answers (data : gmap string json) :
  call_answers (requests_get stations_url subscription_headers) (JDict data) →
  get_train_stations
  = except_RequestException "Error fetching train stations: " (
      items ← py_iter (default (JList []) (data !! "payload"));
      for_append transform_station items []).
Proof.
  unfold call_answers, get_train_stations, http_get, raise_for_status, response_json.
  destruct (requests_get _ _) as [msg|r]; [done|]. intros [Herr Hbody]. simpl.
  rewrite Herr. simpl. by rewrite Hbody.
Qed.

(** X16. When the station list call answers with an object, the handler
    returns one [TrainStation] per record of its payload, in payload order
    (none when the object has no payload); when the call fails, it raises
    the [HTTPException] of status 500 that names the error. *)
Theorem stations_one_per_record_in_order :
  (∀ data : gmap string json,
     call_answers (requests_get stations_url subscription_headers) (JDict data) →
     (data !! "payload" = None → get_train_stations = Ok [])
     ∧ (∀ items,
          data !! "payload" = Some (JList items) →
          ∀ stations,
            get_train_stations = Ok stations
            ↔ Forall2 (λ station s, transform_station station = Ok s) items stations))
  ∧ (∀ e,
       call_fails (requests_get stations_url subscription_headers) stations_url e →
       get_train_stations
       = Raise (HTTPException 500 ("Error fetching train stations: " +:+ str_of_error e))).
Proof.
  split.
  - intros data Hanswers. rewrite (stations_call_answers data Hanswers). split.
    + by intros ->.
    + intros items -> stations. simpl.
      rewrite except_RequestException_Ok, for_append_Ok.
      split; [by intros (zs & -> & Hzs) | intros Hzs; by exists stations].
  - intros e. unfold call_fails, get_train_stations, http_get, raise_for_status,
      response_json.
    destruct (requests_get _ _) as [msg|r]; simpl; [by intros ->|].
    destruct (is_error_status r); simpl; [by intros ->|].
    by intros [-> ->].
Qed.

Lemma passthrough_passes_through prefix url outcome :
  passes_through (passthrough prefix url outcome) prefix url outcome.
Proof.
  unfold passes_through, passthrough, call_answers, call_fails, raise_for_status,
    response_json.
  destruct outcome as [msg|r]; simpl.
  - split; [by split|]. intros e' [= <-]. eauto.
  - destruct (is_error_status r); simpl.
    + split; [split; [done | by intros [? _]]|]. intros e' [= <-]. eauto.
    + destruct (body r) as [j|]; simpl.
      * split; [|done]. intros j'. split; [by intros [= ->] | by intros [_ [= ->]]].
      * split; [split; [done | by intros [_ ?]]|]. intros e' [= <-]. eauto.
Qed.

(** X17. The three passthrough handlers return the decoded body of their
    upstream call as it is, exactly when the call answers with a status
    that is no error and a JSON body; otherwise they raise the
    [HTTPException] of status 500 with their own prefix and the error of
    the call, and nothing else. Directions asked without a mode are asked
    for ["transit"]. *)
Theorem passthrough_handlers_pass_through :
  ∀ address origin destination mode station_code,
    passes_through (geocode_address address) "Error geocoding address: "
      (prepared_url geocode_url [("address", address); ("key", GOOGLE_MAPS_API_KEY)]%string)
      (requests_get_params geocode_url
         [("address", address); ("key", GOOGLE_MAPS_API_KEY)]%string)
    ∧ passes_through (get_directions origin destination (Some mode))
        "Error getting directions: "
        (prepared_url get_directions_url
           [("origin", origin); ("destination", destination); ("mode", mode);
            ("key", GOOGLE_MAPS_API_KEY)]%string)
        (requests_get_params get_directions_url
           [("origin", origin); ("destination", destination); ("mode", mode);
            ("key", GOOGLE_MAPS_API_KEY)]%string)
    ∧ get_directions origin destination None
      = get_directions origin destination (Some "transit"%string)
    ∧ passes_through (get_train_departures station_code) "Error fetching departures: "
        (departures_url station_code)
        (requests_get (departures_url station_code) subscription_headers).
Proof.
  intros. split_and!; try apply passthrough_passes_through. done.
Qed.

End Passthrough_properties.

(** ** The further properties on the test doubles *)

(** Three upstream trips and a cap of two: the first two, with idx 0 and 1. *)
Lemma trips_are_the_first_max_journeys_witness :
  ∃ r,
    @route_response strict test_environment 2 false utrecht_amsterdam = Ok r
    ∧ length (RouteResponse.trips r) = 2%nat
    ∧ Trip.idx <$> RouteResponse.trips r = [0; 1].
Proof.
  eexists. split; [vm_compute; reflexivity|].
  split; [|reflexivity].
  eapply (@trips_are_the_first_max_journeys strict test_environment 2 false
            utrecht_amsterdam _ _ [upstream_trip 27; upstream_trip 31; upstream_trip 40]);
    [vm_compute; reflexivity | vm_compute; reflexivity | vm_compute; reflexivity | lia].
Defined.

(** The trip of the test double has one leg, built from its upstream leg. *)
Lemma legs_of_a_trip_in_upstream_order_witness :
  ∃ t,
    @transform_trip strict 0 (upstream_trip 27) = Ok t
    ∧ Forall2 (λ leg l, @transform_leg strict leg = Ok l)
        [upstream_leg "IC 1234"] (Trip.legs t).
Proof.
  eexists. split; [vm_compute; reflexivity|].
  eapply (@legs_of_a_trip_in_upstream_order strict 0
            (list_to_map
               [("plannedDurationInMinutes", JInt 27); ("transfers", JInt 0);
                ("status", JStr "NORMAL"); ("legs", JList [upstream_leg "IC 1234"])]%string));
    [vm_compute; reflexivity | reflexivity].
Defined.

(** The leg of the test double carries a product without category name. *)
Lemma product_only_for_a_leg_with_product_data_witness :
  ∃ l,
    @transform_leg strict (upstream_leg "IC 1234") = Ok l
    ∧ ∀ product,
        Leg.product l = Some product →
        Product.longCategoryName product = "Train"%string
        ∧ Product.number product = "1234"%string.
Proof.
  eexists. split; [vm_compute; reflexivity|].
  match goal with |- ∀ product, Leg.product ?l = _ → _ =>
    destruct (@product_only_for_a_leg_with_product_data strict
       (list_to_map
          [("product", obj [("displayName", JStr "IC 1234"); ("number", JStr "1234")]);
           ("direction", JStr "Amsterdam Centraal");
           ("origin", obj [("plannedDateTime", JStr "2024-01-01T10:00:00+0100");
                           ("plannedTrack", JStr "5")])]%string)
       (list_to_map [("displayName", JStr "IC 1234"); ("number", JStr "1234")]%string) l)
      as [_ Hproduct];
      [vm_compute; reflexivity | vm_compute; reflexivity | exact I | exact I |]
  end.
  intros product Hsome. destruct (Hproduct product Hsome) as [Hname Hnumber].
  vm_compute in Hname, Hnumber. split; [exact Hname | exact Hnumber].
Defined.

(** The trip search from Zeist answers with a JSON list. *)
Lemma trip_search_body_not_an_object_witness :
  @get_train_routes strict test_environment_more
    (RouteRequest.Build [utrecht_amsterdam; zeist_utrecht] 5 false)
  = Raise AttributeError.
Proof.
  apply (@trip_search_body_not_an_object strict test_environment_more
           (RouteRequest.Build [utrecht_amsterdam; zeist_utrecht] 5 false)
           [utrecht_amsterdam] zeist_utrecht [] (JList [])).
  - reflexivity.
  - constructor; [|constructor]. eexists. vm_compute. reflexivity.
  - vm_compute. reflexivity.
  - discriminate.
Defined.

(** Station UT reports one active disruption, the lookup of station ASD
    fails: the list of UT followed by the empty list. *)
Lemma disruptions_station_by_station_witness :
  ∃ r l,
    @route_response strict test_environment 5 false utrecht_amsterdam = Ok r
    ∧ @try_station strict test_environment "UT" [] = Ok l
    ∧ RouteResponse.disruptions r = l ++ [].
Proof.
  destruct (@disruptions_station_by_station strict test_environment 5 false
              utrecht_amsterdam
              (RouteResponse.Build "Utrecht-Amsterdam"
                 (default [] (match @transform_trips strict 5
                      (obj [("trips", JList [upstream_trip 27; upstream_trip 31;
                                              upstream_trip 40])]%string)
                    with Ok ts => Some ts | Raise _ => None end))
                 (default [] (match @try_station strict test_environment "UT" [] with
                              | Ok l => Some l | Raise _ => None end))))
    as (lists & Hlists & Hconcat); [vm_compute; reflexivity|].
  eexists _, _. split; [vm_compute; reflexivity|]. split; [vm_compute; reflexivity|].
  reflexivity.
Defined.

(** The route to Amsterdam without station codes. *)
Lemma no_station_code_no_disruptions_witness :
  ∃ r,
    @route_response strict test_environment 5 false
      (Route.Build "Utrecht" "Amsterdam" None (Some "")) = Ok r
    ∧ RouteResponse.disruptions r = [].
Proof.
  eexists. split; [vm_compute; reflexivity|].
  eapply (@no_station_code_no_disruptions strict test_environment 5 false
            (Route.Build "Utrecht" "Amsterdam" None (Some "")));
    [vm_compute; reflexivity | by left | by right].
Defined.

(** A disruption that upstream reports with its active flag only. *)
Lemma disruption_defaults_witness :
  ∃ d,
    @transform_disruption strict (obj [("isActive", JBool true)]%string) = Ok d
    ∧ Disruption.id d = ""%string
    ∧ Disruption.title d = "Unknown disruption"%string
    ∧ Disruption.impact d = {[ "value"%string := 1 ]}.
Proof.
  eexists. split; [vm_compute; reflexivity|].
  destruct (@disruption_defaults strict
              (list_to_map [("isActive", JBool true)]%string)
              (Disruption.Build "" "Unknown disruption" true {[ "value"%string := 1 ]}))
    as (_ & _ & Hid & Htitle & Himpact); [vm_compute; reflexivity|].
  split; [apply Hid; reflexivity|]. split; [apply Htitle; reflexivity|].
  apply Himpact. reflexivity.
Defined.

(** The distance matrix from Zeist is over its quota; the route before it
    is answered. *)
Lemma google_status_not_OK_aborts_the_batch_witness :
  @get_car_routes strict test_environment_more unicode_14
    (CarRouteRequest.Build [car_utrecht_amsterdam; car_zeist_utrecht] false)
  = Raise (HTTPException 500 "Distance Matrix API error: OVER_QUERY_LIMIT").
Proof.
  eapply (@google_status_not_OK_aborts_the_batch strict test_environment_more unicode_14
            (CarRouteRequest.Build [car_utrecht_amsterdam; car_zeist_utrecht] false)
            [car_utrecht_amsterdam] car_zeist_utrecht []
            (list_to_map [("status", JStr "OVER_QUERY_LIMIT")]%string) "OVER_QUERY_LIMIT").
  - reflexivity.
  - constructor; [|constructor]. eexists. vm_compute. reflexivity.
  - reflexivity.
  - discriminate.
  - vm_compute. split; reflexivity.
Defined.

(** The distance matrix from Amsterdam to Utrecht has no traffic data. *)
Lemma duration_in_traffic_text_falls_back_witness :
  ∃ r,
    @car_trip_response strict test_environment_more unicode_14 (current_route true car_utrecht_amsterdam)
    = Ok r
    ∧ CarTripResponse.durationInTraffic r = "30 mins"%string.
Proof.
  eexists. split; [vm_compute; reflexivity|].
  match goal with |- CarTripResponse.durationInTraffic ?r = _ =>
    destruct (@duration_in_traffic_text_falls_back strict test_environment_more unicode_14
            (current_route true car_utrecht_amsterdam) r matrix_without_traffic
            element_without_traffic)
      as [Hnone _]; [vm_compute; reflexivity ..|]
  end.
  exact (Hnone eq_refl).
Defined.

(** Three road names, then a step that is no object. *)
Lemma at_most_three_road_names_witness :
  @collect_road_names unicode_14
    ([step_with "Take the A1"; step_with "Merge onto A2"; step_with "Exit to N3"]
     ++ [JNull]) []
  = Ok ["A1"; "A2"; "N3"]%string.
Proof.
  eapply (@at_most_three_road_names unicode_14
            [step_with "Take the A1"; step_with "Merge onto A2"; step_with "Exit to N3"]);
    [vm_compute; reflexivity | reflexivity].
Defined.

(** The station list of the test double. *)
Lemma stations_one_per_record_in_order_witness :
  ∃ stations,
    @get_train_stations strict test_environment_more = Ok stations
    ∧ TrainStation.code <$> stations = ["UT"; "ASD"]%string.
Proof.
  pose proof (@stations_one_per_record_in_order strict test_environment_more)
    as [Hanswers _].
  destruct (Hanswers stations_body) as [_ Hitems]; [vm_compute; split; reflexivity|].
  specialize (Hitems stations_payload eq_refl).
  eexists. split; [apply Hitems; repeat constructor | reflexivity].
Defined.

(** ["0.3 mi."] has two points; ["٤٢.٥ km"], in Arabic-Indic digits, is a
    number. *)
Lemma fuel_cost_needs_one_number_witness :
  @fuel_cost unicode_14 (JStr "0.3 mi.") = Raise ValueError
  ∧ ∃ cost, @fuel_cost unicode_14 (JStr "٤٢.٥ km") = Ok cost.
Proof.
  split.
  - apply (@fuel_cost_needs_one_number unicode_14 "0.3 mi."). right. vm_compute. lia.
  - apply (@fuel_cost_needs_one_number unicode_14 "٤٢.٥ km"); vm_compute; lia.
Defined.

(** ** Null where an object is expected *)

Section Null_properties.
Context `{Pydantic, Environment, Unicode}.

(** X15. The default [{}] of [leg.get("product", {})] stands in for an
    absent key only: a leg whose [product] is present but no object (null,
    for one) makes [transform_leg] raise [AttributeError], and so does a
    leg without [product] whose [origin] is present but no object. *)
Theorem leg_with_null_product_or_origin :
  ∀ (leg : gmap string json) v,
    (∀ m, v ≠ JDict m) →
    (leg !! "product" = Some v → transform_leg (JDict leg) = Raise AttributeError)
    ∧ (leg !! "product" = None → leg !! "origin" = Some v →
       transform_leg (JDict leg) = Raise AttributeError).
Proof.
  intros leg v Hv.
  assert (Hget : ∀ k, py_get v k = Raise AttributeError).
  { intros k. destruct v; try done. by destruct (Hv m eq_refl). }
  split.
  - intros Hproduct. unfold transform_leg, leg_name, nested_get. simpl.
    rewrite Hproduct. simpl. by rewrite !Hget.
  - intros Hproduct Horigin.
    unfold transform_leg, leg_name, leg_plannedDepartureTime, nested_get. simpl.
    rewrite Hproduct, Horigin. simpl. rewrite !Hget. simpl.
    by rewrite !lookup_empty.
Qed.

(** X18. A disruption lookup is swallowed only when the call itself
    fails: a lookup that answers with JSON whose payload is present but no
    object (null, for one), or whose body is no object, raises
    [AttributeError], which the [try] does not catch. *)
Theorem malformed_disruption_answer_is_not_swallowed :
  ∀ station_code disruptions body,
    call_answers (requests_get (disruption_url station_code) headers) body →
    ((∀ m, body ≠ JDict m) →
     try_station station_code disruptions = Raise AttributeError)
    ∧ (∀ (data : gmap string json) v,
         body = JDict data → data !! "payload" = Some v → (∀ m, v ≠ JDict m) →
         try_station station_code disruptions = Raise AttributeError).
Proof.
  intros station_code disruptions body Hanswers.
  unfold call_answers in Hanswers.
  unfold try_station, station_disruptions, http_get, response_json, ok. cbv zeta.
  destruct (requests_get _ _) as [msg|r]; [done|]. destruct Hanswers as [Herr Hbody].
  simpl. rewrite Herr, Hbody. simpl. split.
  - intros Hshape. destruct body; try done. by destruct (Hshape m eq_refl).
  - intros data v -> Hpayload Hv. simpl. rewrite Hpayload. simpl.
    destruct v; try done. by destruct (Hv m eq_refl).
Qed.

End Null_properties.

(** A leg with [product: null]. *)
Lemma leg_with_null_product_or_origin_witness :
  @transform_leg strict (obj [("product", JNull)]%string) = Raise AttributeError.
Proof.
  eapply (proj1 (@leg_with_null_product_or_origin strict
                   (list_to_map [("product", JNull)]%string) JNull _)).
  reflexivity.
  Unshelve. discriminate.
Defined.

(** The lookup of station RTD answers with [payload: null]. *)
Lemma malformed_disruption_answer_is_not_swallowed_witness :
  @try_station strict test_environment_more "RTD" [] = Raise AttributeError.
Proof.
  destruct (@malformed_disruption_answer_is_not_swallowed strict test_environment_more
              "RTD" [] (obj [("payload", JNull)]%string)) as [_ Hpayload].
  { vm_compute. split; reflexivity. }
  apply (Hpayload (list_to_map [("payload", JNull)]%string) JNull);
    [reflexivity | reflexivity | discriminate].
Defined.
